(** * simulation.spice: netlist construction, serialisation and loading

    A shallow embedding of [src/simulation/spice.py] and the properties of
    its [NetList] and [SubCircuit] classes.

    - Python [str] values are [string]s (ASCII text), lists are [list]s, the
      private dictionary [__count_device_dict] is a [gmap string nat] and the
      unbounded, non-negative counters are [nat].
    - A [float] is a [spec_float], the binary64 values of the Standard
      Library; ['%.6e' % value] is computed exactly from the binary value.
      [float(token)] is a parameter of the loader.
    - A method that mutates [self] and may raise is a function from the state
      of the object to an outcome and the state it leaves behind, so that the
      mutations done before a [raise] stay visible.
    - Arguments whose class the source inspects at run time ([isinstance],
      attribute access) are values of [pyobj] or [pyfile].
    - A registered sub-circuit is held by value: the model does not follow
      later mutations of an object through the list that registered it.
    - The file system is a map from paths to contents, with the error that
      [open] raises for each path that cannot be opened for writing; the
      empty path, the default [filepath], can never be opened. The date and
      time strings of the header come with it.
    - A text stream is one that [open] returned in mode ['w'] or ['a+'], the
      modes this module uses: what is written goes to the end of the file.
    - [print] only talks to the console and is left out, with the line
      counter [k] of the loader that only [print] reads. *)

From Stdlib Require Import ZArith NArith Ascii String List Bool Lia.
From Stdlib Require Import Floats.SpecFloat.
From stdpp Require Import gmap strings list fin_maps.

Import ListNotations.
Local Open Scope string_scope.
Local Open Scope list_scope.

(** ** Strings *)

(** [_END_OF_LINE = '\n'] and [_ZFILL_WIDTH = 5]. *)
Definition _END_OF_LINE : string := String "010"%char EmptyString.
Definition _ZFILL_WIDTH : nat := 5.

(** [x in l] for a string [x] and a list of strings [l]. *)
Definition py_in (x : string) (l : list string) : bool :=
  existsb (String.eqb x) l.

(** [sep.join(l)]. *)
Definition join (sep : string) (l : list string) : string :=
  String.concat sep l.

(** Decimal digits. *)
Definition digit_char (d : N) : ascii := ascii_of_N (48 + d).

Fixpoint render_digits (fuel : nat) (n : N) (acc : string) : string :=
  match fuel with
  | O => acc
  | S fuel' =>
      let acc' := String (digit_char (n mod 10)) acc in
      if (n / 10 =? 0)%N then acc' else render_digits fuel' (n / 10) acc'
  end.

(** [str(n)] and ['%d' % n] for a non-negative integer. *)
Definition str_of_N (n : N) : string :=
  render_digits (S (N.size_nat n)) n "".

Definition str_of_nat (n : nat) : string := str_of_N (N.of_nat n).

Fixpoint zeros (k : nat) : string :=
  match k with
  | O => ""
  | S k' => String "0"%char (zeros k')
  end.

(** [s.zfill(width)]: zeros go after a leading sign. *)
Definition zfill (width : nat) (s : string) : string :=
  let pad := zeros (width - String.length s) in
  match s with
  | String c rest =>
      if (Ascii.eqb c "+" || Ascii.eqb c "-")%bool
      then String c (pad +:+ rest)
      else pad +:+ s
  | EmptyString => pad
  end.

(** ** ['%.6e' % value]

    The conversion is exact: a finite binary64 value [m * 2^e] is a fraction
    of two integers, the decimal exponent is found by scaling that fraction
    into [1, 10), and the seven significant digits are the nearest integer to
    the scaled fraction times [10^6], ties going to the even one. *)

Fixpoint fixed_digits (w : nat) (n : N) (acc : string) : string :=
  match w with
  | O => acc
  | S w' => fixed_digits w' (n / 10) (String (digit_char (n mod 10)) acc)
  end.

(** [m * 2^e] as numerator and denominator. *)
Definition dyadic (m : positive) (e : Z) : N * N :=
  if (0 <=? e)%Z
  then ((Npos m * 2 ^ Z.to_N e)%N, 1%N)
  else (Npos m, (2 ^ Z.to_N (- e))%N).

(** Divide by ten while the fraction is at least ten. *)
Fixpoint scale_down (fuel : nat) (num den : N) (k : Z) : N * N * Z :=
  match fuel with
  | O => (num, den, k)
  | S fuel' =>
      if (num <? 10 * den)%N then (num, den, k)
      else scale_down fuel' num (10 * den)%N (k + 1)%Z
  end.

(** Multiply by ten while the fraction is below one. *)
Fixpoint scale_up (fuel : nat) (num den : N) (k : Z) : N * N * Z :=
  match fuel with
  | O => (num, den, k)
  | S fuel' =>
      if (den <=? num)%N then (num, den, k)
      else scale_up fuel' (10 * num)%N den (k - 1)%Z
  end.

Definition normalise (num den : N) : N * N * Z :=
  let '(n1, d1, k1) := scale_down (S (N.size_nat num)) num den 0%Z in
  scale_up (S (N.size_nat den)) n1 d1 k1.

(** Nearest integer to [num / den], ties to even. *)
Definition round_half_even (num den : N) : N :=
  let q := (num / den)%N in
  let r := (num mod den)%N in
  match (2 * r ?= den)%N with
  | Lt => q
  | Gt => (q + 1)%N
  | Eq => if N.even q then q else (q + 1)%N
  end.

(** The seven digits and the decimal exponent of a positive fraction. *)
Definition sci_digits (num den : N) : N * Z :=
  let '(n, d, k) := normalise num den in
  let D := round_half_even (n * 1000000) d in
  if (D =? 10000000)%N then (1000000%N, (k + 1)%Z) else (D, k).

Definition format_exponent (k : Z) : string :=
  (if (k <? 0)%Z then "-" else "+") +:+ zfill 2 (str_of_N (Z.abs_N k)).

Definition format_e6 (value : spec_float) : string :=
  match value with
  | S754_nan => "nan"
  | S754_infinity s => if s then "-inf" else "inf"
  | S754_zero s => (if s then "-" else "") +:+ "0.000000e+00"
  | S754_finite s m e =>
      let '(num, den) := dyadic m e in
      let '(D, k) := sci_digits num den in
      (if s then "-" else "")
        +:+ String (digit_char (D / 1000000)) ("." +:+ fixed_digits 6 (D mod 1000000) "")
        +:+ "e" +:+ format_exponent k
  end.

(** The binary64 value 1000.0: [8796093022208000 * 2^-43]. *)
Definition float_1000 : spec_float := S754_finite false 8796093022208000 (-43).

(** ** Exceptions and the state-and-exception monad *)

Inductive exn : Type :=
| TypeError (msg : string)
| ValueError (msg : string)
| KeyError (key : string)
| IndexError
| AttributeError
| FileNotFoundError (path : string)
| PermissionError (path : string)
| IsADirectoryError (path : string).

Inductive result (A : Type) : Type :=
| Ok (a : A)
| Raise (e : exn).
Arguments Ok {A} a.
Arguments Raise {A} e.

Definition M (St A : Type) : Type := St -> result A * St.

Definition ret {St A} (a : A) : M St A := fun s => (Ok a, s).
Definition raise {St A} (e : exn) : M St A := fun s => (Raise e, s).
Definition bind {St A B} (m : M St A) (k : A -> M St B) : M St B :=
  fun s =>
    match m s with
    | (Ok a, s') => k a s'
    | (Raise e, s') => (Raise e, s')
    end.
Definition get {St} : M St St := fun s => (Ok s, s).
Definition modify {St} (f : St -> St) : M St unit := fun s => (Ok tt, f s).

Declare Scope py_scope.
Delimit Scope py_scope with py.
Notation "x <- m ;; k" := (bind m (fun x => k))
  (at level 100, m at next level, right associativity) : py_scope.
Notation "m ;; k" := (bind m (fun _ => k))
  (at level 100, right associativity) : py_scope.

(** ** Data model *)

(** The attributes of a [NetList]; [SC] is the class of the registered
    sub-circuits. *)
Record NetListOf (SC : Type) : Type := mkNetList {
  filepath : string;
  subcircuits : list SC;
  devices : list string;
  count_device_dict : gmap string nat;
  count_device_total : nat
}.
Arguments mkNetList {SC}.
Arguments filepath {SC}.
Arguments subcircuits {SC}.
Arguments devices {SC}.
Arguments count_device_dict {SC}.
Arguments count_device_total {SC}.

(** [class SubCircuit(NetList)]: the inherited attributes and its own.
    [subcircuit_filepath] exists only once [load_from_file] has run. *)
#[warnings="-register-all"]
Inductive SubCircuit : Type := mkSubCircuit {
  as_netlist : NetListOf SubCircuit;
  name : string;
  ext_nodes : list string;
  suffix : string;
  comment : string;
  start_line : string;
  end_line : string;
  subcircuit_filepath : option string
}.

Abbreviation NetList := (NetListOf SubCircuit).

(** What a caller may pass where the source expects a sub-circuit. *)
Inductive pyobj : Type :=
| PyStr (s : string)
| PySubCircuit (sc : SubCircuit)
| PyNetList (nl : NetList).

(** [NetList.__init__]. *)
Definition NetList_init (fp : string) : NetList :=
  mkNetList fp [] []
    (<["R" := 0]> (<["C" := 0]> (<["L" := 0]> (∅ : gmap string nat)))) 0.

Definition get_subcircuit_names (self : NetList) : list string :=
  map name (subcircuits self).

(** [obj.name]. *)
Definition attr_name {St} (o : pyobj) : M St string :=
  match o with
  | PySubCircuit sc => ret (name sc)
  | PyStr _ | PyNetList _ => raise AttributeError
  end.

Definition set_subcircuits (l : list SubCircuit) (self : NetList) : NetList :=
  mkNetList (filepath self) l (devices self)
    (count_device_dict self) (count_device_total self).
Definition set_devices (l : list string) (self : NetList) : NetList :=
  mkNetList (filepath self) (subcircuits self) l
    (count_device_dict self) (count_device_total self).
Definition set_dict (d : gmap string nat) (self : NetList) : NetList :=
  mkNetList (filepath self) (subcircuits self) (devices self)
    d (count_device_total self).
Definition set_total (n : nat) (self : NetList) : NetList :=
  mkNetList (filepath self) (subcircuits self) (devices self)
    (count_device_dict self) n.

(** [self.__count_device_dict[key] += 1], giving the new count. *)
Definition dict_incr (key : string) : M NetList nat :=
  fun self =>
    match count_device_dict self !! key with
    | Some c => (Ok (S c), set_dict (<[key := S c]> (count_device_dict self)) self)
    | None => (Raise (KeyError key), self)
    end.

Local Open Scope py_scope.

(** [NetList.add_subcircuit]. *)
Definition add_subcircuit (subcircuit : pyobj) : M NetList unit :=
  match subcircuit with
  | PySubCircuit sc =>
      modify (fun self => set_subcircuits (subcircuits self ++ [sc]) self) ;;
      modify (fun self => set_dict (<[name sc := 0]> (count_device_dict self)) self)
  | _ => raise (TypeError "subcircuit must be a SubCircuit")
  end.

(** [NetList.rlc_instance]. *)
Definition rlc_instance (device : string) (nodes : list string)
    (value : spec_float) : M NetList unit :=
  if py_in device ["R"; "L"; "C"] then
    modify (fun self => set_total (S (count_device_total self)) self) ;;
    count <- dict_incr device ;;
    let new_line :=
      device +:+ str_of_nat count +:+ " " +:+ join " " nodes +:+ " "
        +:+ format_e6 value +:+ _END_OF_LINE in
    modify (fun self => set_devices (devices self ++ [new_line]) self)
  else raise (ValueError "device must be in ['R', 'L', 'C']").

(** [obj.suffix]. *)
Definition attr_suffix {St} (o : pyobj) : M St string :=
  match o with
  | PySubCircuit sc => ret (suffix sc)
  | PyStr _ | PyNetList _ => raise AttributeError
  end.

(** [NetList.subcircuit_instance]. The [isinstance] check is commented out in
    the source, so the first thing done with the argument is [subcircuit.name]. *)
Definition subcircuit_instance (subcircuit : pyobj) (nodes : list string)
    : M NetList unit :=
  sc_name <- attr_name subcircuit ;;
  self <- get ;;
  if py_in sc_name (get_subcircuit_names self) then
    modify (fun self => set_total (S (count_device_total self)) self) ;;
    count <- dict_incr sc_name ;;
    let __subcircuit_number := zfill _ZFILL_WIDTH (str_of_nat count) in
    sc_suffix <- attr_suffix subcircuit ;;
    let new_line :=
      "X_" +:+ sc_suffix +:+ "_" +:+ __subcircuit_number +:+ " "
        +:+ join " " nodes +:+ " " +:+ sc_name +:+ _END_OF_LINE in
    modify (fun self => set_devices (devices self ++ [new_line]) self)
  else raise (ValueError (sc_name +:+ " does not exist as a subcircuit")).

(** ** Files

    The file system is a finite map from paths to contents, with the paths
    that cannot be opened for writing: [open_error path] is the [OSError] that
    [open] raises for [path] in a writing mode (a missing directory, a
    directory, a missing permission), [None] when the path can be opened.
    Reading a missing path raises. [today] and [now] are the strings that
    [strftime] gives [_write_header]. *)
Record World : Type := mkWorld {
  files : gmap string string;
  open_error : string -> option exn;
  today : string;
  now : string
}.

Definition set_files (fs : gmap string string) (w : World) : World :=
  mkWorld fs (open_error w) (today w) (now w).

(** What [open(path, 'w')] and [open(path, 'a+')] raise, before anything is
    created or truncated: [FileNotFoundError] on the empty path (the default
    [filepath] of a [NetList]), the error of the file system on any other
    path that cannot be opened. *)
Definition open_failure (w : World) (path : string) : option exn :=
  match path with
  | EmptyString => Some (FileNotFoundError path)
  | String _ _ => open_error w path
  end.

(** A text stream as [open] returns it in the modes ['w'] and ['a+'], the
    modes in which this module opens its streams: what is written goes to the
    end of the file. [pyfile] adds the other objects a caller may pass for
    [f]. *)
Record TextIOWrapper : Type := mkTextIO {
  stream_path : string;
  closed : bool
}.

Inductive pyfile : Type :=
| PyTextIO (t : TextIOWrapper)
| PyOtherObject.

(** [open(path, 'w')]: raise when the path cannot be opened, create or
    truncate otherwise. *)
Definition open_w (path : string) : M World TextIOWrapper :=
  w <- get ;;
  match open_failure w path with
  | Some e => raise e
  | None =>
      modify (fun w => set_files (<[path := ""]> (files w)) w) ;;
      ret (mkTextIO path false)
  end.

(** [open(path, 'a+')]: raise when the path cannot be opened, create when
    missing, keep the contents otherwise. *)
Definition open_a (path : string) : M World TextIOWrapper :=
  w <- get ;;
  match open_failure w path with
  | Some e => raise e
  | None =>
      modify (fun w =>
        match files w !! path with
        | Some _ => w
        | None => set_files (<[path := ""]> (files w)) w
        end) ;;
      ret (mkTextIO path false)
  end.

(** [f.write(text)] on a stream opened for writing or appending: the text
    goes to the end of the file. *)
Definition append_file (path text : string) (w : World) : World :=
  set_files (<[path := default "" (files w !! path) +:+ text]> (files w)) w.

Definition write (t : TextIOWrapper) (text : string) : M World unit :=
  if closed t then raise (ValueError "I/O operation on closed file.")
  else modify (append_file (stream_path t) text).

(** [NetList._write_comment]. *)
Definition _write_comment (f : pyfile) (comment : string) : M World unit :=
  if (0 <? String.length comment)%nat then
    match f with
    | PyTextIO t => write t ("*** " +:+ comment +:+ _END_OF_LINE)
    | PyOtherObject => raise (TypeError "f must be an io.TextIOWrapper")
    end
  else ret tt.

(** [NetList._write_header]. *)
Definition _write_header (self : NetList) : M World unit :=
  t <- open_w (filepath self) ;;
  let f := PyTextIO t in
  _write_comment f "Generated for: SPICE" ;;
  _write_comment f "By: simulation.spice python package" ;;
  w <- get ;;
  let __date_today := today w in
  let __time_now := now w in
  _write_comment f ("On: " +:+ __date_today) ;;
  _write_comment f ("At: " +:+ __time_now) ;;
  _write_comment f " ".

(** ** SubCircuit *)

Definition set_netlist (nl : NetList) (self : SubCircuit) : SubCircuit :=
  mkSubCircuit nl (name self) (ext_nodes self) (suffix self) (comment self)
    (start_line self) (end_line self) (subcircuit_filepath self).
Definition set_name (s : string) (self : SubCircuit) : SubCircuit :=
  mkSubCircuit (as_netlist self) s (ext_nodes self) (suffix self) (comment self)
    (start_line self) (end_line self) (subcircuit_filepath self).
Definition set_ext_nodes (l : list string) (self : SubCircuit) : SubCircuit :=
  mkSubCircuit (as_netlist self) (name self) l (suffix self) (comment self)
    (start_line self) (end_line self) (subcircuit_filepath self).
Definition set_suffix (s : string) (self : SubCircuit) : SubCircuit :=
  mkSubCircuit (as_netlist self) (name self) (ext_nodes self) s (comment self)
    (start_line self) (end_line self) (subcircuit_filepath self).
Definition set_start_line (s : string) (self : SubCircuit) : SubCircuit :=
  mkSubCircuit (as_netlist self) (name self) (ext_nodes self) (suffix self)
    (comment self) s (end_line self) (subcircuit_filepath self).
Definition set_end_line (s : string) (self : SubCircuit) : SubCircuit :=
  mkSubCircuit (as_netlist self) (name self) (ext_nodes self) (suffix self)
    (comment self) (start_line self) s (subcircuit_filepath self).
Definition set_subcircuit_filepath (p : string) (self : SubCircuit) : SubCircuit :=
  mkSubCircuit (as_netlist self) (name self) (ext_nodes self) (suffix self)
    (comment self) (start_line self) (end_line self) (Some p).

(** [SubCircuit._update_start_line] and [SubCircuit._update_end_line]. *)
Definition _update_start_line (self : SubCircuit) : SubCircuit :=
  set_start_line
    (".SUBCIRCUIT " +:+ name self +:+ " " +:+ join " " (ext_nodes self)
       +:+ _END_OF_LINE) self.

Definition _update_end_line (self : SubCircuit) : SubCircuit :=
  set_end_line (".ENDS " +:+ name self +:+ _END_OF_LINE) self.

(** [SubCircuit.__init__]. *)
Definition SubCircuit_init (name : string) (external_nodes : list string)
    (suffix comment : string) : SubCircuit :=
  _update_end_line
    (_update_start_line
       (mkSubCircuit (NetList_init "") name external_nodes suffix comment
          "" "" None)).

(** A [NetList] method run on a [SubCircuit]. *)
Definition inherited {A} (m : M NetList A) : M SubCircuit A :=
  fun self =>
    let '(r, nl) := m (as_netlist self) in (r, set_netlist nl self).

(** [SubCircuit._write_subcircuit]: writes to [f] and gives back [self] with
    its bracketing lines, and those of the nested sub-circuits, refreshed. *)
Fixpoint _write_subcircuit (self : SubCircuit) (f : pyfile) {struct self}
    : M World SubCircuit :=
  match f with
  | PyTextIO t =>
      if closed t then raise (ValueError "Write operation on closed file.")
      else
        let self1 := _update_end_line (_update_start_line self) in
        let lines := join "" (devices (as_netlist self1)) in
        _write_comment f (comment self1) ;;
        write t (start_line self1) ;;
        write t lines ;;
        nested <-
          (fix each (l : list SubCircuit) : M World (list SubCircuit) :=
             match l with
             | [] => ret []
             | subcircuit :: rest =>
                 _write_comment f " " ;;
                 _write_comment f "Inner subcircuit" ;;
                 match subcircuit_filepath subcircuit with
                 | Some p => _write_comment f ("subcircuit loaded from : " +:+ p)
                 | None => ret tt
                 end ;;
                 subcircuit' <- _write_subcircuit subcircuit f ;;
                 rest' <- each rest ;;
                 ret (subcircuit' :: rest')
             end) (subcircuits (as_netlist self)) ;;
        write t (end_line self1) ;;
        ret (set_netlist (set_subcircuits nested (as_netlist self1)) self1)
  | PyOtherObject => raise (TypeError "f must be an io.TextIOWrapper")
  end.

(** [for subcircuit in self.subcircuits: subcircuit._write_subcircuit(f)]. *)
Fixpoint write_each (l : list SubCircuit) (f : pyfile) : M World (list SubCircuit) :=
  match l with
  | [] => ret []
  | subcircuit :: rest =>
      subcircuit' <- _write_subcircuit subcircuit f ;;
      rest' <- write_each rest f ;;
      ret (subcircuit' :: rest')
  end.

(** [NetList._write_subcircuits]. *)
Definition _write_subcircuits (self : NetList) : M World NetList :=
  t <- open_a (filepath self) ;;
  let f := PyTextIO t in
  _write_comment f "subcircuits" ;;
  subs <- write_each (subcircuits self) f ;;
  ret (set_subcircuits subs self).

(** [for device in self.devices: f.write(device)]. *)
Fixpoint write_devices (l : list string) (t : TextIOWrapper) : M World unit :=
  match l with
  | [] => ret tt
  | device :: rest => write t device ;; write_devices rest t
  end.

(** [NetList._write_instances]. *)
Definition _write_instances (self : NetList) : M World unit :=
  t <- open_a (filepath self) ;;
  let f := PyTextIO t in
  let comment := "Instances" in
  _write_comment f comment ;;
  write_devices (devices self) t.

(** [NetList.write_in_fpath]. *)
Definition write_in_fpath (self : NetList) : M World NetList :=
  _write_header self ;;
  self' <- _write_subcircuits self ;;
  _write_instances self' ;;
  ret self'.

(** ** Reading a sub-circuit file *)

(** [c.isspace()] for an ASCII character. *)
Definition is_space (c : ascii) : bool :=
  let n := nat_of_ascii c in
  ((9 <=? n)%nat && (n <=? 13)%nat) || ((28 <=? n)%nat && (n <=? 32)%nat).

Definition is_empty (s : string) : bool :=
  match s with
  | EmptyString => true
  | String _ _ => false
  end.

(** [line.split()]: the maximal runs of characters that are not white space. *)
Fixpoint split_from (s : string) (token : string) : list string :=
  match s with
  | EmptyString => if is_empty token then [] else [token]
  | String c s' =>
      if is_space c
      then (if is_empty token then split_from s' ""
            else token :: split_from s' "")
      else split_from s' (token +:+ String c "")
  end.

Definition split (line : string) : list string := split_from line "".

(** The lines a text stream gives to successive [readline] calls: each ends
    with its newline, except possibly the last. The text is the decoded
    contents of the file, newlines already translated to ['\n']. *)
Fixpoint lines_from (text : string) (line : string) : list string :=
  match text with
  | EmptyString => if is_empty line then [] else [line]
  | String c text' =>
      if Ascii.eqb c "010"
      then (line +:+ String c "") :: lines_from text' ""
      else lines_from text' (line +:+ String c "")
  end.

Definition readlines (text : string) : list string := lines_from text "".

(** [f.readline()]: the next line and the rest of the stream; [''] at the
    end of the file. *)
Definition readline (stream : list string) : string * list string :=
  match stream with
  | [] => ("", [])
  | line :: rest => (line, rest)
  end.

(** [l[i]]. *)
Definition index {St A} (l : list A) (i : nat) : M St A :=
  match nth_error l i with
  | Some x => ret x
  | None => raise IndexError
  end.

(** [l[-1]] and [l[1:-1]]. *)
Definition last_item {St} (l : list string) : M St string :=
  match l with
  | [] => raise IndexError
  | _ => ret (List.last l "")
  end.

Definition inner_items (l : list string) : list string :=
  removelast (List.tl l).

(** [s[0]] as a one-character string. *)
Definition first_char_of {St} (s : string) : M St string :=
  match s with
  | EmptyString => raise IndexError
  | String c _ => ret (String c "")
  end.

Section Loader.

(** Python's [float(token)]: the value, or the [ValueError] it raises. *)
Variable py_float : string -> result spec_float.

Definition float_of_token (token : string) : M SubCircuit spec_float :=
  fun self => (py_float token, self).

(** One pass of the body of [while line:], after [line = f.readline()];
    [continue] is the rest of the loop and is skipped by [break]. *)
Definition loop_body (line : string) (continue : M SubCircuit unit)
    : M SubCircuit unit :=
  let split_line := split line in
  first_token <- index split_line 0 ;;
  first_char <- first_char_of first_token ;;
  if py_in first_char ["R"; "L"; "C"] then
    token <- last_item split_line ;;
    value <- float_of_token token ;;
    inherited (rlc_instance first_char (inner_items split_line) value) ;;
    continue
  else if String.eqb first_char "X" then
    token <- last_item split_line ;;
    inherited (subcircuit_instance (PyStr token) (inner_items split_line)) ;;
    continue
  else if py_in first_char ["."] then
    if String.eqb first_token ".ENDS" then ret tt
    else continue
  else continue.

(** The [while line:] loop once it has been entered. [line] is tested again
    only after a pass that found a token in it, so the test can fail only
    before the first pass; at the end of the stream [readline] gives [''],
    whose [split()] is empty. *)
Fixpoint read_loop (stream : list string) : M SubCircuit unit :=
  match stream with
  | [] => loop_body "" (ret tt)
  | line :: rest => loop_body line (read_loop rest)
  end.

(** [SubCircuit.load_from_file]; [fs] is the file system it reads. *)
Definition load_from_file (fs : gmap string string)
    (subcircuit_filepath : string) (external_nodes : list string)
    (name suffix : string) : M SubCircuit unit :=
  modify (set_subcircuit_filepath subcircuit_filepath) ;;
  modify (set_ext_nodes external_nodes) ;;
  modify (set_name name) ;;
  modify (set_suffix suffix) ;;
  match fs !! subcircuit_filepath with
  | None => raise (FileNotFoundError subcircuit_filepath)
  | Some text =>
      let '(line, stream) := readline (readlines text) in
      let split_line := split line in
      (if is_empty name then
         first_name <- index split_line 1 ;;
         modify (set_name first_name) ;;
         modify _update_start_line ;;
         modify _update_end_line
       else ret tt) ;;
      self <- get ;;
      match ext_nodes self with
      | [] => modify (set_ext_nodes (skipn 2 split_line))
      | _ => ret tt
      end ;;
      if is_empty line then ret tt else read_loop stream
  end.

End Loader.

(** ** Sessions: sequences of calls on one scope *)

(** One [rlc_instance] call: its device, nodes and value. *)
Definition rlc_call : Type := string * list string * spec_float.

Fixpoint run_rlc (calls : list rlc_call) : M NetList unit :=
  match calls with
  | [] => ret tt
  | (device, nodes, value) :: rest =>
      rlc_instance device nodes value ;; run_rlc rest
  end.

(** How many of the calls name the device [ty]. *)
Definition calls_with (ty : string) (calls : list rlc_call) : nat :=
  length (filter (fun c : rlc_call => String.eqb (fst (fst c)) ty) calls).

(** One [subcircuit_instance] call: the sub-circuit and the nodes. *)
Definition instance_call : Type := SubCircuit * list string.

Fixpoint run_instances (calls : list instance_call) : M NetList unit :=
  match calls with
  | [] => ret tt
  | (sc, nodes) :: rest =>
      subcircuit_instance (PySubCircuit sc) nodes ;; run_instances rest
  end.

(** How many of the first [j] calls instantiate the name [nm]. *)
Definition earlier_calls (nm : string) (j : nat) (calls : list instance_call) : nat :=
  length (filter (fun c : instance_call => String.eqb (name (fst c)) nm)
            (firstn j calls)).

(** The construction calls of a scope. *)
Inductive op : Type :=
| AddSubcircuit (subcircuit : pyobj)
| RlcInstance (device : string) (nodes : list string) (value : spec_float)
| SubcircuitInstance (subcircuit : pyobj) (nodes : list string).

Definition run_op (o : op) : M NetList unit :=
  match o with
  | AddSubcircuit s => add_subcircuit s
  | RlcInstance device nodes value => rlc_instance device nodes value
  | SubcircuitInstance s nodes => subcircuit_instance s nodes
  end.

Fixpoint run_ops (ops : list op) : M NetList unit :=
  match ops with
  | [] => ret tt
  | o :: rest => run_op o ;; run_ops rest
  end.

(** [sum(self.count_device_dict.values())]. *)
Definition dict_sum (d : gmap string nat) : nat :=
  map_fold (fun _ v acc => v + acc) 0 d.

(** ** Texts the writer is expected to produce *)

Definition comment_text (comment : string) : string :=
  if (0 <? String.length comment)%nat
  then "*** " +:+ comment +:+ _END_OF_LINE
  else "".


(** The definition of a sub-circuit: comment, opening line, device lines,
    nested definitions, closing line. *)
Fixpoint subcircuit_text (sc : SubCircuit) : string :=
  comment_text (comment sc)
    +:+ (".SUBCIRCUIT " +:+ name sc +:+ " " +:+ join " " (ext_nodes sc)
           +:+ _END_OF_LINE)
    +:+ join "" (devices (as_netlist sc))
    +:+ (fix each (l : list SubCircuit) : string :=
           match l with
           | [] => ""
           | inner :: rest =>
               comment_text " "
                 +:+ comment_text "Inner subcircuit"
                 +:+ match subcircuit_filepath inner with
                     | Some p => comment_text ("subcircuit loaded from : " +:+ p)
                     | None => ""
                     end
                 +:+ subcircuit_text inner
                 +:+ each rest
           end) (subcircuits (as_netlist sc))
    +:+ (".ENDS " +:+ name sc +:+ _END_OF_LINE).



(** A sub-circuit after [_write_subcircuit]: bracketing lines recomputed, in
    it and in every nested sub-circuit. *)
Fixpoint refreshed (sc : SubCircuit) : SubCircuit :=
  let sc1 := _update_end_line (_update_start_line sc) in
  set_netlist
    (set_subcircuits (map refreshed (subcircuits (as_netlist sc)))
       (as_netlist sc1)) sc1.

(** The rendered line of a sub-circuit instance. *)
Definition instance_line (sfx : string) (index : nat) (nodes : list string)
    (nm : string) : string :=
  "X_" +:+ sfx +:+ "_" +:+ zfill 5 (str_of_nat index) +:+ " "
    +:+ join " " nodes +:+ " " +:+ nm +:+ _END_OF_LINE.

(** The rendered line of an R, L or C instance. *)
Definition rlc_line (device : string) (index : nat) (nodes : list string)
    (value : spec_float) : string :=
  device +:+ str_of_nat index +:+ " " +:+ join " " nodes +:+ " "
    +:+ format_e6 value +:+ _END_OF_LINE.

(** Shape of a number in scientific notation with six decimals:
    an optional minus sign, one digit, a point, six digits, [e], a sign and
    at least two digits. *)
Definition is_digit (c : ascii) : bool :=
  let n := nat_of_ascii c in ((48 <=? n)%nat && (n <=? 57)%nat).

Fixpoint all_digits (s : string) : bool :=
  match s with
  | EmptyString => true
  | String c s' => is_digit c && all_digits s'
  end.

Definition is_sci6_unsigned (s : string) : bool :=
  match s with
  | String d0 (String p (String d1 (String d2 (String d3 (String d4
      (String d5 (String d6 (String e (String sg ex))))))))) =>
      is_digit d0 && Ascii.eqb p "." && is_digit d1 && is_digit d2
        && is_digit d3 && is_digit d4 && is_digit d5 && is_digit d6
        && Ascii.eqb e "e" && (Ascii.eqb sg "+" || Ascii.eqb sg "-")
        && (2 <=? String.length ex)%nat && all_digits ex
  | _ => false
  end.

Definition is_sci6 (s : string) : bool :=
  match s with
  | String c rest =>
      if Ascii.eqb c "-" then is_sci6_unsigned rest else is_sci6_unsigned s
  | EmptyString => false
  end.

Definition is_finite (value : spec_float) : bool :=
  match value with
  | S754_zero _ | S754_finite _ _ _ => true
  | S754_infinity _ | S754_nan => false
  end.

(** ** Sample data and auxiliary definitions *)

(** A sub-circuit to register: OPAMP, instantiated with suffix AMP. *)
Definition OPAMP : SubCircuit := SubCircuit_init "OPAMP" ["in"; "out"] "AMP" "".

(** A scope where [OPAMP] is registered and has been instantiated once. *)
Definition scope_with_one_instance : NetList :=
  snd ((add_subcircuit (PySubCircuit OPAMP) ;;
        subcircuit_instance (PySubCircuit OPAMP) ["n1"; "n2"])%py
         (NetList_init "top.cir")).

(** Three calls of [rlc_instance]: two resistors and a capacitor. *)
Definition sample_calls : list rlc_call :=
  [("R", ["n1"; "n2"], float_1000); ("C", ["n2"; "0"], float_1000);
   ("R", ["n2"; "n3"], float_1000)].

(** Every registered name has a counter: what [add_subcircuit] sets up. *)
Definition counters_cover_names (self : NetList) : Prop :=
  forall nm, In nm (get_subcircuit_names self) ->
    is_Some (count_device_dict self !! nm).

(** Two instances of [OPAMP]. *)
Definition sample_instance_calls : list instance_call :=
  [(OPAMP, ["in"; "mid"]); (OPAMP, ["mid"; "out"])].

(** What the construction calls maintain: the total is the sum of the
    counters, and a counter exists only for R, L, C and registered names. *)
Definition counters_consistent (self : NetList) : Prop :=
  count_device_total self = dict_sum (count_device_dict self)
  /\ forall label, is_Some (count_device_dict self !! label) ->
       In label ["R"; "L"; "C"] \/ In label (get_subcircuit_names self).

(** A scope with one resistor, in which a sub-circuit named R is then
    registered. *)
Definition ops_registering_R : list op :=
  [RlcInstance "R" ["n1"; "n2"] float_1000;
   AddSubcircuit (PySubCircuit (SubCircuit_init "R" ["a"; "b"] "RES" ""))].

(** The scope those two calls leave. *)
Definition scope_registering_R : NetList :=
  snd (run_ops ops_registering_R (NetList_init "top.cir")).

(** A registration, a resistor and an instance of the registered sub-circuit. *)
Definition sample_ops : list op :=
  [AddSubcircuit (PySubCircuit OPAMP);
   RlcInstance "R" ["n1"; "n2"] float_1000;
   SubcircuitInstance (PySubCircuit OPAMP) ["n2"; "out"]].

(** The scope those three calls leave. *)
Definition sample_scope : NetList :=
  snd (run_ops sample_ops (NetList_init "top.cir")).

(** Induction on a sub-circuit, with the property known for the nested ones. *)
Definition SubCircuit_nested_ind (P : SubCircuit -> Prop)
    (step : forall sc, Forall P (subcircuits (as_netlist sc)) -> P sc) :
  forall sc, P sc :=
  fix go (sc : SubCircuit) : P sc :=
    match sc with
    | mkSubCircuit (mkNetList fp subs devs d tot) nm ext sfx cm sl el sfp =>
        step (mkSubCircuit (mkNetList fp subs devs d tot) nm ext sfx cm sl el sfp)
          ((fix all (l : list SubCircuit) : Forall P l :=
              match l with
              | [] => @List.Forall_nil _ P
              | x :: rest => @List.Forall_cons _ P x rest (go x) (all rest)
              end) subs)
    end.

(** The world in which the file [path] holds [content]. *)
Definition with_content (path content : string) (w : World) : World :=
  mkWorld (<[path := content]> (files w)) (open_error w) (today w) (now w).

(** A top-level netlist with one sub-circuit holding a resistor, and one
    instance of it, written over a file that already had contents. *)
Definition sample_netlist : NetList :=
  snd ((add_subcircuit
          (PySubCircuit
             (set_netlist
                (snd (rlc_instance "R" ["in"; "out"] float_1000 (NetList_init "")))
                OPAMP)) ;;
        subcircuit_instance (PySubCircuit OPAMP) ["n1"; "n2"])%py
         (NetList_init "out.cir")).

(** A file system where the destination already exists, and a clock. *)
Definition sample_world : World :=
  mkWorld (<["out.cir" := "stale"]> ∅)
    (fun path => if String.eqb path "/" then Some (IsADirectoryError path)
                 else if String.eqb path "locked.cir" then Some (PermissionError path)
                 else None)
    "03/11/2026" "12:00:00".

(** A computation that ends in an exception from the state [s]. *)
Definition raises {St A} (m : M St A) (s : St) : Prop :=
  exists e s', m s = (Raise e, s').

(** [float()] on the tokens of the sample files: they hold one number. *)
Definition sample_py_float (token : string) : result spec_float :=
  if String.eqb token "1.000000e+03" then Ok float_1000
  else Raise (ValueError ("could not convert string to float: " +:+ token)).

(** A text file given by its lines, each ended by a newline. *)
Definition text_of_lines (lines : list string) : string :=
  join "" (map (fun l => l +:+ _END_OF_LINE) lines).

(** The files of the loading samples. *)
Definition sample_files : gmap string string :=
  <["top.cir" := text_of_lines
       [".SUBCIRCUIT TOP in out"; "X_AMP_00001 in out OPAMP"; ".ENDS TOP"]]>
  (<["blank.cir" := text_of_lines
       [".SUBCIRCUIT RC in out"; "R1 in out 1.000000e+03"; "";
        "C1 out 0 1.000000e+03"; ".ENDS RC"]]>
  (<["rc.cir" := text_of_lines
       [".SUBCIRCUIT RC in out"; "R1 in out 1.000000e+03";
        "C1 out 0 1.000000e+03"; ".ENDS RC"]]>
  (<["cut.cir" := text_of_lines
       [".SUBCIRCUIT RC in out"; "R1 in out 1.000000e+03"]]>
  (<["empty.cir" := ""]> ∅)))).

(** [SubCircuit()]: a new sub-circuit, nothing registered in it. *)
Definition new_subcircuit : SubCircuit := SubCircuit_init "" [] "" "".

(** [new_subcircuit] after [add_subcircuit(OPAMP)]. *)
Definition subcircuit_with_OPAMP : SubCircuit :=
  snd (inherited (add_subcircuit (PySubCircuit OPAMP)) new_subcircuit).

(** ** Definitions for the properties of the construction calls *)

(** Every device label has its counter, as [__init__] sets up. *)
Definition has_device_counters (self : NetList) : Prop :=
  forall ty, In ty ["R"; "L"; "C"] -> is_Some (count_device_dict self !! ty).

(** How many of the first [j] calls name the device [ty]. *)
Definition earlier_rlc_calls (ty : string) (j : nat) (calls : list rlc_call) : nat :=
  calls_with ty (firstn j calls).

(** The label whose counter a call increments when it returns. *)
Definition op_label (o : op) : option string :=
  match o with
  | RlcInstance device _ _ => Some device
  | SubcircuitInstance (PySubCircuit sc) _ => Some (name sc)
  | _ => None
  end.

Definition increments (label : string) (o : op) : bool :=
  match op_label o with
  | Some l => String.eqb l label
  | None => false
  end.

(** The call registers a sub-circuit named [label]. *)
Definition registers (label : string) (o : op) : bool :=
  match o with
  | AddSubcircuit (PySubCircuit sc) => String.eqb (name sc) label
  | _ => false
  end.

(** The call is [rlc_instance] or [subcircuit_instance]. *)
Definition creates_instance (o : op) : bool :=
  match o with
  | AddSubcircuit _ => false
  | _ => true
  end.

(** [int(s)] for a string of decimal digits. *)
Definition digit_value (c : ascii) : N := (N_of_ascii c - 48)%N.

Fixpoint number_of_digits (s : string) (acc : N) : N :=
  match s with
  | EmptyString => acc
  | String c s' => number_of_digits s' (10 * acc + digit_value c)%N
  end.

Definition int_of_str (s : string) : N := number_of_digits s 0.

(** Calls interleaving registrations, devices and instances. *)
Definition mixed_ops : list op :=
  [RlcInstance "R" ["n1"; "n2"] float_1000;
   AddSubcircuit (PySubCircuit OPAMP);
   SubcircuitInstance (PySubCircuit OPAMP) ["n2"; "n3"];
   RlcInstance "C" ["n3"; "0"] float_1000;
   SubcircuitInstance (PySubCircuit OPAMP) ["n3"; "out"]].

Definition mixed_scope : NetList :=
  snd (run_ops mixed_ops (NetList_init "top.cir")).

(** ** Definitions for the properties of the loader *)

(** A line the loop passes over: its first token starts with none of R, L,
    C, X and is not [.ENDS]. Comment lines and other directives are such. *)
Definition is_ignored (line : string) : bool :=
  match split line with
  | String c tail :: _ =>
      negb (py_in (String c "") ["R"; "L"; "C"])
      && negb (String.eqb (String c "") "X")
      && negb (String.eqb (String c tail) ".ENDS")
  | _ => false
  end.

(** What the read loop keeps of the sub-circuit it fills: everything but the
    device lines, which it extends, and the counters. *)
Definition loop_keeps (before after : SubCircuit) : Prop :=
  name after = name before
  /\ ext_nodes after = ext_nodes before
  /\ suffix after = suffix before
  /\ comment after = comment before
  /\ subcircuit_filepath after = subcircuit_filepath before
  /\ filepath (as_netlist after) = filepath (as_netlist before)
  /\ subcircuits (as_netlist after) = subcircuits (as_netlist before)
  /\ (exists more,
        devices (as_netlist after) = devices (as_netlist before) ++ more)
  /\ count_device_total (as_netlist before)
     <= count_device_total (as_netlist after).

(** A sample stream: a comment and a directive among two devices, then the
    end directive and a line after it. *)
Definition sample_stream : list string :=
  map (fun l => l +:+ _END_OF_LINE)
    ["R1 in mid 1.000000e+03"; "*** a comment"; ".MODEL x";
     "C1 mid out 1.000000e+03"; ".ENDS RC"; "R9 never read 1.000000e+03"].

(** ** Definitions for writing then loading *)

Fixpoint all_chars (p : ascii -> bool) (s : string) : bool :=
  match s with
  | EmptyString => true
  | String c s' => p c && all_chars p s'
  end.

Definition no_space (s : string) : bool :=
  all_chars (fun c => negb (is_space c)) s.

Definition no_newline (s : string) : bool :=
  all_chars (fun c => negb (Ascii.eqb c "010")) s.

(** A name or a node that one token of a line can carry: not empty, no
    white space in it. *)
Definition is_token (s : string) : bool := negb (is_empty s) && no_space s.

(** A line of a text file: some text without newline, then the newline. *)
Definition is_line (l : string) : Prop :=
  exists body, l = body +:+ _END_OF_LINE /\ no_newline body = true.

(** A call of [rlc_instance] whose line can be read back: the device is R, L
    or C, the nodes are tokens, and [float] reads the printed value as a
    value that prints the same. *)
Definition loadable_call (py_float : string -> result spec_float)
    (c : rlc_call) : Prop :=
  In (fst (fst c)) ["R"; "L"; "C"]
  /\ Forall (fun t => is_token t = true) (snd (fst c))
  /\ exists v', py_float (format_e6 (snd c)) = Ok v'
                /\ format_e6 v' = format_e6 (snd c).

(** [SubCircuit(name, external_nodes, suffix)] followed by the calls. *)
Definition flat_subcircuit (nm : string) (ext : list string) (sfx : string)
    (calls : list rlc_call) : SubCircuit :=
  snd (inherited (run_rlc calls) (SubCircuit_init nm ext sfx "")).

(** The same counters for R, L and C in two scopes. *)
Definition same_device_counters (a b : NetList) : Prop :=
  forall ty, In ty ["R"; "L"; "C"] ->
    count_device_dict a !! ty = count_device_dict b !! ty.

(** A world whose file [rc.cir] has just been created. *)
Definition empty_file_world : World :=
  mkWorld (<["rc.cir" := ""]> ∅) (fun _ => None) "03/11/2026" "12:00:00".

(** ** Definitions for the numbering of instances among other calls *)

(** The call is [subcircuit_instance] for a sub-circuit named [nm]. *)
Definition instantiates (nm : string) (o : op) : bool :=
  match o with
  | SubcircuitInstance (PySubCircuit sc) _ => String.eqb (name sc) nm
  | _ => false
  end.

(** The call is [rlc_instance] with the device [nm]. *)
Definition uses_device (nm : string) (o : op) : bool :=
  match o with
  | RlcInstance device _ _ => String.eqb device nm
  | _ => false
  end.

(** A sub-circuit whose name is the label of the resistors. *)
Definition RES : SubCircuit := SubCircuit_init "R" ["a"; "b"] "RES" "".

(** A sub-circuit named R is registered, a resistor is created, then the
    sub-circuit is instantiated. *)
Definition ops_sharing_R : list op :=
  [AddSubcircuit (PySubCircuit RES);
   RlcInstance "R" ["n1"; "n2"] float_1000;
   SubcircuitInstance (PySubCircuit RES) ["n1"; "n2"]].

(** [OPAMP] is registered and instantiated, then registered and instantiated
    again. *)
Definition ops_registering_twice : list op :=
  [AddSubcircuit (PySubCircuit OPAMP);
   SubcircuitInstance (PySubCircuit OPAMP) ["in"; "mid"];
   AddSubcircuit (PySubCircuit OPAMP);
   SubcircuitInstance (PySubCircuit OPAMP) ["mid"; "out"]].

(** The calls of [mixed_ops] before and after the registration of [OPAMP]. *)
Definition ops_before_OPAMP : list op :=
  [RlcInstance "R" ["n1"; "n2"] float_1000].

Definition ops_after_OPAMP : list op :=
  [SubcircuitInstance (PySubCircuit OPAMP) ["n2"; "n3"];
   RlcInstance "C" ["n3"; "0"] float_1000;
   SubcircuitInstance (PySubCircuit OPAMP) ["n3"; "out"]].

(** ** What ['%.6e'] has to print

    The C conversion behind ['%.6e'], stated on fractions without reference
    to the way [format_e6] computes. *)

(** [R] is the integer nearest to [a / b], the even one when [a / b] lies
    halfway between two integers. *)
Definition nearest_even (a b R : N) : Prop :=
  (2 * a <= 2 * R * b + b)%N
  /\ (2 * R * b <= 2 * a + b)%N
  /\ ((2 * a = 2 * R * b + b \/ 2 * R * b = 2 * a + b)%N -> N.even R = true).

(** [D] and [k] are the seven significant digits and the decimal exponent of
    the positive fraction [num / den]: with [k0] the decade of the fraction,
    [10^k0 <= num / den < 10^(k0 + 1)], and [D0] the integer nearest to
    [num / den * 10^(6 - k0)], ties to even, they are [D0] and [k0], unless
    the rounding reaches [10^7], which is printed as [1000000] with the
    exponent [k0 + 1]. *)
Definition seven_digits_of (num den D : N) (k : Z) : Prop :=
  exists (k0 : Z) (D0 : N),
    (1000000 * (den * 10 ^ Z.to_N (k0 - 6)) <= num * 10 ^ Z.to_N (6 - k0))%N
    /\ (num * 10 ^ Z.to_N (6 - k0) < 10000000 * (den * 10 ^ Z.to_N (k0 - 6)))%N
    /\ nearest_even (num * 10 ^ Z.to_N (6 - k0)) (den * 10 ^ Z.to_N (k0 - 6)) D0
    /\ ((D0 < 10000000 /\ D = D0 /\ k = k0)%N
        \/ (D0 = 10000000%N /\ D = 1000000%N /\ k = (k0 + 1)%Z)).

(** * Properties *)

(** ** Membership and the monad *)

Lemma py_in_In (x : string) (l : list string) :
  py_in x l = true <-> In x l.
Proof.
  unfold py_in. rewrite existsb_exists. split.
  - intros [y [Hy Heq]]. apply String.eqb_eq in Heq. now subst.
  - intros H. exists x. split; [assumption | apply String.eqb_refl].
Qed.

Lemma py_in_not_In (x : string) (l : list string) :
  py_in x l = false <-> ~ In x l.
Proof.
  rewrite <- py_in_In. destruct (py_in x l); split; intros; congruence.
Qed.

Lemma bind_ok {St A B} (m : M St A) (k : A -> M St B) s a s' :
  m s = (Ok a, s') -> bind m k s = k a s'.
Proof. intros H. unfold bind. now rewrite H. Qed.

Lemma bind_raise {St A B} (m : M St A) (k : A -> M St B) s e s' :
  m s = (Raise e, s') -> bind m k s = (Raise e, s').
Proof. intros H. unfold bind. now rewrite H. Qed.

(** A sequence returns normally only if its first part does. *)
Lemma bind_ok_inv {St A B} (m : M St A) (k : A -> M St B) s b s2 :
  bind m k s = (Ok b, s2) ->
  exists a s1, m s = (Ok a, s1) /\ k a s1 = (Ok b, s2).
Proof.
  unfold bind. destruct (m s) as [[a | e] s1]; intros H.
  - now exists a, s1.
  - discriminate.
Qed.

(** ** Registration *)

Lemma add_subcircuit_eq (self : NetList) (s : SubCircuit) :
  add_subcircuit (PySubCircuit s) self =
    (Ok tt,
     mkNetList (filepath self) (subcircuits self ++ [s]) (devices self)
       (<[name s := 0]> (count_device_dict self)) (count_device_total self)).
Proof. reflexivity. Qed.

(** C1, as stated, fails: registering [OPAMP] again in a scope where it is
    registered and counts one instance raises nothing, lists the name twice
    and puts its counter back to 0. *)
Lemma add_subcircuit_twice_resets :
  In (name OPAMP) (get_subcircuit_names scope_with_one_instance)
  /\ count_device_dict scope_with_one_instance !! "OPAMP" = Some 1
  /\ fst (add_subcircuit (PySubCircuit OPAMP) scope_with_one_instance) = Ok tt
  /\ ~ (exists e, fst (add_subcircuit (PySubCircuit OPAMP) scope_with_one_instance) = Raise e)
  /\ get_subcircuit_names
       (snd (add_subcircuit (PySubCircuit OPAMP) scope_with_one_instance))
     = ["OPAMP"; "OPAMP"]
  /\ count_device_dict
       (snd (add_subcircuit (PySubCircuit OPAMP) scope_with_one_instance))
       !! "OPAMP" = Some 0.
Proof.
  repeat split; try (vm_compute; reflexivity).
  - vm_compute. now left.
  - intros [e He]. vm_compute in He. discriminate.
Qed.

(** C1 (amended): [add_subcircuit] has no duplicate check. Given a
    SubCircuit, registered or not, it returns normally, appends it to
    [subcircuits] and sets the counter of its name to 0, leaving the other
    counters, the devices and the total as they were; given anything else it
    raises TypeError and changes nothing. *)
Theorem add_subcircuit_registers (self : NetList) (s : SubCircuit) :
  exists self',
    add_subcircuit (PySubCircuit s) self = (Ok tt, self')
    /\ subcircuits self' = subcircuits self ++ [s]
    /\ get_subcircuit_names self' = get_subcircuit_names self ++ [name s]
    /\ count_device_dict self' !! name s = Some 0
    /\ (forall label, label <> name s ->
          count_device_dict self' !! label = count_device_dict self !! label)
    /\ devices self' = devices self
    /\ count_device_total self' = count_device_total self
    /\ (forall str, add_subcircuit (PyStr str) self
          = (Raise (TypeError "subcircuit must be a SubCircuit"), self))
    /\ (forall other, add_subcircuit (PyNetList other) self
          = (Raise (TypeError "subcircuit must be a SubCircuit"), self)).
Proof.
  eexists. split; [apply add_subcircuit_eq |]. cbn.
  repeat split.
  - unfold get_subcircuit_names. cbn. now rewrite map_app.
  - apply lookup_insert_eq.
  - intros label Hne. now rewrite lookup_insert_ne.
Qed.

(** ** Instances of sub-circuits *)

(** C2: instancing a SubCircuit whose name is not registered in the scope
    raises the ValueError that reports it, and the scope is left exactly as
    it was: counters, total, devices and all. *)
Theorem subcircuit_instance_unregistered (self : NetList) (s : SubCircuit)
    (nodes : list string) :
  ~ In (name s) (get_subcircuit_names self) ->
  subcircuit_instance (PySubCircuit s) nodes self
    = (Raise (ValueError (name s +:+ " does not exist as a subcircuit")), self).
Proof.
  intros Hnot. apply py_in_not_In in Hnot.
  unfold subcircuit_instance, bind, attr_name, ret, get. cbn.
  now rewrite Hnot.
Qed.

Lemma subcircuit_instance_unregistered_witness :
  ~ In (name OPAMP) (get_subcircuit_names (NetList_init "top.cir"))
  /\ subcircuit_instance (PySubCircuit OPAMP) ["n1"; "n2"] (NetList_init "top.cir")
     = (Raise (ValueError "OPAMP does not exist as a subcircuit"),
        NetList_init "top.cir").
Proof.
  assert (H : ~ In (name OPAMP) (get_subcircuit_names (NetList_init "top.cir")))
    by (cbn; tauto).
  split; [exact H |].
  exact (subcircuit_instance_unregistered (NetList_init "top.cir") OPAMP
           ["n1"; "n2"] H).
Defined.

(** ** R, L and C instances *)

Lemma rlc_instance_ok (self : NetList) device nodes value c :
  In device ["R"; "L"; "C"] ->
  count_device_dict self !! device = Some c ->
  rlc_instance device nodes value self =
    (Ok tt,
     mkNetList (filepath self) (subcircuits self)
       (devices self ++ [rlc_line device (S c) nodes value])
       (<[device := S c]> (count_device_dict self))
       (S (count_device_total self))).
Proof.
  intros Hin Hc. apply py_in_In in Hin.
  unfold rlc_instance. rewrite Hin.
  unfold bind, modify, dict_incr. cbn. now rewrite Hc.
Qed.

Lemma rlc_instance_invalid (self : NetList) device nodes value :
  ~ In device ["R"; "L"; "C"] ->
  rlc_instance device nodes value self =
    (Raise (ValueError "device must be in ['R', 'L', 'C']"), self).
Proof.
  intros Hin. apply py_in_not_In in Hin.
  unfold rlc_instance. now rewrite Hin.
Qed.

Lemma calls_with_cons_eq ty nodes value rest :
  calls_with ty ((ty, nodes, value) :: rest) = S (calls_with ty rest).
Proof. unfold calls_with. cbn. now rewrite String.eqb_refl. Qed.

Lemma calls_with_cons_ne ty device nodes value rest :
  device <> ty ->
  calls_with ty ((device, nodes, value) :: rest) = calls_with ty rest.
Proof.
  intros Hne. unfold calls_with. cbn.
  destruct (String.eqb_spec device ty); [contradiction | reflexivity].
Qed.

(** From any scope that has the three counters, the calls all return, the
    total grows by their number and each counter by the calls of its type. *)
Lemma run_rlc_counts (calls : list rlc_call) :
  forall self : NetList,
    Forall (fun c : rlc_call => In (fst (fst c)) ["R"; "L"; "C"]) calls ->
    (forall ty, In ty ["R"; "L"; "C"] -> is_Some (count_device_dict self !! ty)) ->
    exists self',
      run_rlc calls self = (Ok tt, self')
      /\ count_device_total self' = count_device_total self + length calls
      /\ forall ty c, count_device_dict self !! ty = Some c ->
           count_device_dict self' !! ty = Some (c + calls_with ty calls).
Proof.
  induction calls as [| [[device nodes] value] rest IH]; intros self Hall Hkeys.
  - exists self. cbn. repeat split; [lia |].
    intros ty c Hc. rewrite Hc. f_equal. unfold calls_with. cbn. lia.
  - inversion Hall as [| ? ? Hdev Hrest]; subst. cbn in Hdev.
    destruct (Hkeys device Hdev) as [c0 Hc0].
    pose proof (rlc_instance_ok self device nodes value c0 Hdev Hc0) as Hstep.
    set (self1 := mkNetList (filepath self) (subcircuits self)
                    (devices self ++ [rlc_line device (S c0) nodes value])
                    (<[device := S c0]> (count_device_dict self))
                    (S (count_device_total self))) in *.
    destruct (IH self1 Hrest) as [self' [Hrun [Htot Hdict]]].
    { intros ty Hty. cbn. destruct (decide (device = ty)) as [-> | Hne].
      - rewrite lookup_insert_eq. eauto.
      - rewrite lookup_insert_ne by assumption. now apply Hkeys. }
    exists self'. split; [| split].
    + cbn [run_rlc]. rewrite (bind_ok _ _ _ _ _ Hstep). exact Hrun.
    + rewrite Htot. cbn. lia.
    + intros ty c Hc. destruct (decide (device = ty)) as [-> | Hne].
      * rewrite Hc in Hc0. inversion Hc0; subst c0.
        rewrite calls_with_cons_eq.
        rewrite (Hdict ty (S c)) by (cbn; apply lookup_insert_eq).
        f_equal. lia.
      * rewrite calls_with_cons_ne by assumption.
        apply Hdict. cbn. now rewrite lookup_insert_ne.
Qed.

(** C3: on a fresh NetList, any calls of [rlc_instance] whose devices are all
    among R, L and C return normally; afterwards the total is the number of
    calls and the counter of each type is the number of calls of that type. *)
Theorem rlc_counts_after_calls (fp : string) (calls : list rlc_call) :
  Forall (fun c : rlc_call => In (fst (fst c)) ["R"; "L"; "C"]) calls ->
  exists self',
    run_rlc calls (NetList_init fp) = (Ok tt, self')
    /\ count_device_total self' = length calls
    /\ forall ty, In ty ["R"; "L"; "C"] ->
         count_device_dict self' !! ty = Some (calls_with ty calls).
Proof.
  intros Hall.
  destruct (run_rlc_counts calls (NetList_init fp) Hall) as [self' [Hrun [Htot Hdict]]].
  - intros ty Hty. cbn in Hty.
    destruct Hty as [<- | [<- | [<- | []]]]; cbn; eexists; reflexivity.
  - exists self'. split; [exact Hrun |]. split; [exact Htot |].
    intros ty Hty. apply (Hdict ty 0).
    cbn in Hty. destruct Hty as [<- | [<- | [<- | []]]]; reflexivity.
Qed.

Lemma rlc_counts_after_calls_witness :
  Forall (fun c : rlc_call => In (fst (fst c)) ["R"; "L"; "C"]) sample_calls
  /\ exists self',
       run_rlc sample_calls (NetList_init "top.cir") = (Ok tt, self')
       /\ count_device_total self' = length sample_calls
       /\ forall ty, In ty ["R"; "L"; "C"] ->
            count_device_dict self' !! ty = Some (calls_with ty sample_calls).
Proof.
  assert (H : Forall (fun c : rlc_call => In (fst (fst c)) ["R"; "L"; "C"])
                sample_calls).
  { repeat constructor; cbn; tauto. }
  split; [exact H |].
  exact (rlc_counts_after_calls "top.cir" sample_calls H).
Defined.

(** ** Strings and decimal rendering *)

Lemma string_app_cons (a : ascii) (s t : string) :
  String a s +:+ t = String a (s +:+ t).
Proof. reflexivity. Qed.

Lemma string_app_assoc (s t u : string) : (s +:+ t) +:+ u = s +:+ (t +:+ u).
Proof.
  induction s as [| a s IH]; [reflexivity |].
  rewrite !string_app_cons. now rewrite IH.
Qed.

Lemma string_app_nil_r (s : string) : s +:+ "" = s.
Proof.
  induction s as [| a s IH]; [reflexivity |].
  rewrite string_app_cons. now rewrite IH.
Qed.

Lemma string_length_app (s t : string) :
  String.length (s +:+ t) = String.length s + String.length t.
Proof.
  induction s as [| a s IH]; [reflexivity |].
  rewrite string_app_cons. cbn. now rewrite IH.
Qed.

Lemma zeros_length (k : nat) : String.length (zeros k) = k.
Proof. induction k as [| k IH]; cbn; [reflexivity | now rewrite IH]. Qed.

Lemma digit_cases (d : N) :
  (d < 10)%N ->
  d = 0%N \/ d = 1%N \/ d = 2%N \/ d = 3%N \/ d = 4%N \/ d = 5%N
  \/ d = 6%N \/ d = 7%N \/ d = 8%N \/ d = 9%N.
Proof. lia. Qed.

Lemma digit_char_is_digit (d : N) : (d < 10)%N -> is_digit (digit_char d) = true.
Proof.
  intros H. destruct (digit_cases d H) as [-> | [-> | [-> | [-> | [-> | [-> | [-> | [-> | [-> | ->]]]]]]]]];
    reflexivity.
Qed.

Lemma digit_char_not_sign (d : N) :
  (d < 10)%N ->
  (Ascii.eqb (digit_char d) "+" || Ascii.eqb (digit_char d) "-")%bool = false.
Proof.
  intros H. destruct (digit_cases d H) as [-> | [-> | [-> | [-> | [-> | [-> | [-> | [-> | [-> | ->]]]]]]]]];
    reflexivity.
Qed.

Lemma mod10_lt (n : N) : (n mod 10 < 10)%N.
Proof. apply N.mod_lt. lia. Qed.

(** With fuel, the rendering of a number starts with a digit. *)
Lemma render_digits_head (fuel : nat) :
  forall n acc, exists d rest,
    (d < 10)%N /\ render_digits (S fuel) n acc = String (digit_char d) rest.
Proof.
  induction fuel as [| fuel IH]; intros n acc.
  - exists (n mod 10)%N, acc. split; [apply mod10_lt |].
    cbn. now destruct (n / 10 =? 0)%N.
  - cbn [render_digits]. destruct (n / 10 =? 0)%N.
    + exists (n mod 10)%N, acc. split; [apply mod10_lt | reflexivity].
    + apply IH.
Qed.

Lemma render_digits_length (fuel : nat) :
  forall n acc d,
    0 < d -> (n < 10 ^ N.of_nat d)%N ->
    String.length (render_digits fuel n acc) <= d + String.length acc.
Proof.
  induction fuel as [| fuel IH]; intros n acc d Hd Hn.
  - cbn. lia.
  - cbn [render_digits]. destruct (N.eqb_spec (n / 10) 0) as [Hz | Hnz].
    + cbn. lia.
    + destruct d as [| [| d']]; [lia | |].
      * exfalso. apply Hnz. apply N.div_small. cbn in Hn. lia.
      * specialize (IH (n / 10)%N (String (digit_char (n mod 10)) acc) (S d')).
        cbn [String.length] in IH.
        assert (Hlt : (n / 10 < 10 ^ N.of_nat (S d'))%N).
        { apply N.Div0.div_lt_upper_bound.
          replace (N.of_nat (S (S d'))) with (N.succ (N.of_nat (S d'))) in Hn by lia.
          rewrite N.pow_succ_r' in Hn. exact Hn. }
        specialize (IH ltac:(lia) Hlt). lia.
Qed.

Lemma str_of_nat_head (i : nat) :
  exists d rest, (d < 10)%N /\ str_of_nat i = String (digit_char d) rest.
Proof. unfold str_of_nat, str_of_N. apply render_digits_head. Qed.

(** Padding a decimal number: zeros in front, nothing removed. *)
Lemma zfill_str_of_nat (w i : nat) :
  zfill w (str_of_nat i)
    = zeros (w - String.length (str_of_nat i)) +:+ str_of_nat i.
Proof.
  destruct (str_of_nat_head i) as [d [rest [Hd Heq]]].
  rewrite Heq. unfold zfill. now rewrite digit_char_not_sign.
Qed.

Lemma zfill_str_of_nat_length (i : nat) :
  (N.of_nat i < 100000)%N -> String.length (zfill 5 (str_of_nat i)) = 5.
Proof.
  intros Hi. rewrite zfill_str_of_nat, string_length_app, zeros_length.
  assert (String.length (str_of_nat i) <= 5 + 0).
  { unfold str_of_nat, str_of_N.
    apply (render_digits_length _ (N.of_nat i) "" 5); [lia |].
    change (10 ^ N.of_nat 5)%N with 100000%N. lia. }
  lia.
Qed.

(** ** Numbering of sub-circuit instances *)

Lemma subcircuit_instance_ok (self : NetList) (sc : SubCircuit) nodes c :
  In (name sc) (get_subcircuit_names self) ->
  count_device_dict self !! name sc = Some c ->
  subcircuit_instance (PySubCircuit sc) nodes self =
    (Ok tt,
     mkNetList (filepath self) (subcircuits self)
       (devices self ++ [instance_line (suffix sc) (S c) nodes (name sc)])
       (<[name sc := S c]> (count_device_dict self))
       (S (count_device_total self))).
Proof.
  intros Hin Hc. apply py_in_In in Hin.
  unfold subcircuit_instance, bind, attr_name, ret, get. cbn.
  rewrite Hin. unfold dict_incr. cbn. now rewrite Hc.
Qed.

Lemma earlier_calls_0 nm calls : earlier_calls nm 0 calls = 0.
Proof. reflexivity. Qed.

Lemma earlier_calls_S nm j sc nodes rest :
  earlier_calls nm (S j) ((sc, nodes) :: rest)
    = (if String.eqb (name sc) nm then 1 else 0) + earlier_calls nm j rest.
Proof.
  unfold earlier_calls. cbn.
  now destruct (String.eqb (name sc) nm).
Qed.

(** The calls all return; each appends one line, whose index is the counter
    the name had before the calls, plus one, plus the number of earlier calls
    for the same name. *)
Lemma run_instances_lines (calls : list instance_call) :
  forall self : NetList,
    counters_cover_names self ->
    Forall (fun c : instance_call =>
              In (name (fst c)) (get_subcircuit_names self)) calls ->
    exists final lines,
      run_instances calls self = (Ok tt, final)
      /\ devices final = devices self ++ lines
      /\ length lines = length calls
      /\ forall j sc nodes c,
           calls !! j = Some (sc, nodes) ->
           count_device_dict self !! name sc = Some c ->
           lines !! j
             = Some (instance_line (suffix sc)
                       (c + S (earlier_calls (name sc) j calls)) nodes (name sc)).
Proof.
  induction calls as [| [sc0 nodes0] rest IH]; intros self Hcover Hall.
  - exists self, []. cbn. rewrite app_nil_r. repeat split.
    intros j sc nodes c Hj. destruct j; discriminate.
  - inversion Hall as [| ? ? Hin0 Hrest]; subst. cbn in Hin0.
    destruct (Hcover _ Hin0) as [c0 Hc0].
    pose proof (subcircuit_instance_ok self sc0 nodes0 c0 Hin0 Hc0) as Hstep.
    set (self1 := mkNetList (filepath self) (subcircuits self)
                    (devices self ++ [instance_line (suffix sc0) (S c0) nodes0 (name sc0)])
                    (<[name sc0 := S c0]> (count_device_dict self))
                    (S (count_device_total self))) in *.
    destruct (IH self1) as [final [lines [Hrun [Hdev [Hlen Hlines]]]]].
    { intros nm Hnm. cbn. destruct (decide (name sc0 = nm)) as [-> | Hne].
      - rewrite lookup_insert_eq. eauto.
      - rewrite lookup_insert_ne by assumption. now apply Hcover. }
    { exact Hrest. }
    exists final, (instance_line (suffix sc0) (S c0) nodes0 (name sc0) :: lines).
    split; [| split; [| split]].
    + cbn [run_instances]. rewrite (bind_ok _ _ _ _ _ Hstep). exact Hrun.
    + rewrite Hdev. cbn. now rewrite <- app_assoc.
    + cbn. now rewrite Hlen.
    + intros j sc nodes c Hj Hc. destruct j as [| j].
      * cbn in Hj. inversion Hj; subst sc0 nodes0.
        rewrite Hc in Hc0. inversion Hc0; subst c0.
        rewrite earlier_calls_0. cbn. do 3 f_equal. lia.
      * cbn in Hj. rewrite earlier_calls_S.
        change ((instance_line (suffix sc0) (S c0) nodes0 (name sc0) :: lines) !! S j)
          with (lines !! j).
        destruct (String.eqb_spec (name sc0) (name sc)) as [Heq | Hne].
        -- assert (c0 = c) as -> by (rewrite Heq, Hc in Hc0; now inversion Hc0).
           rewrite (Hlines j sc nodes (S c) Hj).
           ++ do 2 f_equal. lia.
           ++ cbn. rewrite Heq. apply lookup_insert_eq.
        -- rewrite (Hlines j sc nodes c Hj).
           ++ reflexivity.
           ++ cbn. now rewrite lookup_insert_ne.
Qed.

Lemma add_subcircuit_covers (self : NetList) (s : SubCircuit) :
  counters_cover_names self ->
  counters_cover_names (snd (add_subcircuit (PySubCircuit s) self)).
Proof.
  intros Hcover nm Hnm. rewrite add_subcircuit_eq in *. cbn in *.
  unfold get_subcircuit_names in Hnm. cbn in Hnm. rewrite map_app in Hnm.
  destruct (decide (name s = nm)) as [-> | Hne].
  - rewrite lookup_insert_eq. eauto.
  - rewrite lookup_insert_ne by assumption. apply Hcover.
    apply in_app_or in Hnm. destruct Hnm as [H | [H | []]]; [exact H | contradiction].
Qed.

(** The two lines that the sample calls append. *)
Example sample_instance_lines :
  devices (snd (run_instances sample_instance_calls
                  (snd (add_subcircuit (PySubCircuit OPAMP) (NetList_init "top.cir")))))
  = ["X_AMP_00001 in mid OPAMP" +:+ _END_OF_LINE;
     "X_AMP_00002 mid out OPAMP" +:+ _END_OF_LINE].
Proof. vm_compute. reflexivity. Qed.

(** ** The total and the sum of the counters *)

Lemma dict_sum_insert_fresh (d : gmap string nat) k v :
  d !! k = None -> dict_sum (<[k := v]> d) = v + dict_sum d.
Proof.
  intros Hk. unfold dict_sum.
  rewrite map_fold_insert_L; [reflexivity | | exact Hk].
  intros; lia.
Qed.

Lemma dict_sum_delete (d : gmap string nat) k v :
  d !! k = Some v -> dict_sum d = v + dict_sum (delete k d).
Proof.
  intros Hk. unfold dict_sum.
  rewrite (map_fold_delete_L _ _ k v d); [reflexivity | | exact Hk].
  intros; lia.
Qed.

Lemma dict_sum_update (d : gmap string nat) k v v' :
  d !! k = Some v -> dict_sum (<[k := v']> d) + v = dict_sum d + v'.
Proof.
  intros Hk. rewrite (dict_sum_delete d k v Hk).
  rewrite <- (insert_delete_eq d k v').
  rewrite dict_sum_insert_fresh by apply lookup_delete_eq. lia.
Qed.

(** The names registered so far only grow. *)
Lemma run_op_ok_inv (o : op) (self self' : NetList) :
  run_op o self = (Ok tt, self') ->
  (exists s, o = AddSubcircuit (PySubCircuit s)
     /\ self' = mkNetList (filepath self) (subcircuits self ++ [s]) (devices self)
                  (<[name s := 0]> (count_device_dict self))
                  (count_device_total self))
  \/ (exists label c line,
        count_device_dict self !! label = Some c
        /\ self' = mkNetList (filepath self) (subcircuits self)
                     (devices self ++ [line])
                     (<[label := S c]> (count_device_dict self))
                     (S (count_device_total self))).
Proof.
  destruct o as [s | device nodes value | s nodes]; cbn [run_op].
  - destruct s as [str | s | other]; intros H;
      [cbn in H; discriminate | | cbn in H; discriminate].
    left. exists s. split; [reflexivity |].
    rewrite add_subcircuit_eq in H. now inversion H.
  - unfold rlc_instance. destruct (py_in device ["R"; "L"; "C"]); [| discriminate].
    unfold bind, modify, dict_incr. cbn.
    destruct (count_device_dict self !! device) as [c |] eqn:Hc; [| discriminate].
    cbn. intros H. inversion H; subst. right. eauto.
  - destruct s as [str | s | other]; cbn; try discriminate.
    unfold subcircuit_instance, bind, attr_name, ret, get. cbn.
    destruct (py_in (name s) (get_subcircuit_names self)); [| discriminate].
    unfold dict_incr. cbn.
    destruct (count_device_dict self !! name s) as [c |] eqn:Hc; [| discriminate].
    cbn. intros H. inversion H; subst. right. eauto.
Qed.

Lemma run_ops_names (ops : list op) :
  forall self final : NetList,
    run_ops ops self = (Ok tt, final) ->
    exists more, get_subcircuit_names final = get_subcircuit_names self ++ more.
Proof.
  induction ops as [| o rest IH]; intros self final Hrun.
  - cbn in Hrun. inversion Hrun; subst. exists []. now rewrite app_nil_r.
  - cbn [run_ops] in Hrun. apply bind_ok_inv in Hrun.
    destruct Hrun as [[] [self1 [Hop Hrest]]].
    destruct (IH _ _ Hrest) as [more Hmore].
    destruct (run_op_ok_inv _ _ _ Hop) as [[s [_ ->]] | [label [c [line [_ ->]]]]].
    + exists (name s :: more). rewrite Hmore. unfold get_subcircuit_names. cbn.
      rewrite map_app. cbn. now rewrite <- app_assoc.
    + exists more. exact Hmore.
Qed.

Lemma run_ops_app (ops1 ops2 : list op) :
  forall self final : NetList,
    run_ops (ops1 ++ ops2) self = (Ok tt, final) ->
    exists mid, run_ops ops1 self = (Ok tt, mid)
                /\ run_ops ops2 mid = (Ok tt, final).
Proof.
  induction ops1 as [| o rest IH]; intros self final Hrun.
  - exists self. split; [reflexivity | exact Hrun].
  - cbn [app run_ops] in Hrun. apply bind_ok_inv in Hrun.
    destruct Hrun as [[] [self1 [Hop Hrest]]].
    destruct (IH _ _ Hrest) as [mid [H1 H2]].
    exists mid. split; [| exact H2].
    cbn [run_ops]. now rewrite (bind_ok _ _ _ _ _ Hop).
Qed.

Lemma NetList_init_consistent (fp : string) : counters_consistent (NetList_init fp).
Proof.
  split; [vm_compute; reflexivity |].
  intros label [v Hv]. left. cbn in Hv.
  destruct (decide ("R" = label)) as [<- | HR]; [cbn; tauto |].
  destruct (decide ("C" = label)) as [<- | HC]; [cbn; tauto |].
  destruct (decide ("L" = label)) as [<- | HL]; [cbn; tauto |].
  rewrite !lookup_insert_ne in Hv by assumption.
  rewrite lookup_empty in Hv. discriminate.
Qed.

Lemma run_op_consistent (o : op) (self self' : NetList) :
  counters_consistent self ->
  run_op o self = (Ok tt, self') ->
  NoDup (get_subcircuit_names self') ->
  (forall nm, In nm (get_subcircuit_names self') -> ~ In nm ["R"; "L"; "C"]) ->
  counters_consistent self'.
Proof.
  intros [Hsum Hkeys] Hop Hnodup Hfresh.
  destruct (run_op_ok_inv _ _ _ Hop) as [[s [_ ->]] | [label [c [line [Hc ->]]]]].
  - unfold get_subcircuit_names in Hnodup, Hfresh. cbn in Hnodup, Hfresh.
    rewrite map_app in Hnodup, Hfresh. cbn in Hnodup, Hfresh.
    assert (Hnone : count_device_dict self !! name s = None).
    { destruct (count_device_dict self !! name s) as [v |] eqn:Hv; [| reflexivity].
      exfalso. destruct (Hkeys (name s)) as [Hrlc | Hreg]; [eauto | |].
      - apply (Hfresh (name s)); [| exact Hrlc].
        apply in_or_app. right. now left.
      - apply NoDup_ListNoDup in Hnodup. apply List.NoDup_remove_2 in Hnodup.
        apply Hnodup. rewrite app_nil_r. exact Hreg. }
    split; cbn.
    + rewrite dict_sum_insert_fresh by exact Hnone. cbn. exact Hsum.
    + intros label [v Hv]. unfold get_subcircuit_names. cbn. rewrite map_app.
      destruct (decide (name s = label)) as [<- | Hne].
      * right. apply in_or_app. right. now left.
      * rewrite lookup_insert_ne in Hv by assumption.
        destruct (Hkeys label) as [H | H]; [eauto | now left |].
        right. apply in_or_app. now left.
  - split; cbn.
    + pose proof (dict_sum_update _ label c (S c) Hc). lia.
    + intros label' [v Hv]. unfold get_subcircuit_names. cbn.
      destruct (decide (label = label')) as [<- | Hne].
      * apply Hkeys. eauto.
      * rewrite lookup_insert_ne in Hv by assumption. apply Hkeys. eauto.
Qed.

(** Every scope built by the construction calls has a counter for each
    registered name. *)
Lemma run_ops_cover_names (ops : list op) :
  forall self final : NetList,
    counters_cover_names self ->
    run_ops ops self = (Ok tt, final) ->
    counters_cover_names final.
Proof.
  induction ops as [| o rest IH]; intros self final Hcover Hrun.
  - cbn in Hrun. inversion Hrun; subst. exact Hcover.
  - cbn [run_ops] in Hrun. apply bind_ok_inv in Hrun.
    destruct Hrun as [[] [self1 [Hop Hrest]]].
    apply (IH self1 final); [| exact Hrest].
    destruct (run_op_ok_inv _ _ _ Hop) as [[s [_ ->]] | [label [c [line [Hc ->]]]]].
    + apply (add_subcircuit_covers self s Hcover).
    + intros nm Hnm. cbn in *.
      destruct (decide (label = nm)) as [-> | Hne].
      * rewrite lookup_insert_eq. eauto.
      * rewrite lookup_insert_ne by assumption. now apply Hcover.
Qed.

Lemma NetList_init_covers (fp : string) : counters_cover_names (NetList_init fp).
Proof. intros nm Hnm. cbn in Hnm. contradiction. Qed.

Lemma run_ops_consistent (ops : list op) :
  forall self final : NetList,
    counters_consistent self ->
    run_ops ops self = (Ok tt, final) ->
    NoDup (get_subcircuit_names final) ->
    (forall nm, In nm (get_subcircuit_names final) -> ~ In nm ["R"; "L"; "C"]) ->
    counters_consistent final.
Proof.
  induction ops as [| o rest IH]; intros self final Hinv Hrun Hnodup Hfresh.
  - cbn in Hrun. inversion Hrun; subst. exact Hinv.
  - cbn [run_ops] in Hrun. apply bind_ok_inv in Hrun.
    destruct Hrun as [[] [self1 [Hop Hrest]]].
    destruct (run_ops_names _ _ _ Hrest) as [more Hmore].
    apply (IH self1 final); try assumption.
    apply (run_op_consistent o self self1 Hinv Hop).
    + rewrite Hmore in Hnodup. now apply NoDup_app in Hnodup.
    + intros nm Hnm. apply Hfresh. rewrite Hmore. apply in_or_app. now left.
Qed.

(** C10, as stated, fails: the two calls return normally and the only
    registered name is R, yet the total is 1 and the counters sum to 0,
    because registering the name R puts the resistor counter back to 0. *)
Lemma total_differs_from_sum :
  run_ops ops_registering_R (NetList_init "top.cir") = (Ok tt, scope_registering_R)
  /\ get_subcircuit_names scope_registering_R = ["R"]
  /\ NoDup (get_subcircuit_names scope_registering_R)
  /\ count_device_total scope_registering_R = 1
  /\ dict_sum (count_device_dict scope_registering_R) = 0
  /\ count_device_total scope_registering_R
     <> dict_sum (count_device_dict scope_registering_R).
Proof.
  assert (Hnames : get_subcircuit_names scope_registering_R = ["R"])
    by (vm_compute; reflexivity).
  assert (Hsum : dict_sum (count_device_dict scope_registering_R) = 0)
    by (vm_compute; reflexivity).
  assert (Htot : count_device_total scope_registering_R = 1)
    by (vm_compute; reflexivity).
  split; [vm_compute; reflexivity |].
  split; [exact Hnames |].
  split; [rewrite Hnames; apply NoDup_singleton |].
  split; [exact Htot |].
  split; [exact Hsum |].
  rewrite Hsum, Htot. discriminate.
Qed.

(** C10 (amended): after any sequence of [add_subcircuit], [rlc_instance] and
    [subcircuit_instance] calls on a fresh NetList that all return normally,
    if the registered names are pairwise distinct and none of them is R, L or
    C, then [count_device_total] is the sum of the values of
    [count_device_dict]; the same holds after every prefix of the sequence,
    so each call preserves the equality. *)
Theorem total_is_sum_of_counters (fp : string) (ops : list op) (final : NetList) :
  run_ops ops (NetList_init fp) = (Ok tt, final) ->
  NoDup (get_subcircuit_names final) ->
  (forall nm, In nm (get_subcircuit_names final) -> ~ In nm ["R"; "L"; "C"]) ->
  count_device_total final = dict_sum (count_device_dict final)
  /\ forall k, exists mid,
       run_ops (firstn k ops) (NetList_init fp) = (Ok tt, mid)
       /\ count_device_total mid = dict_sum (count_device_dict mid).
Proof.
  intros Hrun Hnodup Hfresh. split.
  - apply (run_ops_consistent ops (NetList_init fp) final); try assumption.
    apply NetList_init_consistent.
  - intros k. rewrite <- (firstn_skipn k ops) in Hrun.
    destruct (run_ops_app _ _ _ _ Hrun) as [mid [H1 H2]].
    exists mid. split; [exact H1 |].
    destruct (run_ops_names _ _ _ H2) as [more Hmore].
    apply (run_ops_consistent (firstn k ops) (NetList_init fp) mid); try assumption.
    + apply NetList_init_consistent.
    + rewrite Hmore in Hnodup. now apply NoDup_app in Hnodup.
    + intros nm Hnm. apply Hfresh. rewrite Hmore. apply in_or_app. now left.
Qed.

Lemma total_is_sum_of_counters_witness :
  run_ops sample_ops (NetList_init "top.cir") = (Ok tt, sample_scope)
  /\ NoDup (get_subcircuit_names sample_scope)
  /\ (forall nm, In nm (get_subcircuit_names sample_scope) ->
        ~ In nm ["R"; "L"; "C"])
  /\ count_device_total sample_scope = dict_sum (count_device_dict sample_scope).
Proof.
  assert (H1 : run_ops sample_ops (NetList_init "top.cir") = (Ok tt, sample_scope))
    by (vm_compute; reflexivity).
  assert (H2 : NoDup (get_subcircuit_names sample_scope))
    by (vm_compute; apply NoDup_singleton).
  assert (H3 : forall nm, In nm (get_subcircuit_names sample_scope) ->
                 ~ In nm ["R"; "L"; "C"]).
  { intros nm Hnm. vm_compute in Hnm. destruct Hnm as [<- | []].
    cbn. intros [H | [H | [H | []]]]; discriminate. }
  split; [exact H1 |]. split; [exact H2 |]. split; [exact H3 |].
  exact (proj1 (total_is_sum_of_counters "top.cir" sample_ops sample_scope H1 H2 H3)).
Defined.

(** ** Scientific notation *)

Example float_1000_is_binary64 :
  binary_normalize 53 1024 1000 0 false = float_1000
  /\ bounded 53 1024 8796093022208000 (-43) = true.
Proof. split; vm_compute; reflexivity. Qed.

(** Values whose ['%.6e'] rendering is known: 0.1, 2.5, the ties 99999985
    and 99999995 (to even, the second carrying into the next decade), the
    largest and the smallest positive binary64, the zeros, infinities, nan. *)
Example format_e6_samples :
  format_e6 (S754_finite false 7205759403792794 (-56)) = "1.000000e-01"
  /\ format_e6 (S754_finite true 5 (-1)) = "-2.500000e+00"
  /\ format_e6 (binary_normalize 53 1024 99999985 0 false) = "9.999998e+07"
  /\ format_e6 (binary_normalize 53 1024 99999995 0 false) = "1.000000e+08"
  /\ format_e6 (S754_finite false 9007199254740991 971) = "1.797693e+308"
  /\ format_e6 (S754_finite false 1 (-1074)) = "4.940656e-324"
  /\ format_e6 (S754_zero false) = "0.000000e+00"
  /\ format_e6 (S754_zero true) = "-0.000000e+00"
  /\ format_e6 (S754_infinity true) = "-inf"
  /\ format_e6 S754_nan = "nan".
Proof. repeat split; vm_compute; reflexivity. Qed.

Lemma pos_lt_pow2_size (p : positive) :
  (Npos p < 2 ^ N.of_nat (Pos.size_nat p))%N.
Proof.
  induction p as [p IH | p IH |]; cbn [Pos.size_nat].
  - rewrite Nat2N.inj_succ, N.pow_succ_r'. lia.
  - rewrite Nat2N.inj_succ, N.pow_succ_r'. lia.
  - cbn. lia.
Qed.

Lemma N_lt_pow10_size (n : N) : (n < 10 ^ N.of_nat (N.size_nat n))%N.
Proof.
  destruct n as [| p]; [cbn; lia |].
  cbn [N.size_nat].
  apply N.lt_le_trans with (2 ^ N.of_nat (Pos.size_nat p))%N.
  - apply pos_lt_pow2_size.
  - apply N.pow_le_mono_l. lia.
Qed.

Lemma scale_down_spec (fuel : nat) :
  forall num den k,
    (0 < den)%N -> (num < den * 10 ^ N.of_nat fuel)%N ->
    exists den' k',
      scale_down fuel num den k = (num, den', k')
      /\ (0 < den')%N /\ (num < 10 * den')%N
      /\ (den' = den \/ den' <= num)%N.
Proof.
  induction fuel as [| fuel IH]; intros num den k Hden Hlt.
  - exists den, k. cbn in *. repeat split; lia.
  - cbn [scale_down]. destruct (N.ltb_spec num (10 * den)) as [Hsmall | Hbig].
    + exists den, k. repeat split; lia.
    + destruct (IH num (10 * den)%N (k + 1)%Z) as [den' [k' [Heq [Hpos [Hup Hcase]]]]].
      * lia.
      * rewrite Nat2N.inj_succ, N.pow_succ_r' in Hlt. lia.
      * exists den', k'. repeat split; try assumption. right. lia.
Qed.

Lemma scale_up_spec (fuel : nat) :
  forall num den k,
    (0 < num)%N -> (num < 10 * den)%N -> (den <= num * 10 ^ N.of_nat fuel)%N ->
    exists num' k',
      scale_up fuel num den k = (num', den, k')
      /\ (den <= num')%N /\ (num' < 10 * den)%N.
Proof.
  induction fuel as [| fuel IH]; intros num den k Hnum Hup Hle.
  - exists num, k. cbn in *. repeat split; lia.
  - cbn [scale_up]. destruct (N.leb_spec den num) as [Hok | Hsmall].
    + exists num, k. repeat split; assumption.
    + apply IH; try lia.
      rewrite Nat2N.inj_succ, N.pow_succ_r' in Hle. lia.
Qed.

(** Scaling leaves a fraction in [1, 10). *)
Lemma normalise_spec (num den : N) :
  (0 < num)%N -> (0 < den)%N ->
  exists n d k,
    normalise num den = (n, d, k) /\ (0 < d)%N /\ (d <= n)%N /\ (n < 10 * d)%N.
Proof.
  intros Hnum Hden. unfold normalise.
  destruct (scale_down_spec (S (N.size_nat num)) num den 0%Z Hden)
    as [d1 [k1 [Heq1 [Hpos1 [Hup1 Hcase1]]]]].
  { pose proof (N_lt_pow10_size num) as Hsz.
    rewrite Nat2N.inj_succ, N.pow_succ_r'.
    assert (1 <= den)%N by lia. nia. }
  rewrite Heq1.
  destruct (scale_up_spec (S (N.size_nat den)) num d1 k1 Hnum Hup1)
    as [n2 [k2 [Heq2 [Hlo2 Hup2]]]].
  { destruct Hcase1 as [-> | Hle].
    - pose proof (N_lt_pow10_size den) as Hsz.
      rewrite Nat2N.inj_succ, N.pow_succ_r'.
      assert (1 <= num)%N by lia. nia.
    - assert (1 <= 10 ^ N.of_nat (S (N.size_nat den)))%N.
      { apply N.neq_0_lt_0 in Hpos1. 
        assert (10 ^ N.of_nat (S (N.size_nat den)) <> 0)%N by (apply N.pow_nonzero; lia).
        lia. }
      nia. }
  exists n2, d1, k2. repeat split; assumption.
Qed.

Lemma round_half_even_bounds (num den : N) :
  (num / den <= round_half_even num den
   /\ round_half_even num den <= num / den + 1)%N.
Proof.
  unfold round_half_even.
  destruct (2 * (num mod den) ?= den)%N; [destruct (N.even (num / den)) | |]; lia.
Qed.

(** The seven digits are seven digits. *)
Lemma sci_digits_range (num den : N) :
  (0 < num)%N -> (0 < den)%N ->
  exists D k, sci_digits num den = (D, k)
              /\ (1000000 <= D)%N /\ (D < 10000000)%N.
Proof.
  intros Hnum Hden. unfold sci_digits.
  destruct (normalise_spec num den Hnum Hden) as [n [d [k [Heq [Hd [Hlo Hup]]]]]].
  rewrite Heq.
  pose proof (round_half_even_bounds (n * 1000000) d) as [Hq1 Hq2].
  assert (Hqlo : (1000000 <= n * 1000000 / d)%N).
  { apply N.div_le_lower_bound; lia. }
  assert (Hqup : (n * 1000000 / d < 10000000)%N).
  { apply N.Div0.div_lt_upper_bound. lia. }
  destruct (N.eqb_spec (round_half_even (n * 1000000) d) 10000000) as [Heq7 | Hne7].
  - exists 1000000%N, (k + 1)%Z. repeat split; lia.
  - exists (round_half_even (n * 1000000) d), k. repeat split; lia.
Qed.

Lemma all_digits_app (s t : string) :
  all_digits (s +:+ t) = (all_digits s && all_digits t)%bool.
Proof.
  induction s as [| a s IH]; [reflexivity |].
  rewrite string_app_cons. cbn. rewrite IH. now rewrite andb_assoc.
Qed.

Lemma all_digits_zeros (k : nat) : all_digits (zeros k) = true.
Proof. induction k as [| k IH]; [reflexivity | exact IH]. Qed.

Lemma render_digits_all_digits (fuel : nat) :
  forall n acc, all_digits acc = true ->
    all_digits (render_digits fuel n acc) = true.
Proof.
  induction fuel as [| fuel IH]; intros n acc Hacc; [exact Hacc |].
  cbn [render_digits].
  assert (Hstep : all_digits (String (digit_char (n mod 10)) acc) = true).
  { cbn. rewrite digit_char_is_digit by apply mod10_lt. exact Hacc. }
  destruct (n / 10 =? 0)%N; [exact Hstep | now apply IH].
Qed.

Lemma zfill_str_of_N (w : nat) (n : N) :
  zfill w (str_of_N n) = zeros (w - String.length (str_of_N n)) +:+ str_of_N n.
Proof.
  destruct (render_digits_head (N.size_nat n) n "") as [d [rest [Hd Heq]]].
  unfold str_of_N. rewrite Heq. unfold zfill. now rewrite digit_char_not_sign.
Qed.

(** The exponent: a sign, then at least two digits. *)
Lemma format_exponent_shape (k : Z) :
  exists sg ex,
    format_exponent k = String sg ex
    /\ (Ascii.eqb sg "+" || Ascii.eqb sg "-")%bool = true
    /\ (2 <=? String.length ex)%nat = true
    /\ all_digits ex = true.
Proof.
  unfold format_exponent.
  exists (if (k <? 0)%Z then "-"%char else "+"%char), (zfill 2 (str_of_N (Z.abs_N k))).
  split; [now destruct (k <? 0)%Z |].
  split; [now destruct (k <? 0)%Z |].
  rewrite zfill_str_of_N. split.
  - apply Nat.leb_le. rewrite string_length_app, zeros_length. lia.
  - rewrite all_digits_app, all_digits_zeros.
    apply andb_true_intro. split; [reflexivity |].
    unfold str_of_N. now apply render_digits_all_digits.
Qed.

Lemma fixed_digits_6 (n : N) :
  exists c1 c2 c3 c4 c5 c6,
    fixed_digits 6 n "" =
      String c1 (String c2 (String c3 (String c4 (String c5 (String c6 "")))))
    /\ is_digit c1 = true /\ is_digit c2 = true /\ is_digit c3 = true
    /\ is_digit c4 = true /\ is_digit c5 = true /\ is_digit c6 = true.
Proof.
  do 6 eexists. split; [cbn [fixed_digits]; reflexivity |].
  repeat split; apply digit_char_is_digit, mod10_lt.
Qed.

(** A finite value is printed as one digit, a point, six digits and an
    exponent of at least two digits. *)
Lemma format_e6_shape (value : spec_float) :
  is_finite value = true -> is_sci6 (format_e6 value) = true.
Proof.
  destruct value as [s | s | | s m e]; intros Hfin; try discriminate.
  - destruct s; reflexivity.
  - unfold format_e6.
    destruct (dyadic m e) as [num den] eqn:Hdy.
    assert (Hpos : (0 < num)%N /\ (0 < den)%N).
    { unfold dyadic in Hdy. destruct (0 <=? e)%Z; inversion Hdy; subst.
      - split; [| lia].
        assert (2 ^ Z.to_N e <> 0)%N by (apply N.pow_nonzero; lia). lia.
      - split; [lia |].
        assert (2 ^ Z.to_N (- e) <> 0)%N by (apply N.pow_nonzero; lia). lia. }
    destruct (sci_digits_range num den (proj1 Hpos) (proj2 Hpos))
      as [D [k [Hsd [Hlo Hup]]]].
    rewrite Hsd.
    destruct (format_exponent_shape k) as [sg [ex [-> [Hsg [Hlen Hex]]]]].
    destruct (fixed_digits_6 (D mod 1000000))
      as [c1 [c2 [c3 [c4 [c5 [c6 [-> [H1 [H2 [H3 [H4 [H5 H6]]]]]]]]]]]].
    assert (Hd0 : (D / 1000000 < 10)%N)
      by (apply N.Div0.div_lt_upper_bound; lia).
    pose proof (digit_char_is_digit _ Hd0) as Hdig.
    pose proof (digit_char_not_sign _ Hd0) as Hnosign.
    apply orb_false_elim in Hnosign. destruct Hnosign as [_ Hnominus].
    assert (Hbody :
      is_sci6_unsigned
        (String (digit_char (D / 1000000))
           ("." +:+ String c1 (String c2 (String c3 (String c4 (String c5 (String c6 "")))))
              +:+ "e" +:+ String sg ex)) = true).
    { cbv [String.append]. cbn [is_sci6_unsigned].
      rewrite Hdig, H1, H2, H3, H4, H5, H6, Hsg, Hlen, Hex. reflexivity. }
    destruct s.
    + exact Hbody.
    + change ("" +:+ ?x) with x. cbv [is_sci6].
      rewrite string_app_cons. rewrite Hnominus. exact Hbody.
Qed.

(** ** Writing *)

Lemma append_file_content p c text w :
  append_file p text (with_content p c w) = with_content p (c +:+ text) w.
Proof.
  unfold append_file, with_content, set_files. cbn.
  rewrite lookup_insert_eq, insert_insert_eq. reflexivity.
Qed.


Lemma open_w_content p w :
  open_failure w p = None ->
  open_w p w = (Ok (mkTextIO p false), with_content p "" w).
Proof. intros H. unfold open_w, bind, get. now rewrite H. Qed.

Lemma open_a_content p w :
  open_failure w p = None ->
  open_a p w
  = (Ok (mkTextIO p false), with_content p (default "" (files w !! p)) w).
Proof.
  intros H. unfold open_a, bind, get. rewrite H.
  unfold modify, ret, with_content, set_files.
  destruct (files w !! p) as [c |] eqn:Hc; cbn; [| reflexivity].
  rewrite (insert_id _ _ _ Hc). now destruct w.
Qed.

Lemma open_w_fails p w e :
  open_failure w p = Some e -> open_w p w = (Raise e, w).
Proof. intros H. unfold open_w, bind, get. now rewrite H. Qed.

Lemma open_a_fails p w e :
  open_failure w p = Some e -> open_a p w = (Raise e, w).
Proof. intros H. unfold open_a, bind, get. now rewrite H. Qed.

Lemma write_content p c text w :
  write (mkTextIO p false) text (with_content p c w)
  = (Ok tt, with_content p (c +:+ text) w).
Proof. unfold write, modify. cbn. now rewrite append_file_content. Qed.

Lemma bind_write {B} p c text w (k : unit -> M World B) :
  bind (write (mkTextIO p false) text) k (with_content p c w)
  = k tt (with_content p (c +:+ text) w).
Proof. apply bind_ok, write_content. Qed.

Lemma write_comment_content p c cm w :
  _write_comment (PyTextIO (mkTextIO p false)) cm (with_content p c w)
  = (Ok tt, with_content p (c +:+ comment_text cm) w).
Proof.
  unfold _write_comment, comment_text.
  destruct (0 <? String.length cm)%nat.
  - apply write_content.
  - unfold ret. now rewrite string_app_nil_r.
Qed.

Lemma bind_write_comment {B} p c cm w (k : unit -> M World B) :
  bind (_write_comment (PyTextIO (mkTextIO p false)) cm) k (with_content p c w)
  = k tt (with_content p (c +:+ comment_text cm) w).
Proof. apply bind_ok, write_comment_content. Qed.

Lemma join_empty_cons (x : string) (l : list string) :
  join "" (x :: l) = x +:+ join "" l.
Proof.
  unfold join. destruct l as [| y l]; cbn [String.concat].
  - now rewrite string_app_nil_r.
  - reflexivity.
Qed.

(** On an open stream, [_write_subcircuit] returns and appends the text of
    the definition. *)
Lemma write_subcircuit_content (sc : SubCircuit) :
  forall p c w,
    _write_subcircuit sc (PyTextIO (mkTextIO p false)) (with_content p c w)
    = (Ok (refreshed sc), with_content p (c +:+ subcircuit_text sc) w).
Proof.
  induction sc as [sc IH] using SubCircuit_nested_ind. intros p c w.
  destruct sc as [[fp subs devs d tot] nm ext sfx cm sl el sfp].
  cbn [as_netlist subcircuits] in IH.
  cbn [_write_subcircuit subcircuit_text refreshed closed _update_end_line
       _update_start_line set_start_line set_end_line set_netlist
       set_subcircuits as_netlist name ext_nodes suffix comment devices
       subcircuits start_line end_line subcircuit_filepath filepath
       count_device_dict count_device_total].
  rewrite bind_write_comment, !bind_write.
  match goal with
  | |- context [bind (?F subs) _ _] => set (each := F)
  end.
  match goal with
  | |- context [?G subs +:+ _] => set (each_text := G)
  end.
  assert (Heach : forall c',
    each subs (with_content p c' w)
    = (Ok (map refreshed subs), with_content p (c' +:+ each_text subs) w)).
  { clear -IH. induction IH as [| x rest Hx _ IHrest]; intros c'.
    - cbn. now rewrite string_app_nil_r.
    - subst each each_text. cbn [map].
      rewrite !bind_write_comment.
      destruct (subcircuit_filepath x) as [src |].
      + rewrite bind_write_comment.
        rewrite (bind_ok _ _ _ _ _ (Hx p _ w)).
        rewrite (bind_ok _ _ _ _ _ (IHrest _)).
        unfold ret. now rewrite !string_app_assoc.
      + unfold bind at 1. unfold ret at 1.
        rewrite (bind_ok _ _ _ _ _ (Hx p _ w)).
        rewrite (bind_ok _ _ _ _ _ (IHrest _)).
        unfold ret. now rewrite !string_app_assoc. }
  rewrite (bind_ok _ _ _ _ _ (Heach _)).
  rewrite bind_write. unfold ret.
  now rewrite !string_app_assoc.
Qed.







Lemma with_content_lookup p c w : files (with_content p c w) !! p = Some c.
Proof. cbn. apply lookup_insert_eq. Qed.






Example sample_written_file :
  files (snd (write_in_fpath sample_netlist sample_world)) !! "out.cir"
  = Some ("*** Generated for: SPICE" +:+ _END_OF_LINE
          +:+ "*** By: simulation.spice python package" +:+ _END_OF_LINE
          +:+ "*** On: 03/11/2026" +:+ _END_OF_LINE
          +:+ "*** At: 12:00:00" +:+ _END_OF_LINE
          +:+ "***  " +:+ _END_OF_LINE
          +:+ "*** subcircuits" +:+ _END_OF_LINE
          +:+ ".SUBCIRCUIT OPAMP in out" +:+ _END_OF_LINE
          +:+ "R1 in out 1.000000e+03" +:+ _END_OF_LINE
          +:+ ".ENDS OPAMP" +:+ _END_OF_LINE
          +:+ "*** Instances" +:+ _END_OF_LINE
          +:+ "X_AMP_00001 n1 n2 OPAMP" +:+ _END_OF_LINE).
Proof. vm_compute. reflexivity. Qed.

(** ** Loading *)

Lemma bind_must_raise {St A B} (m : M St A) (k : A -> M St B) (s : St) :
  (forall a s1, m s = (Ok a, s1) -> raises (k a) s1) ->
  raises (bind m k) s.
Proof.
  intros Hk. unfold raises, bind.
  destruct (m s) as [[a | e] s1] eqn:Hm.
  - now apply Hk.
  - now exists e, s1.
Qed.

Lemma inherited_raise {A} (m : M NetList A) (self : SubCircuit) e :
  m (as_netlist self) = (Raise e, as_netlist self) ->
  inherited m self = (Raise e, self).
Proof.
  intros H. unfold inherited. rewrite H. now destruct self.
Qed.

Lemma subcircuit_instance_str (self : NetList) (token : string) nodes :
  subcircuit_instance (PyStr token) nodes self = (Raise AttributeError, self).
Proof. reflexivity. Qed.

(** A line whose first token starts with X: the last token, a [str], is
    passed where [subcircuit_instance] reads [.name], which a [str] lacks. *)
Lemma loop_body_X_line (py_float : string -> result spec_float)
    (line rest_of_token : string) (tokens : list string)
    (continue : M SubCircuit unit) (self : SubCircuit) :
  split line = String "X" rest_of_token :: tokens ->
  loop_body py_float line continue self = (Raise AttributeError, self).
Proof.
  intros Hsplit. unfold loop_body. rewrite Hsplit.
  rewrite (bind_ok _ _ self (String "X" rest_of_token) self) by reflexivity.
  rewrite (bind_ok _ _ self "X" self) by reflexivity.
  change (py_in "X" ["R"; "L"; "C"]) with false.
  change (String.eqb "X" "X") with true. cbv iota.
  rewrite (bind_ok _ _ self
             (List.last (String "X" rest_of_token :: tokens) "") self)
    by reflexivity.
  apply bind_raise, inherited_raise, subcircuit_instance_str.
Qed.

(** A line without any token: [split_line[0]] is out of range. *)
Lemma loop_body_blank_line (py_float : string -> result spec_float)
    (line : string) (continue : M SubCircuit unit) (self : SubCircuit) :
  split line = [] ->
  loop_body py_float line continue self = (Raise IndexError, self).
Proof.
  intros Hsplit. unfold loop_body. now rewrite Hsplit.
Qed.

(** Without a line whose first token is [.ENDS], the loop ends in an
    exception: at the latest when [readline] reaches the end of the file. *)
Lemma read_loop_raises (py_float : string -> result spec_float)
    (stream : list string) :
  (forall line, In line stream -> hd_error (split line) <> Some ".ENDS") ->
  forall self, raises (read_loop py_float stream) self.
Proof.
  induction stream as [| line rest IH]; intros Hnoend self.
  - exists IndexError, self. reflexivity.
  - assert (Hrest : forall self', raises (read_loop py_float rest) self').
    { apply IH. intros l Hl. apply Hnoend. now right. }
    assert (Hline : hd_error (split line) <> Some ".ENDS")
      by (apply Hnoend; now left).
    cbn [read_loop]. unfold loop_body.
    destruct (split line) as [| first_token tokens] eqn:Hsplit.
    { exists IndexError, self. reflexivity. }
    apply bind_must_raise. intros token s1 Htoken.
    cbn in Htoken. inversion Htoken; subst token s1.
    destruct first_token as [| ch tail].
    { exists IndexError, self. reflexivity. }
    apply bind_must_raise. intros first_char s2 Hfc.
    cbn in Hfc. inversion Hfc; subst first_char s2.
    destruct (py_in (String ch "") ["R"; "L"; "C"]).
    { do 3 (apply bind_must_raise; intros ? ? _). apply Hrest. }
    destruct (String.eqb (String ch "") "X").
    { do 2 (apply bind_must_raise; intros ? ? _). apply Hrest. }
    destruct (py_in (String ch "") ["."]); [| apply Hrest].
    destruct (String.eqb_spec (String ch tail) ".ENDS") as [Heq | Hne];
      [| apply Hrest].
    exfalso. apply Hline. cbn. now rewrite Heq.
Qed.

Lemma is_empty_app_cons (s : string) (c : ascii) :
  is_empty (s +:+ String c "") = false.
Proof. now destruct s. Qed.

Lemma lines_from_head (text : string) :
  forall line,
    is_empty text = false \/ is_empty line = false ->
    exists first rest,
      lines_from text line = first :: rest /\ is_empty first = false.
Proof.
  induction text as [| c text IH]; intros line Hne.
  - destruct Hne as [H | H]; [discriminate |].
    exists line, []. cbn. rewrite H. now split.
  - cbn [lines_from]. destruct (Ascii.eqb c "010").
    + eexists _, _. split; [reflexivity | apply is_empty_app_cons].
    + apply IH. right. apply is_empty_app_cons.
Qed.

(** The first [readline] of a non-empty file gives a non-empty line. *)
Lemma readlines_head (text : string) :
  text <> "" ->
  exists first rest, readlines text = first :: rest /\ is_empty first = false.
Proof.
  intros Hne. apply lines_from_head. left.
  destruct text; [contradiction | reflexivity].
Qed.

(** *** Loading the sample files *)

(** C6 (the code at the failing input): the file [top.cir] has the line
    [X_AMP_00001 in out OPAMP]. Loading it raises AttributeError and adds no
    instance, whether OPAMP is registered in the sub-circuit being built or
    not, although [subcircuit_instance] given the SubCircuit itself appends
    the instance when it is registered and raises the ValueError for an
    unregistered name when it is not. *)
Theorem load_X_line_raises_AttributeError :
  In "OPAMP" (get_subcircuit_names (as_netlist subcircuit_with_OPAMP))
  /\ load_from_file sample_py_float sample_files "top.cir" [] "" ""
       subcircuit_with_OPAMP
     = (Raise AttributeError,
        set_ext_nodes ["in"; "out"]
          (_update_end_line
             (_update_start_line
                (set_name "TOP"
                   (set_subcircuit_filepath "top.cir" subcircuit_with_OPAMP)))))
  /\ fst (load_from_file sample_py_float sample_files "top.cir" [] "" ""
            new_subcircuit) = Raise AttributeError
  /\ (exists self',
        subcircuit_instance (PySubCircuit OPAMP) ["in"; "out"]
          (as_netlist subcircuit_with_OPAMP) = (Ok tt, self')
        /\ devices self' = ["X_AMP_00001 in out OPAMP" +:+ _END_OF_LINE])
  /\ subcircuit_instance (PySubCircuit OPAMP) ["in"; "out"]
       (as_netlist new_subcircuit)
     = (Raise (ValueError "OPAMP does not exist as a subcircuit"),
        as_netlist new_subcircuit).
Proof.
  split; [vm_compute; now left |].
  split; [vm_compute; reflexivity |].
  split; [vm_compute; reflexivity |].
  split; [| vm_compute; reflexivity].
  eexists. split; vm_compute; reflexivity.
Qed.

(** C7 (the code at the failing input): [blank.cir] has an empty line between
    its resistor and its capacitor. Loading it raises IndexError at that
    line, after the resistor and before the capacitor; the same file without
    the empty line loads and gives both devices. *)
Theorem load_blank_line_raises_IndexError :
  (exists self',
     load_from_file sample_py_float sample_files "blank.cir" [] "" ""
       new_subcircuit = (Raise IndexError, self')
     /\ devices (as_netlist self') = ["R1 in out 1.000000e+03" +:+ _END_OF_LINE])
  /\ (exists self',
        load_from_file sample_py_float sample_files "rc.cir" [] "" ""
          new_subcircuit = (Ok tt, self')
        /\ devices (as_netlist self')
           = ["R1 in out 1.000000e+03" +:+ _END_OF_LINE;
              "C1 out 0 1.000000e+03" +:+ _END_OF_LINE]).
Proof.
  split; eexists; split; vm_compute; reflexivity.
Qed.

(** C8, as stated, fails: loading the empty file [empty.cir] under the name A
    returns normally; nothing is raised and the sub-circuit comes back with
    no device. *)
Lemma load_empty_file_returns :
  sample_files !! "empty.cir" = Some ""
  /\ load_from_file sample_py_float sample_files "empty.cir" ["in"; "out"] "A" "AMP"
       new_subcircuit
     = (Ok tt,
        mkSubCircuit (NetList_init "") "A" ["in"; "out"] "AMP" ""
          (start_line new_subcircuit) (end_line new_subcircuit)
          (Some "empty.cir"))
  /\ ~ raises (load_from_file sample_py_float sample_files "empty.cir"
                 ["in"; "out"] "A" "AMP") new_subcircuit.
Proof.
  split; [vm_compute; reflexivity |].
  split; [vm_compute; reflexivity |].
  intros [e [self' H]]. vm_compute in H. discriminate.
Qed.

(** C8 (amended): [load_from_file] has no error of its own for a missing
    end directive. When no line after the first has [.ENDS] as its first
    token: an empty file loaded under a given name returns normally, the
    sub-circuit getting the file path, nodes, name and suffix of the call
    and no device; a file that is not empty does not return normally, the
    call ends in an exception. *)
Theorem load_without_end_directive (py_float : string -> result spec_float)
    (fs : gmap string string) (path : string) (external_nodes : list string)
    (nm sfx : string) (self : SubCircuit) (text : string) :
  fs !! path = Some text ->
  (forall line, In line (List.tl (readlines text)) ->
     hd_error (split line) <> Some ".ENDS") ->
  (text = "" -> nm <> "" ->
     load_from_file py_float fs path external_nodes nm sfx self
     = (Ok tt,
        mkSubCircuit (as_netlist self) nm external_nodes sfx (comment self)
          (start_line self) (end_line self) (Some path)))
  /\ (text <> "" ->
        raises (load_from_file py_float fs path external_nodes nm sfx) self).
Proof.
  intros Hfs Hnoend. split.
  - intros -> Hnm. unfold load_from_file.
    unfold bind at 1 2 3 4. unfold modify at 1 2 3 4. rewrite Hfs.
    cbn [readlines lines_from is_empty readline split split_from].
    destruct nm as [| c nm]; [contradiction |]. cbn [is_empty].
    destruct external_nodes; reflexivity.
  - intros Htext. unfold load_from_file.
    do 4 (apply bind_must_raise; intros ? ? _). rewrite Hfs.
    destruct (readlines_head text Htext) as [first [rest [Hlines Hfirst]]].
    rewrite Hlines in *. cbn [readline List.tl] in *.
    do 3 (apply bind_must_raise; intros ? ? _).
    rewrite Hfirst. now apply read_loop_raises.
Qed.

Lemma load_without_end_directive_witness :
  sample_files !! "cut.cir"
    = Some (text_of_lines [".SUBCIRCUIT RC in out"; "R1 in out 1.000000e+03"])
  /\ (forall line,
        In line (List.tl (readlines
                   (text_of_lines [".SUBCIRCUIT RC in out"; "R1 in out 1.000000e+03"]))) ->
        hd_error (split line) <> Some ".ENDS")
  /\ raises (load_from_file sample_py_float sample_files "cut.cir" [] "" "")
       new_subcircuit.
Proof.
  assert (H1 : sample_files !! "cut.cir"
    = Some (text_of_lines [".SUBCIRCUIT RC in out"; "R1 in out 1.000000e+03"]))
    by (vm_compute; reflexivity).
  assert (H2 : forall line,
        In line (List.tl (readlines
                   (text_of_lines [".SUBCIRCUIT RC in out"; "R1 in out 1.000000e+03"]))) ->
        hd_error (split line) <> Some ".ENDS").
  { intros line Hline. vm_compute in Hline. destruct Hline as [<- | []].
    vm_compute. discriminate. }
  split; [exact H1 |]. split; [exact H2 |].
  apply (proj2 (load_without_end_directive sample_py_float sample_files "cut.cir"
                  [] "" "" new_subcircuit _ H1 H2)).
  vm_compute. discriminate.
Defined.

(** What the truncated sample does: the resistor is read, then the end of
    the file is reached and [split_line[0]] raises IndexError. *)
Example load_cut_file :
  exists self',
    load_from_file sample_py_float sample_files "cut.cir" [] "" "" new_subcircuit
      = (Raise IndexError, self')
    /\ devices (as_netlist self') = ["R1 in out 1.000000e+03" +:+ _END_OF_LINE].
Proof. eexists. split; vm_compute; reflexivity. Qed.

(** * Further properties of the construction calls *)

Lemma NetList_init_has_device_counters (fp : string) :
  has_device_counters (NetList_init fp).
Proof.
  intros ty Hty. cbn in Hty.
  destruct Hty as [<- | [<- | [<- | []]]]; cbn; eexists; reflexivity.
Qed.

Lemma rlc_instance_ok_inv (self self' : NetList) device nodes value :
  rlc_instance device nodes value self = (Ok tt, self') ->
  In device ["R"; "L"; "C"]
  /\ exists c, count_device_dict self !! device = Some c
       /\ self' = mkNetList (filepath self) (subcircuits self)
                    (devices self ++ [rlc_line device (S c) nodes value])
                    (<[device := S c]> (count_device_dict self))
                    (S (count_device_total self)).
Proof.
  unfold rlc_instance.
  destruct (py_in device ["R"; "L"; "C"]) eqn:Hin; [| discriminate].
  apply py_in_In in Hin.
  unfold bind, modify, dict_incr. cbn.
  destruct (count_device_dict self !! device) as [c |] eqn:Hc; [| discriminate].
  cbn. intros H. inversion H; subst. split; [exact Hin |]. now exists c.
Qed.

(** X1: in a scope that has the three device counters, [rlc_instance]
    returns exactly when the device is R, L or C; for any other device it
    raises the ValueError naming the three letters and leaves the scope as it
    was. *)
Theorem rlc_instance_returns_iff (self : NetList) (device : string)
    (nodes : list string) (value : spec_float) :
  has_device_counters self ->
  (fst (rlc_instance device nodes value self) = Ok tt
   <-> In device ["R"; "L"; "C"])
  /\ (~ In device ["R"; "L"; "C"] ->
        rlc_instance device nodes value self
        = (Raise (ValueError "device must be in ['R', 'L', 'C']"), self)).
Proof.
  intros Hkeys. split; [split |].
  - intros Hok.
    destruct (rlc_instance device nodes value self) as [r self'] eqn:Hrun.
    cbn in Hok. subst r. now apply rlc_instance_ok_inv in Hrun.
  - intros Hin. destruct (Hkeys device Hin) as [c Hc].
    now rewrite (rlc_instance_ok self device nodes value c Hin Hc).
  - apply rlc_instance_invalid.
Qed.

Lemma rlc_instance_returns_iff_witness :
  has_device_counters (NetList_init "top.cir")
  /\ rlc_instance "Q" ["n1"; "n2"] float_1000 (NetList_init "top.cir")
     = (Raise (ValueError "device must be in ['R', 'L', 'C']"),
        NetList_init "top.cir").
Proof.
  assert (H : has_device_counters (NetList_init "top.cir"))
    by apply NetList_init_has_device_counters.
  split; [exact H |].
  apply (proj2 (rlc_instance_returns_iff (NetList_init "top.cir") "Q"
                  ["n1"; "n2"] float_1000 H)).
  cbn. intros [Hq | [Hq | [Hq | []]]]; discriminate.
Defined.

Lemma earlier_rlc_calls_S ty j device nodes value rest :
  earlier_rlc_calls ty (S j) ((device, nodes, value) :: rest)
    = (if String.eqb device ty then 1 else 0) + earlier_rlc_calls ty j rest.
Proof.
  unfold earlier_rlc_calls, calls_with. cbn.
  now destruct (String.eqb device ty).
Qed.

(** Each call appends one line; its index is the counter its device had
    before the calls, plus one, plus the number of earlier calls with the
    same device. *)
Lemma run_rlc_lines (calls : list rlc_call) :
  forall self : NetList,
    has_device_counters self ->
    Forall (fun c : rlc_call => In (fst (fst c)) ["R"; "L"; "C"]) calls ->
    exists final lines,
      run_rlc calls self = (Ok tt, final)
      /\ devices final = devices self ++ lines
      /\ length lines = length calls
      /\ subcircuits final = subcircuits self
      /\ forall j device nodes value c,
           calls !! j = Some (device, nodes, value) ->
           count_device_dict self !! device = Some c ->
           lines !! j
             = Some (rlc_line device (c + S (earlier_rlc_calls device j calls))
                       nodes value).
Proof.
  induction calls as [| [[device0 nodes0] value0] rest IH]; intros self Hkeys Hall.
  - exists self, []. cbn. rewrite app_nil_r. repeat split.
    intros j device nodes value c Hj. destruct j; discriminate.
  - inversion Hall as [| ? ? Hdev Hrest]; subst. cbn in Hdev.
    destruct (Hkeys device0 Hdev) as [c0 Hc0].
    pose proof (rlc_instance_ok self device0 nodes0 value0 c0 Hdev Hc0) as Hstep.
    set (self1 := mkNetList (filepath self) (subcircuits self)
                    (devices self ++ [rlc_line device0 (S c0) nodes0 value0])
                    (<[device0 := S c0]> (count_device_dict self))
                    (S (count_device_total self))) in *.
    destruct (IH self1) as [final [lines [Hrun [Hdevs [Hlen [Hsubs Hlines]]]]]].
    { intros ty Hty. cbn. destruct (decide (device0 = ty)) as [-> | Hne].
      - rewrite lookup_insert_eq. eauto.
      - rewrite lookup_insert_ne by assumption. now apply Hkeys. }
    { exact Hrest. }
    exists final, (rlc_line device0 (S c0) nodes0 value0 :: lines).
    split; [| split; [| split; [| split]]].
    + cbn [run_rlc]. rewrite (bind_ok _ _ _ _ _ Hstep). exact Hrun.
    + rewrite Hdevs. cbn. now rewrite <- app_assoc.
    + cbn. now rewrite Hlen.
    + exact Hsubs.
    + intros j device nodes value c Hj Hc. destruct j as [| j].
      * cbn in Hj. inversion Hj; subst device0 nodes0 value0.
        rewrite Hc in Hc0. inversion Hc0; subst c0.
        unfold earlier_rlc_calls, calls_with. cbn. do 2 f_equal. lia.
      * cbn in Hj. rewrite earlier_rlc_calls_S.
        change ((rlc_line device0 (S c0) nodes0 value0 :: lines) !! S j)
          with (lines !! j).
        destruct (String.eqb_spec device0 device) as [Heq | Hne].
        -- assert (c0 = c) as -> by (rewrite Heq, Hc in Hc0; now inversion Hc0).
           rewrite (Hlines j device nodes value (S c) Hj).
           ++ do 2 f_equal. lia.
           ++ cbn. rewrite Heq. apply lookup_insert_eq.
        -- rewrite (Hlines j device nodes value c Hj).
           ++ reflexivity.
           ++ cbn. now rewrite lookup_insert_ne.
Qed.

(** X2: on a fresh NetList, the calls of [rlc_instance] with devices among
    R, L and C append one line each, in call order; the line of a call is
    [<device><index> <nodes> <value>] where the index is one more than the
    number of earlier calls with the same device, so each device type is
    numbered 1, 2, 3, ... on its own. *)
Theorem rlc_indices (fp : string) (calls : list rlc_call) :
  Forall (fun c : rlc_call => In (fst (fst c)) ["R"; "L"; "C"]) calls ->
  exists final,
    run_rlc calls (NetList_init fp) = (Ok tt, final)
    /\ length (devices final) = length calls
    /\ forall j device nodes value,
         calls !! j = Some (device, nodes, value) ->
         devices final !! j
           = Some (device +:+ str_of_nat (S (earlier_rlc_calls device j calls))
                     +:+ " " +:+ join " " nodes +:+ " " +:+ format_e6 value
                     +:+ _END_OF_LINE).
Proof.
  intros Hall.
  destruct (run_rlc_lines calls (NetList_init fp)
              (NetList_init_has_device_counters fp) Hall)
    as [final [lines [Hrun [Hdevs [Hlen [_ Hlines]]]]]].
  cbn [devices NetList_init app] in Hdevs.
  exists final. rewrite Hdevs. split; [exact Hrun |]. split; [exact Hlen |].
  intros j device nodes value Hj.
  assert (Hdev : In device ["R"; "L"; "C"]).
  { rewrite Forall_forall in Hall.
    apply (Hall (device, nodes, value)).
    now apply list_elem_of_lookup_2 in Hj. }
  rewrite (Hlines j device nodes value 0 Hj); [reflexivity |].
  cbn in Hdev. destruct Hdev as [<- | [<- | [<- | []]]]; reflexivity.
Qed.

Lemma rlc_indices_witness :
  Forall (fun c : rlc_call => In (fst (fst c)) ["R"; "L"; "C"]) sample_calls
  /\ exists final,
       run_rlc sample_calls (NetList_init "top.cir") = (Ok tt, final)
       /\ length (devices final) = length sample_calls.
Proof.
  assert (H : Forall (fun c : rlc_call => In (fst (fst c)) ["R"; "L"; "C"])
                sample_calls).
  { repeat constructor; cbn; tauto. }
  split; [exact H |].
  destruct (rlc_indices "top.cir" sample_calls H) as [final [Hrun [Hlen _]]].
  exists final. split; assumption.
Defined.

(** The lines of the sample calls: the second resistor is R2, the capacitor
    C1. *)
Example sample_rlc_lines :
  devices (snd (run_rlc sample_calls (NetList_init "top.cir")))
  = ["R1 n1 n2 1.000000e+03" +:+ _END_OF_LINE;
     "C1 n2 0 1.000000e+03" +:+ _END_OF_LINE;
     "R2 n2 n3 1.000000e+03" +:+ _END_OF_LINE].
Proof. vm_compute. reflexivity. Qed.

Lemma run_op_ok_label (o : op) (self self' : NetList) :
  run_op o self = (Ok tt, self') ->
  (exists s, o = AddSubcircuit (PySubCircuit s)
     /\ self' = mkNetList (filepath self) (subcircuits self ++ [s]) (devices self)
                  (<[name s := 0]> (count_device_dict self))
                  (count_device_total self))
  \/ (exists label c line,
        op_label o = Some label
        /\ creates_instance o = true
        /\ count_device_dict self !! label = Some c
        /\ self' = mkNetList (filepath self) (subcircuits self)
                     (devices self ++ [line])
                     (<[label := S c]> (count_device_dict self))
                     (S (count_device_total self))).
Proof.
  destruct o as [s | device nodes value | s nodes]; cbn [run_op].
  - destruct s as [str | s | other]; intros H;
      [cbn in H; discriminate | | cbn in H; discriminate].
    left. exists s. split; [reflexivity |].
    rewrite add_subcircuit_eq in H. now inversion H.
  - intros H. apply rlc_instance_ok_inv in H.
    destruct H as [_ [c [Hc ->]]]. right. now exists device, c, (rlc_line device (S c) nodes value).
  - destruct s as [str | s | other]; cbn; try discriminate.
    unfold subcircuit_instance, bind, attr_name, ret, get. cbn.
    destruct (py_in (name s) (get_subcircuit_names self)); [| discriminate].
    unfold dict_incr. cbn.
    destruct (count_device_dict self !! name s) as [c |] eqn:Hc; [| discriminate].
    cbn. intros H. inversion H; subst. right.
    exists (name s), c. eexists. repeat split. exact Hc.
Qed.

Lemma run_ops_has_device_counters (ops : list op) :
  forall self final : NetList,
    has_device_counters self ->
    run_ops ops self = (Ok tt, final) ->
    has_device_counters final.
Proof.
  induction ops as [| o rest IH]; intros self final Hkeys Hrun.
  - cbn in Hrun. inversion Hrun; subst. exact Hkeys.
  - cbn [run_ops] in Hrun. apply bind_ok_inv in Hrun.
    destruct Hrun as [[] [self1 [Hop Hrest]]].
    apply (IH self1 final); [| exact Hrest].
    intros ty Hty.
    destruct (run_op_ok_inv _ _ _ Hop) as [[s [_ ->]] | [label [c [line [Hc ->]]]]];
      cbn.
    + destruct (decide (name s = ty)) as [-> | Hne].
      * rewrite lookup_insert_eq. eauto.
      * rewrite lookup_insert_ne by assumption. now apply Hkeys.
    + destruct (decide (label = ty)) as [-> | Hne].
      * rewrite lookup_insert_eq. eauto.
      * rewrite lookup_insert_ne by assumption. now apply Hkeys.
Qed.

Lemma run_op_grows (o : op) (self : NetList) :
  filepath (snd (run_op o self)) = filepath self
  /\ (exists more, subcircuits (snd (run_op o self)) = subcircuits self ++ more)
  /\ (exists more, devices (snd (run_op o self)) = devices self ++ more)
  /\ count_device_total self <= count_device_total (snd (run_op o self)).
Proof.
  assert (Hsame : forall s : NetList,
            filepath s = filepath s
            /\ (exists more, subcircuits s = subcircuits s ++ more)
            /\ (exists more, devices s = devices s ++ more)
            /\ count_device_total s <= count_device_total s).
  { intros s. repeat split; try (exists []; now rewrite app_nil_r). lia. }
  destruct o as [s | device nodes value | s nodes]; cbn [run_op].
  - destruct s as [str | s | other]; try apply Hsame.
    rewrite add_subcircuit_eq. cbn. repeat split; eauto.
    exists []. now rewrite app_nil_r.
  - unfold rlc_instance. destruct (py_in device ["R"; "L"; "C"]); [| apply Hsame].
    unfold bind, modify, dict_incr. cbn.
    destruct (count_device_dict self !! device) as [c |]; cbn;
      repeat split; eauto; try (exists []; now rewrite app_nil_r); lia.
  - destruct s as [str | s | other]; try apply Hsame.
    unfold subcircuit_instance, bind, attr_name, ret, get. cbn.
    destruct (py_in (name s) (get_subcircuit_names self)); [| apply Hsame].
    unfold dict_incr, modify. cbn.
    destruct (count_device_dict self !! name s) as [c |]; cbn;
      repeat split; eauto; try (exists []; now rewrite app_nil_r); lia.
Qed.

(** X4: the construction calls only append. Whatever the scope, the calls
    and their outcomes, a sequence of [add_subcircuit], [rlc_instance] and
    [subcircuit_instance] calls keeps [filepath], keeps the sub-circuits and
    the device lines it found as a prefix of the new lists, in the same
    order, and never lowers [count_device_total]. *)
Theorem construction_only_appends (ops : list op) (self : NetList) :
  filepath (snd (run_ops ops self)) = filepath self
  /\ (exists more, subcircuits (snd (run_ops ops self)) = subcircuits self ++ more)
  /\ (exists more, devices (snd (run_ops ops self)) = devices self ++ more)
  /\ count_device_total self <= count_device_total (snd (run_ops ops self)).
Proof.
  revert self. induction ops as [| o rest IH]; intros self.
  - cbn. repeat split; try (exists []; now rewrite app_nil_r). lia.
  - destruct (run_op_grows o self) as [Hfp [[ms Hms] [[md Hmd] Htot]]].
    cbn [run_ops]. unfold bind.
    destruct (run_op o self) as [[[] | e] self1]; cbn [snd] in *.
    + destruct (IH self1) as [Hfp' [[ms' Hms'] [[md' Hmd'] Htot']]].
      split; [congruence |].
      split; [exists (ms ++ ms'); rewrite Hms', Hms; now rewrite <- app_assoc |].
      split; [exists (md ++ md'); rewrite Hmd', Hmd; now rewrite <- app_assoc |].
      lia.
    + repeat split; eauto.
Qed.

(** X5: in a sequence of construction calls that all return, a label that
    the sequence does not register ends with its counter raised by the number
    of [rlc_instance] and [subcircuit_instance] calls made for it, whatever
    the calls for other labels in between; the total and the number of device
    lines are raised by the number of instance calls of either kind. *)
Theorem counters_account_for_calls (ops : list op) (self final : NetList)
    (label : string) (c : nat) :
  run_ops ops self = (Ok tt, final) ->
  forallb (fun o => negb (registers label o)) ops = true ->
  count_device_dict self !! label = Some c ->
  count_device_dict final !! label
    = Some (c + length (List.filter (increments label) ops))
  /\ count_device_total final
     = count_device_total self + length (List.filter creates_instance ops)
  /\ length (devices final)
     = length (devices self) + length (List.filter creates_instance ops).
Proof.
  revert self c. induction ops as [| o rest IH]; intros self c Hrun Hnoreg Hc.
  - cbn in Hrun. inversion Hrun; subst. cbn. rewrite Hc.
    repeat split; try lia. f_equal. lia.
  - cbn [run_ops] in Hrun. apply bind_ok_inv in Hrun.
    destruct Hrun as [[] [self1 [Hop Hrest]]].
    cbn [forallb] in Hnoreg. apply andb_prop in Hnoreg.
    destruct Hnoreg as [Hreg Hnoreg].
    destruct (run_op_ok_label _ _ _ Hop)
      as [[s [-> ->]] | [l [c0 [line [Hlabel [Hcreates [Hc0 ->]]]]]]].
    + cbn [registers] in Hreg. apply negb_true_iff in Hreg.
      apply String.eqb_neq in Hreg.
      destruct (IH _ c Hrest Hnoreg) as [H1 [H2 H3]].
      { cbn. now rewrite lookup_insert_ne. }
      cbn in H2, H3. rewrite H1, H2, H3.
      cbn. repeat split.
    + cbn [List.filter]. unfold increments at 1. rewrite Hlabel, Hcreates.
      destruct (String.eqb_spec l label) as [-> | Hne].
      * rewrite Hc in Hc0. inversion Hc0; subst c0.
        destruct (IH _ (S c) Hrest Hnoreg) as [H1 [H2 H3]].
        { cbn. apply lookup_insert_eq. }
        cbn in H2, H3. rewrite length_app in H3. cbn in H3.
        rewrite H1, H2, H3. cbn.
        repeat split; try lia. f_equal. lia.
      * destruct (IH _ c Hrest Hnoreg) as [H1 [H2 H3]].
        { cbn. now rewrite lookup_insert_ne. }
        cbn in H2, H3. rewrite length_app in H3. cbn in H3.
        rewrite H1, H2, H3. cbn.
        repeat split; lia.
Qed.

Lemma counters_account_for_calls_witness :
  run_ops mixed_ops (NetList_init "top.cir") = (Ok tt, mixed_scope)
  /\ forallb (fun o => negb (registers "R" o)) mixed_ops = true
  /\ count_device_dict (NetList_init "top.cir") !! "R" = Some 0
  /\ count_device_dict mixed_scope !! "R"
     = Some (0 + length (List.filter (increments "R") mixed_ops)).
Proof.
  assert (H1 : run_ops mixed_ops (NetList_init "top.cir") = (Ok tt, mixed_scope))
    by (vm_compute; reflexivity).
  assert (H2 : forallb (fun o => negb (registers "R" o)) mixed_ops = true)
    by reflexivity.
  assert (H3 : count_device_dict (NetList_init "top.cir") !! "R" = Some 0)
    by reflexivity.
  split; [exact H1 |]. split; [exact H2 |]. split; [exact H3 |].
  exact (proj1 (counters_account_for_calls mixed_ops (NetList_init "top.cir")
                  mixed_scope "R" 0 H1 H2 H3)).
Defined.

(** ** Reading an index back *)

Lemma digit_value_digit_char (d : N) : (d < 10)%N -> digit_value (digit_char d) = d.
Proof.
  intros H. destruct (digit_cases d H) as [-> | [-> | [-> | [-> | [-> | [-> | [-> | [-> | [-> | ->]]]]]]]]];
    reflexivity.
Qed.

Lemma number_of_digits_app (s t : string) (acc : N) :
  number_of_digits (s +:+ t) acc = number_of_digits t (number_of_digits s acc).
Proof.
  revert acc. induction s as [| a s IH]; intros acc; [reflexivity |].
  rewrite string_app_cons. cbn. apply IH.
Qed.

Lemma render_digits_acc (fuel : nat) :
  forall n acc, render_digits fuel n acc = render_digits fuel n "" +:+ acc.
Proof.
  induction fuel as [| fuel IH]; intros n acc; [reflexivity |].
  cbn [render_digits]. destruct (n / 10 =? 0)%N; [reflexivity |].
  rewrite (IH _ (String _ acc)), (IH _ (String _ "")).
  now rewrite string_app_assoc.
Qed.

Lemma int_of_render_digits (fuel : nat) :
  forall n, (n < 10 ^ N.of_nat fuel)%N ->
    int_of_str (render_digits fuel n "") = n.
Proof.
  induction fuel as [| fuel IH]; intros n Hn.
  - cbn in *. unfold int_of_str. cbn. lia.
  - cbn [render_digits]. destruct (N.eqb_spec (n / 10) 0) as [Hz | Hnz].
    + unfold int_of_str. cbn. rewrite digit_value_digit_char by apply mod10_lt.
      pose proof (N.div_mod n 10 ltac:(lia)). lia.
    + rewrite render_digits_acc. unfold int_of_str.
      rewrite number_of_digits_app. fold (int_of_str (render_digits fuel (n / 10) "")).
      rewrite IH.
      * cbn. rewrite digit_value_digit_char by apply mod10_lt.
        pose proof (N.div_mod n 10 ltac:(lia)). lia.
      * apply N.Div0.div_lt_upper_bound.
        rewrite Nat2N.inj_succ, N.pow_succ_r' in Hn. exact Hn.
Qed.

Lemma int_of_str_of_N (n : N) : int_of_str (str_of_N n) = n.
Proof.
  unfold str_of_N. apply int_of_render_digits.
  apply N.lt_le_trans with (10 ^ N.of_nat (N.size_nat n))%N.
  - apply N_lt_pow10_size.
  - apply N.pow_le_mono_r; lia.
Qed.

Lemma number_of_zeros (k : nat) : number_of_digits (zeros k) 0 = 0%N.
Proof. induction k as [| k IH]; [reflexivity | exact IH]. Qed.

(** * The value printed by ['%.6e'] *)

Lemma dyadic_value (m : positive) (e : Z) :
  dyadic m e = ((Npos m * 2 ^ Z.to_N e)%N, (2 ^ Z.to_N (- e))%N).
Proof.
  unfold dyadic. destruct (Z.leb_spec 0 e) as [Hpos | Hneg].
  - replace (Z.to_N (- e)) with 0%N by lia. reflexivity.
  - replace (Z.to_N e) with 0%N by lia. now rewrite N.pow_0_r, N.mul_1_r.
Qed.

Lemma dyadic_positive (m : positive) (e : Z) :
  (0 < Npos m * 2 ^ Z.to_N e)%N /\ (0 < 2 ^ Z.to_N (- e))%N.
Proof.
  assert (2 ^ Z.to_N e <> 0)%N by (apply N.pow_nonzero; lia).
  assert (2 ^ Z.to_N (- e) <> 0)%N by (apply N.pow_nonzero; lia).
  split; [nia | lia].
Qed.

Lemma pow10_pos (n : N) : (0 < 10 ^ n)%N.
Proof. assert (10 ^ n <> 0)%N by (apply N.pow_nonzero; lia). lia. Qed.

(** [scale_down] multiplies the denominator by the power of ten it adds to
    the exponent. *)
Lemma scale_down_value (fuel : nat) :
  forall num den k, exists j : nat,
    scale_down fuel num den k
    = (num, (den * 10 ^ N.of_nat j)%N, (k + Z.of_nat j)%Z)
    /\ (j = 0 \/ (den * 10 ^ N.of_nat j <= num)%N).
Proof.
  induction fuel as [| fuel IH]; intros num den k.
  - exists 0. cbn [scale_down]. split; [| now left].
    now rewrite N.pow_0_r, N.mul_1_r, Z.add_0_r.
  - cbn [scale_down]. destruct (N.ltb_spec num (10 * den)) as [Hsmall | Hbig].
    + exists 0. split; [| now left].
      now rewrite N.pow_0_r, N.mul_1_r, Z.add_0_r.
    + destruct (IH num (10 * den)%N (k + 1)%Z) as [j [Heq Hcase]].
      exists (S j). rewrite Heq, Nat2N.inj_succ, N.pow_succ_r'.
      split.
      * f_equal; [f_equal; lia | lia].
      * right. destruct Hcase as [-> | Hle].
        -- rewrite N.pow_0_r. lia.
        -- lia.
Qed.

(** [scale_up] multiplies the numerator by the power of ten it takes from
    the exponent, and does nothing to a fraction that is at least one. *)
Lemma scale_up_value (fuel : nat) :
  forall num den k, exists j : nat,
    scale_up fuel num den k
    = ((num * 10 ^ N.of_nat j)%N, den, (k - Z.of_nat j)%Z)
    /\ ((den <= num)%N -> j = 0).
Proof.
  induction fuel as [| fuel IH]; intros num den k.
  - exists 0. cbn [scale_up]. split; [| reflexivity].
    now rewrite N.pow_0_r, N.mul_1_r, Z.sub_0_r.
  - cbn [scale_up]. destruct (N.leb_spec den num) as [Hok | Hsmall].
    + exists 0. split; [| reflexivity].
      now rewrite N.pow_0_r, N.mul_1_r, Z.sub_0_r.
    + destruct (IH (10 * num)%N den (k - 1)%Z) as [j [Heq _]].
      exists (S j). rewrite Heq, Nat2N.inj_succ, N.pow_succ_r'.
      split; [| lia].
      f_equal; [f_equal; lia | lia].
Qed.

(** Scaling leaves the same fraction, in [1, 10), with the power of ten that
    was taken out. *)
Lemma normalise_value (num den : N) :
  (0 < num)%N -> (0 < den)%N ->
  exists n d k,
    normalise num den = (n, d, k)
    /\ (0 < d)%N /\ (d <= n)%N /\ (n < 10 * d)%N
    /\ n = (num * 10 ^ Z.to_N (- k))%N
    /\ d = (den * 10 ^ Z.to_N k)%N.
Proof.
  intros Hnum Hden.
  destruct (normalise_spec num den Hnum Hden) as [n [d [k [Heq [Hd [Hlo Hup]]]]]].
  exists n, d, k. repeat (split; [assumption |]).
  unfold normalise in Heq.
  destruct (scale_down_value (S (N.size_nat num)) num den 0) as [j1 [Heq1 Hcase1]].
  rewrite Heq1 in Heq.
  destruct (scale_up_value (S (N.size_nat den)) num (den * 10 ^ N.of_nat j1)%N
              (0 + Z.of_nat j1)%Z) as [j2 [Heq2 Hcase2]].
  rewrite Heq2 in Heq. inversion Heq; subst n d k. clear Heq.
  destruct Hcase1 as [-> | Hle].
  - replace (Z.to_N (- (0 + Z.of_nat 0 - Z.of_nat j2))) with (N.of_nat j2) by lia.
    replace (Z.to_N (0 + Z.of_nat 0 - Z.of_nat j2)) with (N.of_nat 0) by lia.
    split; reflexivity.
  - rewrite (Hcase2 Hle).
    replace (Z.to_N (- (0 + Z.of_nat j1 - Z.of_nat 0))) with (N.of_nat 0) by lia.
    replace (Z.to_N (0 + Z.of_nat j1 - Z.of_nat 0)) with (N.of_nat j1) by lia.
    split; reflexivity.
Qed.

(** [round_half_even] gives the nearest integer, the even one at a tie. *)
Lemma round_half_even_nearest (a b : N) :
  (0 < b)%N -> nearest_even a b (round_half_even a b).
Proof.
  intros Hb. unfold nearest_even, round_half_even.
  pose proof (N.div_mod a b ltac:(lia)) as Hdiv.
  pose proof (N.mod_lt a b ltac:(lia)) as Hmod.
  set (q := (a / b)%N) in *. set (r := (a mod b)%N) in *.
  destruct (N.compare_spec (2 * r) b) as [Heq | Hlt | Hgt].
  - destruct (N.even q) eqn:Hev.
    + split; [nia |]. split; [nia |]. intros _. exact Hev.
    + split; [nia |]. split; [nia |]. intros _.
      replace (q + 1)%N with (N.succ q) by lia.
      rewrite N.even_succ, <- N.negb_even, Hev. reflexivity.
  - split; [nia |]. split; [nia |]. intros [H | H]; exfalso; nia.
  - split; [nia |]. split; [nia |]. intros [H | H]; exfalso; nia.
Qed.

(** Rounding does not depend on the scale of the fraction. *)
Lemma round_half_even_scale (a b c : N) :
  (0 < b)%N -> (0 < c)%N ->
  round_half_even (a * c) (b * c) = round_half_even a b.
Proof.
  intros Hb Hc. unfold round_half_even.
  rewrite N.Div0.div_mul_cancel_r by lia.
  rewrite N.Div0.mul_mod_distr_r.
  assert (Hcmp : (2 * (a mod b * c) ?= b * c)%N = (2 * (a mod b) ?= b)%N).
  { destruct (N.compare_spec (2 * (a mod b)) b) as [Heq | Hlt | Hgt].
    - apply N.compare_eq_iff. nia.
    - apply N.compare_lt_iff. nia.
    - apply N.compare_gt_iff. nia. }
  now rewrite Hcmp.
Qed.

(** The fraction that [sci_digits] rounds is the fraction of the decade,
    times a common factor. *)
Lemma scaled_fraction (num den : N) (k : Z) :
  exists c, (0 < c)%N
    /\ (num * 10 ^ Z.to_N (- k) * 1000000 = num * 10 ^ Z.to_N (6 - k) * c)%N
    /\ (den * 10 ^ Z.to_N k = den * 10 ^ Z.to_N (k - 6) * c)%N.
Proof.
  destruct (Z.le_gt_cases 6 k) as [Hbig | Hsmall].
  - exists 1000000%N. split; [lia |].
    assert (Hk : Z.to_N k = (Z.to_N (k - 6) + 6)%N) by lia.
    rewrite Hk, N.pow_add_r.
    replace (Z.to_N (- k)) with 0%N by lia.
    replace (Z.to_N (6 - k)) with 0%N by lia.
    change (10 ^ 6)%N with 1000000%N.
    split; lia.
  - destruct (Z.le_gt_cases 0 k) as [Hpos | Hneg].
    + exists (10 ^ Z.to_N k)%N. split; [apply pow10_pos |].
      assert (H6 : (10 ^ Z.to_N (6 - k) * 10 ^ Z.to_N k = 1000000)%N).
      { rewrite <- N.pow_add_r.
        replace (Z.to_N (6 - k) + Z.to_N k)%N with 6%N by lia. reflexivity. }
      replace (Z.to_N (- k)) with 0%N by lia.
      replace (Z.to_N (k - 6)) with 0%N by lia.
      rewrite !N.pow_0_r. split; [| lia].
      rewrite <- H6. lia.
    + exists 1%N. split; [lia |].
      assert (Hk : Z.to_N (6 - k) = (Z.to_N (- k) + 6)%N) by lia.
      rewrite Hk, N.pow_add_r.
      replace (Z.to_N k) with 0%N by lia.
      replace (Z.to_N (k - 6)) with 0%N by lia.
      change (10 ^ 6)%N with 1000000%N.
      rewrite !N.pow_0_r. split; lia.
Qed.

(** [sci_digits] gives the seven digits and the exponent that ['%.6e'] has
    to print. *)
Lemma sci_digits_correct (num den : N) :
  (0 < num)%N -> (0 < den)%N ->
  exists D k,
    sci_digits num den = (D, k)
    /\ (1000000 <= D)%N /\ (D < 10000000)%N
    /\ seven_digits_of num den D k.
Proof.
  intros Hnum Hden. unfold sci_digits.
  destruct (normalise_value num den Hnum Hden)
    as [n [d [k0 [Heq [Hd [Hlo [Hup [Hn Hdd]]]]]]]].
  rewrite Heq.
  destruct (scaled_fraction num den k0) as [c [Hc [Ha Hb]]].
  set (a := (num * 10 ^ Z.to_N (6 - k0))%N) in *.
  set (b := (den * 10 ^ Z.to_N (k0 - 6))%N) in *.
  assert (Hbpos : (0 < b)%N).
  { subst b. pose proof (pow10_pos (Z.to_N (k0 - 6))). nia. }
  assert (Hround : round_half_even (n * 1000000) d = round_half_even a b).
  { rewrite Hn, Hdd, Ha, Hb. now apply round_half_even_scale. }
  assert (Hdecade : (1000000 * b <= a /\ a < 10000000 * b)%N).
  { rewrite Hn in Hlo, Hup. rewrite Hdd in Hlo, Hup.
    rewrite Hb in Hlo, Hup.
    assert (Hac : (a * c <= 10 * (b * c) * 1000000)%N) by lia.
    split.
    - apply (N.mul_le_mono_pos_r _ _ c Hc). nia.
    - apply (N.mul_lt_mono_pos_r c _ _ Hc). nia. }
  rewrite Hround.
  pose proof (round_half_even_nearest a b Hbpos) as Hnear.
  pose proof (round_half_even_bounds (n * 1000000) d) as [Hq1 Hq2].
  rewrite Hround in Hq1, Hq2.
  assert (Hqlo : (1000000 <= n * 1000000 / d)%N).
  { apply N.div_le_lower_bound; lia. }
  assert (Hqup : (n * 1000000 / d < 10000000)%N).
  { apply N.Div0.div_lt_upper_bound. lia. }
  destruct (N.eqb_spec (round_half_even a b) 10000000) as [Heq7 | Hne7].
  - exists 1000000%N, (k0 + 1)%Z. split; [reflexivity |].
    split; [lia |]. split; [lia |].
    exists k0, (round_half_even a b).
    split; [apply Hdecade |]. split; [apply Hdecade |].
    split; [exact Hnear |]. right. now repeat split.
  - exists (round_half_even a b), k0. split; [reflexivity |].
    split; [lia |]. split; [lia |].
    exists k0, (round_half_even a b).
    split; [apply Hdecade |]. split; [apply Hdecade |].
    split; [exact Hnear |]. left. repeat split. lia.
Qed.

(** *** Reading the printed digits back *)

Lemma fixed_digits_acc (w : nat) :
  forall n acc, fixed_digits w n acc = fixed_digits w n "" +:+ acc.
Proof.
  induction w as [| w IH]; intros n acc; [reflexivity |].
  cbn [fixed_digits]. rewrite (IH _ (String _ acc)), (IH _ (String _ "")).
  now rewrite string_app_assoc.
Qed.

Lemma fixed_digits_length (w : nat) :
  forall n acc, String.length (fixed_digits w n acc) = w + String.length acc.
Proof.
  induction w as [| w IH]; intros n acc; [reflexivity |].
  cbn [fixed_digits]. rewrite IH. cbn. lia.
Qed.

Lemma fixed_digits_all_digits (w : nat) :
  forall n acc, all_digits acc = true -> all_digits (fixed_digits w n acc) = true.
Proof.
  induction w as [| w IH]; intros n acc Hacc; [exact Hacc |].
  cbn [fixed_digits]. apply IH. cbn.
  rewrite digit_char_is_digit by apply mod10_lt. exact Hacc.
Qed.

(** The digits of [fixed_digits w n] read back as [n] modulo [10^w]. *)
Lemma fixed_digits_value (w : nat) :
  forall n acc0,
    number_of_digits (fixed_digits w n "") acc0
    = (acc0 * 10 ^ N.of_nat w + n mod 10 ^ N.of_nat w)%N.
Proof.
  induction w as [| w IH]; intros n acc0.
  - cbn. rewrite N.mod_1_r. lia.
  - cbn [fixed_digits]. rewrite fixed_digits_acc, number_of_digits_app, IH.
    cbn [number_of_digits]. rewrite digit_value_digit_char by apply mod10_lt.
    rewrite Nat2N.inj_succ, N.pow_succ_r'.
    rewrite (N.Div0.mod_mul_r n 10 (10 ^ N.of_nat w)). lia.
Qed.

(** A padded number: digits that read back as the number, [w] of them at
    least, and no more than the number needs beyond that. *)
Lemma zfill_str_of_N_pinned (w : nat) (n : N) :
  all_digits (zfill w (str_of_N n)) = true
  /\ int_of_str (zfill w (str_of_N n)) = n
  /\ w <= String.length (zfill w (str_of_N n))
  /\ forall k, w <= k -> 0 < k -> (n < 10 ^ N.of_nat k)%N ->
       String.length (zfill w (str_of_N n)) <= k.
Proof.
  rewrite zfill_str_of_N.
  split; [| split; [| split]].
  - rewrite all_digits_app, all_digits_zeros. cbn [andb].
    unfold str_of_N. now apply render_digits_all_digits.
  - unfold int_of_str. rewrite number_of_digits_app, number_of_zeros.
    apply int_of_str_of_N.
  - rewrite string_length_app, zeros_length. lia.
  - intros k Hk Hpos Hn. rewrite string_length_app, zeros_length.
    assert (String.length (str_of_N n) <= k + 0).
    { unfold str_of_N.
      apply (render_digits_length _ n "" k); [lia | exact Hn]. }
    lia.
Qed.

(** A finite value that is not zero is printed as its sign, the seven
    digits that ['%.6e'] has to print for the fraction [m * 2^e], the first
    one before the point, and the decimal exponent with its sign and at least
    two digits. *)
Lemma format_e6_correct (s : bool) (m : positive) (e : Z) :
  exists (D : N) (k : Z) (d0 : ascii) (frac ex : string),
    seven_digits_of (Npos m * 2 ^ Z.to_N e) (2 ^ Z.to_N (- e)) D k
    /\ format_e6 (S754_finite s m e)
       = (if s then "-" else "")
           +:+ String d0 ("." +:+ frac +:+ "e"
                            +:+ (if (k <? 0)%Z then "-" else "+") +:+ ex)
    /\ is_digit d0 = true
    /\ all_digits frac = true
    /\ String.length frac = 6
    /\ int_of_str (String d0 frac) = D
    /\ (1000000 <= D < 10000000)%N
    /\ all_digits ex = true
    /\ int_of_str ex = Z.abs_N k
    /\ 2 <= String.length ex
    /\ (forall n, 2 <= n -> (Z.abs_N k < 10 ^ N.of_nat n)%N ->
          String.length ex <= n).
Proof.
  destruct (dyadic_positive m e) as [Hnum Hden].
  destruct (sci_digits_correct _ _ Hnum Hden) as [D [k [Hsd [Hlo [Hup Hspec]]]]].
  destruct (zfill_str_of_N_pinned 2 (Z.abs_N k)) as [Hex1 [Hex2 [Hex3 Hex4]]].
  assert (Hd0 : (D / 1000000 < 10)%N)
    by (apply N.Div0.div_lt_upper_bound; lia).
  exists D, k, (digit_char (D / 1000000)),
    (fixed_digits 6 (D mod 1000000) ""), (zfill 2 (str_of_N (Z.abs_N k))).
  split; [exact Hspec |].
  split.
  { unfold format_e6. rewrite dyadic_value, Hsd. unfold format_exponent.
    reflexivity. }
  split; [now apply digit_char_is_digit |].
  split; [now apply fixed_digits_all_digits |].
  split; [now rewrite fixed_digits_length |].
  split.
  { unfold int_of_str. cbn [number_of_digits].
    rewrite fixed_digits_value, digit_value_digit_char by exact Hd0.
    change (10 ^ N.of_nat 6)%N with 1000000%N.
    rewrite N.Div0.mod_mod.
    pose proof (N.div_mod D 1000000 ltac:(lia)). lia. }
  split; [lia |].
  split; [exact Hex1 |]. split; [exact Hex2 |]. split; [exact Hex3 |].
  intros n Hn Hk. apply Hex4; [lia | lia | exact Hk].
Qed.

(** *** The seven digits and the exponent are determined by the value *)

Lemma nearest_even_unique (a b R R' : N) :
  (0 < b)%N -> nearest_even a b R -> nearest_even a b R' -> R = R'.
Proof.
  intros Hb [H1 [H2 H3]] [H1' [H2' H3']].
  assert (Hclose : (R <= R' + 1 /\ R' <= R + 1)%N) by (split; nia).
  destruct (N.lt_trichotomy R R') as [Hlt | [Heq | Hgt]]; [| exact Heq |].
  - assert (R' = N.succ R) by lia. subst R'.
    assert (Hev : N.even R = true) by (apply H3; left; nia).
    assert (Hev' : N.even (N.succ R) = true) by (apply H3'; right; nia).
    rewrite N.even_succ, <- N.negb_even, Hev in Hev'. discriminate.
  - assert (R = N.succ R') by lia. subst R.
    assert (Hev : N.even R' = true) by (apply H3'; left; nia).
    assert (Hev' : N.even (N.succ R') = true) by (apply H3; right; nia).
    rewrite N.even_succ, <- N.negb_even, Hev in Hev'. discriminate.
Qed.

(** A fraction that is at least [10^(j + 1)] is at least [10^j], and it is
    below [10^(j + 1)] exactly when it is not at least [10^(j + 1)]. *)
Lemma decade_step (num den : N) (j : Z) :
  ((1000000 * (den * 10 ^ Z.to_N (j + 1 - 6)) <= num * 10 ^ Z.to_N (6 - (j + 1)))%N ->
   (1000000 * (den * 10 ^ Z.to_N (j - 6)) <= num * 10 ^ Z.to_N (6 - j))%N)
  /\ ((num * 10 ^ Z.to_N (6 - j) < 10000000 * (den * 10 ^ Z.to_N (j - 6)))%N ->
      ~ (1000000 * (den * 10 ^ Z.to_N (j + 1 - 6)) <= num * 10 ^ Z.to_N (6 - (j + 1)))%N).
Proof.
  destruct (Z.le_gt_cases 6 j) as [Hbig | Hsmall].
  - replace (Z.to_N (6 - (j + 1))) with 0%N by lia.
    replace (Z.to_N (6 - j)) with 0%N by lia.
    replace (Z.to_N (j + 1 - 6)) with (N.succ (Z.to_N (j - 6))) by lia.
    rewrite N.pow_succ_r', N.pow_0_r.
    pose proof (pow10_pos (Z.to_N (j - 6))). split; nia.
  - replace (Z.to_N (j + 1 - 6)) with 0%N by lia.
    replace (Z.to_N (j - 6)) with 0%N by lia.
    replace (Z.to_N (6 - j)) with (N.succ (Z.to_N (6 - (j + 1)))) by lia.
    rewrite N.pow_succ_r', N.pow_0_r.
    pose proof (pow10_pos (Z.to_N (6 - (j + 1)))). split; nia.
Qed.

Lemma decade_down (num den : N) (j : Z) (n : nat) :
  (1000000 * (den * 10 ^ Z.to_N (j + Z.of_nat n - 6))
   <= num * 10 ^ Z.to_N (6 - (j + Z.of_nat n)))%N ->
  (1000000 * (den * 10 ^ Z.to_N (j - 6)) <= num * 10 ^ Z.to_N (6 - j))%N.
Proof.
  induction n as [| n IH]; intros H.
  - now replace (j + Z.of_nat 0)%Z with j in H by lia.
  - apply IH. apply (proj1 (decade_step num den (j + Z.of_nat n))).
    now replace (j + Z.of_nat n + 1)%Z with (j + Z.of_nat (S n))%Z by lia.
Qed.

Lemma decade_unique (num den : N) (j j' : Z) :
  (1000000 * (den * 10 ^ Z.to_N (j - 6)) <= num * 10 ^ Z.to_N (6 - j))%N ->
  (num * 10 ^ Z.to_N (6 - j) < 10000000 * (den * 10 ^ Z.to_N (j - 6)))%N ->
  (1000000 * (den * 10 ^ Z.to_N (j' - 6)) <= num * 10 ^ Z.to_N (6 - j'))%N ->
  (num * 10 ^ Z.to_N (6 - j') < 10000000 * (den * 10 ^ Z.to_N (j' - 6)))%N ->
  j = j'.
Proof.
  assert (Hlt : forall i i',
    (i < i')%Z ->
    (num * 10 ^ Z.to_N (6 - i) < 10000000 * (den * 10 ^ Z.to_N (i - 6)))%N ->
    (1000000 * (den * 10 ^ Z.to_N (i' - 6)) <= num * 10 ^ Z.to_N (6 - i'))%N ->
    False).
  { intros i i' Hii Hup Hlo.
    apply (proj2 (decade_step num den i) Hup).
    apply (decade_down num den (i + 1) (Z.to_nat (i' - (i + 1)))).
    now replace (i + 1 + Z.of_nat (Z.to_nat (i' - (i + 1))))%Z with i' by lia. }
  intros Hlo Hup Hlo' Hup'.
  destruct (Z.lt_trichotomy j j') as [H | [H | H]]; [| exact H |].
  - exfalso. exact (Hlt j j' H Hup Hlo').
  - exfalso. exact (Hlt j' j H Hup' Hlo).
Qed.

(** There is one pair of seven digits and exponent for a fraction. *)
Lemma seven_digits_of_unique (num den D D' : N) (k k' : Z) :
  (0 < den)%N ->
  seven_digits_of num den D k -> seven_digits_of num den D' k' ->
  D = D' /\ k = k'.
Proof.
  intros Hden [k0 [D0 [Hlo [Hup [Hnear Hcase]]]]]
         [k0' [D0' [Hlo' [Hup' [Hnear' Hcase']]]]].
  assert (k0 = k0') by (eapply decade_unique; eassumption). subst k0'.
  assert (D0 = D0').
  { apply (nearest_even_unique _ _ _ _
             (N.mul_pos_pos _ _ Hden (pow10_pos (Z.to_N (k0 - 6)))) Hnear Hnear'). }
  subst D0'.
  destruct Hcase as [[H1 [-> ->]] | [H1 [-> ->]]];
    destruct Hcase' as [[H1' [-> ->]] | [H1' [-> ->]]];
    try (split; reflexivity); lia.
Qed.

(** The value 1000.0 is [8796093022208000 / 2^43]: its decade is [10^3] and
    its seven digits are 1000000, no rounding being needed. *)
Example seven_digits_of_1000 :
  seven_digits_of (8796093022208000 * 2 ^ Z.to_N (-43)) (2 ^ Z.to_N (- -43))
    1000000 3.
Proof.
  exists 3%Z, 1000000%N.
  assert (Ha : (8796093022208000 * 2 ^ Z.to_N (-43) * 10 ^ Z.to_N (6 - 3)
                = 8796093022208000000)%N) by (vm_compute; reflexivity).
  assert (Hb : (2 ^ Z.to_N (- -43) * 10 ^ Z.to_N (3 - 6) = 8796093022208)%N)
    by (vm_compute; reflexivity).
  unfold nearest_even. rewrite Ha, Hb.
  split; [lia |]. split; [lia |]. split.
  - split; [lia |]. split; [lia |]. intros [H | H]; lia.
  - left. repeat split.
Qed.

(** C5: [rlc_instance] appends the line
    [<device><count> <nodes joined by space> <value as %.6e>] and a newline.
    On a fresh NetList, [rlc_instance('R', ['n1', 'n2'], 1000.0)] appends
    exactly [R1 n1 n2 1.000000e+03] and a newline. In general the value is
    printed as ['%.6e'] prints a binary64 number. A finite value that is not
    zero, [m * 2^e] up to its sign, is printed as: a minus sign when it is
    negative; seven decimal digits, the first before the point and six after
    it, which read as the integer nearest to the value scaled into its
    decade, [|value| * 10^(6 - k0)] with [10^k0 <= |value| < 10^(k0 + 1)],
    ties going to the even integer, and a rounding that reaches [10^7] being
    printed as 1000000 with the next exponent; the letter e; the sign of the
    decimal exponent and its digits, two at least and no more than it needs
    beyond two. These digits and this exponent are the only ones that fit the
    value. Zeros are printed as [0.000000e+00] with their sign, infinities as
    [inf] and [-inf], and a value that is not a number as [nan]. *)
Theorem rlc_instance_line (self : NetList) (device : string)
    (nodes : list string) (value : spec_float) (c : nat) :
  In device ["R"; "L"; "C"] ->
  count_device_dict self !! device = Some c ->
  (exists self',
     rlc_instance device nodes value self = (Ok tt, self')
     /\ devices self'
        = devices self
            ++ [device +:+ str_of_nat (S c) +:+ " " +:+ join " " nodes +:+ " "
                  +:+ format_e6 value +:+ _END_OF_LINE])
  /\ (is_finite value = true -> is_sci6 (format_e6 value) = true)
  /\ (forall fp,
        rlc_instance "R" ["n1"; "n2"] float_1000 (NetList_init fp)
        = (Ok tt,
           mkNetList fp [] ["R1 n1 n2 1.000000e+03" +:+ _END_OF_LINE]
             (<["R" := 1]> (count_device_dict (NetList_init fp))) 1))
  /\ (forall s m e,
        value = S754_finite s m e ->
        exists (D : N) (k : Z) (d0 : ascii) (frac ex : string),
          seven_digits_of (Npos m * 2 ^ Z.to_N e) (2 ^ Z.to_N (- e)) D k
          /\ (forall D' k',
                seven_digits_of (Npos m * 2 ^ Z.to_N e) (2 ^ Z.to_N (- e)) D' k' ->
                D' = D /\ k' = k)
          /\ format_e6 value
             = (if s then "-" else "")
                 +:+ String d0 ("." +:+ frac +:+ "e"
                                  +:+ (if (k <? 0)%Z then "-" else "+") +:+ ex)
          /\ is_digit d0 = true
          /\ all_digits frac = true
          /\ String.length frac = 6
          /\ int_of_str (String d0 frac) = D
          /\ (1000000 <= D < 10000000)%N
          /\ all_digits ex = true
          /\ int_of_str ex = Z.abs_N k
          /\ 2 <= String.length ex
          /\ (forall n, 2 <= n -> (Z.abs_N k < 10 ^ N.of_nat n)%N ->
                String.length ex <= n))
  /\ (forall s, value = S754_zero s ->
        format_e6 value = (if s then "-" else "") +:+ "0.000000e+00")
  /\ (forall s, value = S754_infinity s ->
        format_e6 value = if s then "-inf" else "inf")
  /\ (value = S754_nan -> format_e6 value = "nan").
Proof.
  intros Hin Hc.
  split; [| split; [| split; [| split; [| split; [| split]]]]].
  - eexists. split; [apply (rlc_instance_ok self device nodes value c Hin Hc) |].
    reflexivity.
  - apply format_e6_shape.
  - intros fp.
    rewrite (rlc_instance_ok (NetList_init fp) "R" ["n1"; "n2"] float_1000 0).
    + vm_compute. reflexivity.
    + cbn. tauto.
    + reflexivity.
  - intros s m e ->.
    destruct (format_e6_correct s m e)
      as [D [k [d0 [frac [ex [Hspec Hrest]]]]]].
    exists D, k, d0, frac, ex.
    split; [exact Hspec |]. split; [| exact Hrest].
    intros D' k' Hspec'.
    exact (seven_digits_of_unique _ _ _ _ _ _ (proj2 (dyadic_positive m e))
             Hspec' Hspec).
  - now intros s ->.
  - now intros s ->.
  - now intros ->.
Qed.

Lemma rlc_instance_line_witness :
  In "R" ["R"; "L"; "C"]
  /\ count_device_dict (NetList_init "top.cir") !! "R" = Some 0
  /\ exists self',
       rlc_instance "R" ["n1"; "n2"] float_1000 (NetList_init "top.cir")
         = (Ok tt, self')
       /\ devices self'
          = devices (NetList_init "top.cir")
              ++ ["R" +:+ str_of_nat 1 +:+ " " +:+ join " " ["n1"; "n2"] +:+ " "
                    +:+ format_e6 float_1000 +:+ _END_OF_LINE].
Proof.
  assert (H1 : In "R" ["R"; "L"; "C"]) by (cbn; tauto).
  assert (H2 : count_device_dict (NetList_init "top.cir") !! "R" = Some 0)
    by reflexivity.
  split; [exact H1 |]. split; [exact H2 |].
  exact (proj1 (rlc_instance_line (NetList_init "top.cir") "R" ["n1"; "n2"]
                  float_1000 0 H1 H2)).
Defined.

(** * Numbering of instances among other calls *)

Lemma subcircuit_instance_ok_inv (self self' : NetList) (sc : SubCircuit) nodes :
  subcircuit_instance (PySubCircuit sc) nodes self = (Ok tt, self') ->
  In (name sc) (get_subcircuit_names self)
  /\ exists c, count_device_dict self !! name sc = Some c
       /\ self' = mkNetList (filepath self) (subcircuits self)
                    (devices self
                       ++ [instance_line (suffix sc) (S c) nodes (name sc)])
                    (<[name sc := S c]> (count_device_dict self))
                    (S (count_device_total self)).
Proof.
  unfold subcircuit_instance, bind, attr_name, ret, get. cbn.
  destruct (py_in (name sc) (get_subcircuit_names self)) eqn:Hin; [| discriminate].
  apply py_in_In in Hin.
  unfold dict_incr. cbn.
  destruct (count_device_dict self !! name sc) as [c |] eqn:Hc; [| discriminate].
  cbn. intros H. inversion H; subst. split; [exact Hin |]. now exists c.
Qed.

(** What a call that returns has done, with the line it appended. *)
Lemma run_op_ok_line (o : op) (self self' : NetList) :
  run_op o self = (Ok tt, self') ->
  (exists s, o = AddSubcircuit (PySubCircuit s)
     /\ self' = mkNetList (filepath self) (subcircuits self ++ [s]) (devices self)
                  (<[name s := 0]> (count_device_dict self))
                  (count_device_total self))
  \/ (exists label c line,
        op_label o = Some label
        /\ creates_instance o = true
        /\ count_device_dict self !! label = Some c
        /\ self' = mkNetList (filepath self) (subcircuits self)
                     (devices self ++ [line])
                     (<[label := S c]> (count_device_dict self))
                     (S (count_device_total self))
        /\ forall sc nodes,
             o = SubcircuitInstance (PySubCircuit sc) nodes ->
             line = instance_line (suffix sc) (S c) nodes (name sc)).
Proof.
  destruct o as [s | device nodes value | s nodes]; cbn [run_op].
  - destruct s as [str | s | other]; intros H;
      [cbn in H; discriminate | | cbn in H; discriminate].
    left. exists s. split; [reflexivity |].
    rewrite add_subcircuit_eq in H. now inversion H.
  - intros H. apply rlc_instance_ok_inv in H.
    destruct H as [_ [c [Hc ->]]]. right.
    exists device, c, (rlc_line device (S c) nodes value).
    repeat (split; [easy |]). intros sc nodes' Heq. discriminate.
  - destruct s as [str | s | other]; try (cbn; discriminate).
    intros H. apply subcircuit_instance_ok_inv in H.
    destruct H as [_ [c [Hc ->]]]. right.
    exists (name s), c, (instance_line (suffix s) (S c) nodes (name s)).
    repeat (split; [easy |]). intros sc nodes' Heq. now inversion Heq.
Qed.

(** In a sequence of calls that all return and do not register [nm], the
    line of a call instantiating [nm] comes after one line for each earlier
    instance call, and its index is the counter [nm] had at the start, plus
    one, plus the number of earlier calls that count under [nm]. *)
Lemma run_ops_instance_lines (ops : list op) :
  forall (self final : NetList) (nm : string) (c : nat),
    run_ops ops self = (Ok tt, final) ->
    forallb (fun o => negb (registers nm o)) ops = true ->
    count_device_dict self !! nm = Some c ->
    exists lines,
      devices final = devices self ++ lines
      /\ length lines = length (List.filter creates_instance ops)
      /\ forall j sc nodes,
           ops !! j = Some (SubcircuitInstance (PySubCircuit sc) nodes) ->
           name sc = nm ->
           lines !! length (List.filter creates_instance (firstn j ops))
           = Some (instance_line (suffix sc)
                     (c + S (length (List.filter (increments nm) (firstn j ops))))
                     nodes nm).
Proof.
  induction ops as [| o rest IH]; intros self final nm c Hrun Hnoreg Hc.
  - cbn in Hrun. inversion Hrun; subst. exists []. rewrite app_nil_r.
    split; [reflexivity |]. split; [reflexivity |].
    intros j sc nodes Hj. destruct j; discriminate.
  - cbn [run_ops] in Hrun. apply bind_ok_inv in Hrun.
    destruct Hrun as [[] [self1 [Hop Hrest]]].
    cbn [forallb] in Hnoreg. apply andb_prop in Hnoreg.
    destruct Hnoreg as [Hreg Hnoreg].
    destruct (run_op_ok_line _ _ _ Hop)
      as [[s [-> ->]] | [l [c0 [line [Hlabel [Hcreates [Hc0 [-> Hline]]]]]]]].
    + cbn [registers] in Hreg. apply negb_true_iff in Hreg.
      apply String.eqb_neq in Hreg.
      destruct (IH _ _ nm c Hrest Hnoreg) as [lines [Hdev [Hlen Hlines]]].
      { cbn. now rewrite lookup_insert_ne. }
      exists lines. split; [exact Hdev |]. split; [exact Hlen |].
      intros j sc nodes Hj Hname. destruct j as [| j]; [discriminate |].
      cbn in Hj. cbn [firstn List.filter creates_instance increments op_label].
      now apply Hlines.
    + set (c1 := if String.eqb l nm then S c else c).
      destruct (IH _ _ nm c1 Hrest Hnoreg) as [lines [Hdev [Hlen Hlines]]].
      { cbn. subst c1. destruct (String.eqb_spec l nm) as [-> | Hne].
        - rewrite Hc in Hc0. inversion Hc0; subst c0. apply lookup_insert_eq.
        - now rewrite lookup_insert_ne. }
      exists (line :: lines).
      split; [rewrite Hdev; cbn; now rewrite <- app_assoc |].
      split; [cbn [List.filter]; rewrite Hcreates; cbn; now rewrite Hlen |].
      intros j sc nodes Hj Hname. destruct j as [| j].
      * cbn in Hj. inversion Hj; subst o. cbn.
        rewrite (Hline sc nodes eq_refl).
        cbn in Hlabel. inversion Hlabel; subst l.
        rewrite Hname in Hc0. rewrite Hc in Hc0. inversion Hc0; subst c0.
        rewrite Hname. do 3 f_equal. lia.
      * cbn in Hj. cbn [firstn List.filter]. rewrite Hcreates.
        cbn [length].
        change ((line :: lines) !! S (length (List.filter creates_instance (firstn j rest))))
          with (lines !! length (List.filter creates_instance (firstn j rest))).
        rewrite (Hlines j sc nodes Hj Hname).
        unfold increments at 2. rewrite Hlabel. subst c1.
        destruct (String.eqb l nm); cbn [length];
          [do 2 f_equal; lia | reflexivity].
Qed.

(** The counter of a name that the calls do not register ends raised by the
    number of calls that count under it. *)
Lemma run_ops_counter (ops : list op) :
  forall (self final : NetList) (nm : string) (c : nat),
    run_ops ops self = (Ok tt, final) ->
    forallb (fun o => negb (registers nm o)) ops = true ->
    count_device_dict self !! nm = Some c ->
    count_device_dict final !! nm
    = Some (c + length (List.filter (increments nm) ops)).
Proof.
  induction ops as [| o rest IH]; intros self final nm c Hrun Hnoreg Hc.
  - cbn in Hrun. inversion Hrun; subst. cbn. rewrite Hc. f_equal. lia.
  - cbn [run_ops] in Hrun. apply bind_ok_inv in Hrun.
    destruct Hrun as [[] [self1 [Hop Hrest]]].
    cbn [forallb] in Hnoreg. apply andb_prop in Hnoreg.
    destruct Hnoreg as [Hreg Hnoreg].
    destruct (run_op_ok_line _ _ _ Hop)
      as [[s [-> ->]] | [l [c0 [line [Hlabel [Hcreates [Hc0 [-> Hline]]]]]]]].
    + cbn [registers] in Hreg. apply negb_true_iff in Hreg.
      apply String.eqb_neq in Hreg.
      rewrite (IH _ _ nm c Hrest Hnoreg); [reflexivity |].
      cbn. now rewrite lookup_insert_ne.
    + cbn [List.filter]. unfold increments at 1. rewrite Hlabel.
      destruct (String.eqb_spec l nm) as [-> | Hne].
      * rewrite Hc in Hc0. inversion Hc0; subst c0.
        rewrite (IH _ _ nm (S c) Hrest Hnoreg); [cbn; f_equal; lia |].
        cbn. apply lookup_insert_eq.
      * rewrite (IH _ _ nm c Hrest Hnoreg); [reflexivity |].
        cbn. now rewrite lookup_insert_ne.
Qed.

(** Without [rlc_instance] calls for the device [nm], the calls that count
    under [nm] are the calls that instantiate it. *)
Lemma increments_instantiates (nm : string) (ops : list op) :
  forall j,
    forallb (fun o => negb (uses_device nm o)) ops = true ->
    List.filter (increments nm) (firstn j ops)
    = List.filter (instantiates nm) (firstn j ops).
Proof.
  induction ops as [| o rest IH]; intros j Hno.
  - now destruct j.
  - destruct j as [| j]; [reflexivity |].
    cbn [forallb] in Hno. apply andb_prop in Hno. destruct Hno as [Ho Hno].
    cbn [firstn List.filter]. rewrite (IH j Hno).
    assert (Heq : increments nm o = instantiates nm o).
    { destruct o as [s | device nodes value | [str | sc | other] nodes];
        try reflexivity.
      cbn in Ho. apply negb_true_iff in Ho. exact Ho. }
    now rewrite Heq.
Qed.

(** The padded index: decimal digits that read back as the count, five of
    them at least, and no more than the count needs beyond that. *)
Lemma zfill_index_pinned (i : nat) :
  all_digits (zfill 5 (str_of_nat i)) = true
  /\ int_of_str (zfill 5 (str_of_nat i)) = N.of_nat i
  /\ 5 <= String.length (zfill 5 (str_of_nat i))
  /\ forall k, 5 <= k -> (N.of_nat i < 10 ^ N.of_nat k)%N ->
       String.length (zfill 5 (str_of_nat i)) <= k.
Proof.
  rewrite zfill_str_of_nat.
  split; [| split; [| split]].
  - rewrite all_digits_app, all_digits_zeros. cbn [andb].
    unfold str_of_nat, str_of_N. now apply render_digits_all_digits.
  - unfold int_of_str. rewrite number_of_digits_app, number_of_zeros.
    apply (int_of_str_of_N (N.of_nat i)).
  - rewrite string_length_app, zeros_length. lia.
  - intros k Hk Hi. rewrite string_length_app, zeros_length.
    assert (String.length (str_of_nat i) <= k + 0).
    { unfold str_of_nat, str_of_N.
      apply (render_digits_length _ (N.of_nat i) "" k); [lia | exact Hi]. }
    lia.
Qed.

(** C4, as stated, fails in two ways. The counters of the
    sub-circuit names live in the dictionary of the device labels: after a
    sub-circuit named R is registered and one resistor is created, the first
    instance of the sub-circuit carries index 00002. And a second
    registration of a name sets its counter back to 0: the instance created
    after it carries index 00001 again. All the calls return. *)
Lemma instance_indices_shared_or_reset :
  (run_ops ops_sharing_R (NetList_init "top.cir")
     = (Ok tt, snd (run_ops ops_sharing_R (NetList_init "top.cir")))
   /\ devices (snd (run_ops ops_sharing_R (NetList_init "top.cir")))
      = ["R1 n1 n2 1.000000e+03" +:+ _END_OF_LINE;
         "X_RES_00002 n1 n2 R" +:+ _END_OF_LINE])
  /\ (run_ops ops_registering_twice (NetList_init "top.cir")
        = (Ok tt, snd (run_ops ops_registering_twice (NetList_init "top.cir")))
      /\ devices (snd (run_ops ops_registering_twice (NetList_init "top.cir")))
         = ["X_AMP_00001 in mid OPAMP" +:+ _END_OF_LINE;
            "X_AMP_00001 mid out OPAMP" +:+ _END_OF_LINE]).
Proof. repeat split; vm_compute; reflexivity. Qed.

(** C4 (amended): take any sequence of [add_subcircuit], [rlc_instance] and
    [subcircuit_instance] calls on a scope that all return, and in it a
    registration of a sub-circuit [s] after which the name of [s] is not
    registered again and is not the device of an [rlc_instance] call. Then,
    whatever the other calls in between, the calls of [subcircuit_instance]
    for that name made after the registration append, each at the place of
    its call among the instance lines, the line
    [X_<suffix>_<index> <nodes joined by space> <name>] and a newline, whose
    index is one more than the number of earlier such calls: 1, 2, 3, ... per
    name; the counter of the name ends at the number of these calls. The
    index is written in decimal digits that read back as the number, with
    zeros in front up to five digits and no zero in front beyond that. The
    first instance with suffix AMP of OPAMP on nodes in, out is
    [X_AMP_00001 in out OPAMP]. *)
Theorem instance_indices (self final : NetList) (s : SubCircuit)
    (pre post : list op) :
  run_ops (pre ++ AddSubcircuit (PySubCircuit s) :: post) self = (Ok tt, final) ->
  forallb (fun o => negb (registers (name s) o)) post = true ->
  forallb (fun o => negb (uses_device (name s) o)) post = true ->
  (exists registered lines,
     run_ops (pre ++ [AddSubcircuit (PySubCircuit s)]) self = (Ok tt, registered)
     /\ devices final = devices registered ++ lines
     /\ length lines = length (List.filter creates_instance post)
     /\ forall j sc nodes,
          post !! j = Some (SubcircuitInstance (PySubCircuit sc) nodes) ->
          name sc = name s ->
          lines !! length (List.filter creates_instance (firstn j post))
          = Some ("X_" +:+ suffix sc +:+ "_"
                    +:+ zfill 5
                          (str_of_nat
                             (S (length (List.filter (instantiates (name s))
                                           (firstn j post)))))
                    +:+ " " +:+ join " " nodes +:+ " " +:+ name s
                    +:+ _END_OF_LINE))
  /\ count_device_dict final !! name s
     = Some (length (List.filter (instantiates (name s)) post))
  /\ (forall i,
        all_digits (zfill 5 (str_of_nat i)) = true
        /\ int_of_str (zfill 5 (str_of_nat i)) = N.of_nat i
        /\ 5 <= String.length (zfill 5 (str_of_nat i))
        /\ forall k, 5 <= k -> (N.of_nat i < 10 ^ N.of_nat k)%N ->
             String.length (zfill 5 (str_of_nat i)) <= k)
  /\ zfill 5 (str_of_nat 1) = "00001"
  /\ zfill 5 (str_of_nat 12) = "00012"
  /\ zfill 5 (str_of_nat (N.to_nat 123456)) = "123456"
  /\ devices
       (snd (run_ops [AddSubcircuit (PySubCircuit OPAMP);
                      SubcircuitInstance (PySubCircuit OPAMP) ["in"; "out"]]
               (NetList_init "top.cir")))
     = ["X_AMP_00001 in out OPAMP" +:+ _END_OF_LINE].
Proof.
  intros Hrun Hnoreg Hnodev.
  assert (Hrun' : run_ops ((pre ++ [AddSubcircuit (PySubCircuit s)]) ++ post) self
                  = (Ok tt, final)).
  { now rewrite <- app_assoc. }
  destruct (run_ops_app _ _ _ _ Hrun') as [registered [Hreg Hpost]].
  assert (Hzero : count_device_dict registered !! name s = Some 0).
  { destruct (run_ops_app _ _ _ _ Hreg) as [mid [_ Hadd]].
    cbn [run_ops] in Hadd. apply bind_ok_inv in Hadd.
    destruct Hadd as [[] [self1 [Hop Hnil]]].
    cbn in Hnil. inversion Hnil; subst self1.
    cbn [run_op] in Hop. rewrite add_subcircuit_eq in Hop.
    inversion Hop; subst registered. cbn. apply lookup_insert_eq. }
  split; [| split; [| split; [apply zfill_index_pinned |]]].
  - destruct (run_ops_instance_lines post _ _ (name s) 0 Hpost Hnoreg Hzero)
      as [lines [Hdev [Hlen Hlines]]].
    exists registered, lines.
    split; [exact Hreg |]. split; [exact Hdev |]. split; [exact Hlen |].
    intros j sc nodes Hj Hname.
    rewrite (Hlines j sc nodes Hj Hname).
    rewrite (increments_instantiates _ _ j Hnodev). reflexivity.
  - rewrite (run_ops_counter post _ _ (name s) 0 Hpost Hnoreg Hzero).
    rewrite <- (firstn_all post) at 1.
    rewrite (increments_instantiates _ _ (length post) Hnodev).
    now rewrite firstn_all.
  - repeat split; vm_compute; reflexivity.
Qed.

Lemma instance_indices_witness :
  run_ops (ops_before_OPAMP ++ AddSubcircuit (PySubCircuit OPAMP) :: ops_after_OPAMP)
    (NetList_init "top.cir") = (Ok tt, mixed_scope)
  /\ forallb (fun o => negb (registers (name OPAMP) o)) ops_after_OPAMP = true
  /\ forallb (fun o => negb (uses_device (name OPAMP) o)) ops_after_OPAMP = true
  /\ count_device_dict mixed_scope !! name OPAMP
     = Some (length (List.filter (instantiates (name OPAMP)) ops_after_OPAMP))
  /\ devices mixed_scope
     = ["R1 n1 n2 1.000000e+03" +:+ _END_OF_LINE;
        "X_AMP_00001 n2 n3 OPAMP" +:+ _END_OF_LINE;
        "C1 n3 0 1.000000e+03" +:+ _END_OF_LINE;
        "X_AMP_00002 n3 out OPAMP" +:+ _END_OF_LINE].
Proof.
  assert (H1 : run_ops (ops_before_OPAMP
                          ++ AddSubcircuit (PySubCircuit OPAMP) :: ops_after_OPAMP)
                 (NetList_init "top.cir") = (Ok tt, mixed_scope))
    by (vm_compute; reflexivity).
  assert (H2 : forallb (fun o => negb (registers (name OPAMP) o)) ops_after_OPAMP
               = true) by reflexivity.
  assert (H3 : forallb (fun o => negb (uses_device (name OPAMP) o)) ops_after_OPAMP
               = true) by reflexivity.
  split; [exact H1 |]. split; [exact H2 |]. split; [exact H3 |].
  split.
  - exact (proj1 (proj2 (instance_indices (NetList_init "top.cir") mixed_scope
                           OPAMP ops_before_OPAMP ops_after_OPAMP H1 H2 H3))).
  - vm_compute. reflexivity.
Defined.

(** ** Identifiers of the instances of one name *)

Lemma underscore_not_digit (d : string) : all_digits (String "_" d) = false.
Proof. reflexivity. Qed.

(** A string ending in an underscore and digits determines the digits. *)
Lemma digits_after_underscore (a b d1 d2 : string) :
  all_digits d1 = true -> all_digits d2 = true ->
  a +:+ String "_" d1 = b +:+ String "_" d2 -> d1 = d2.
Proof.
  intros H1 H2. revert b. induction a as [| x a IH]; intros [| y b] Heq.
  - now inversion Heq.
  - rewrite string_app_cons in Heq. inversion Heq; subst.
    rewrite all_digits_app, underscore_not_digit, andb_false_r in H1. discriminate.
  - rewrite string_app_cons in Heq. inversion Heq; subst.
    rewrite all_digits_app, underscore_not_digit, andb_false_r in H2. discriminate.
  - rewrite !string_app_cons in Heq. inversion Heq; subst. now apply (IH b).
Qed.

(** A later prefix of the calls holds more calls counting under [nm] than
    the prefix that ends before one of them. *)
Lemma increments_before (nm : string) (ops : list op) :
  forall j1 j2 o,
    ops !! j1 = Some o -> increments nm o = true -> j1 < j2 ->
    length (List.filter (increments nm) (firstn j1 ops))
    < length (List.filter (increments nm) (firstn j2 ops)).
Proof.
  induction ops as [| o0 rest IH]; intros j1 j2 o Hj Ho Hlt.
  - destruct j1; discriminate.
  - destruct j2 as [| j2]; [lia |]. destruct j1 as [| j1].
    + cbn in Hj. inversion Hj; subst o0.
      cbn [firstn List.filter]. rewrite Ho. cbn. lia.
    + cbn in Hj. cbn [firstn List.filter].
      specialize (IH j1 j2 o Hj Ho ltac:(lia)).
      destruct (increments nm o0); cbn [length]; lia.
Qed.

(** X6: between the registration of a name and its next registration, the
    calls of [subcircuit_instance] for that name that return append lines
    whose indices, strings of digits, grow strictly with the order of the
    calls, whatever other calls are made in between; so the identifiers
    [X_<suffix>_<index>] of two such instances differ, whatever their
    suffixes. *)
Theorem instance_identifiers_differ (self final : NetList) (s sc1 sc2 : SubCircuit)
    (pre post : list op) (j1 j2 : nat) (nodes1 nodes2 : list string) :
  run_ops (pre ++ AddSubcircuit (PySubCircuit s) :: post) self = (Ok tt, final) ->
  forallb (fun o => negb (registers (name s) o)) post = true ->
  post !! j1 = Some (SubcircuitInstance (PySubCircuit sc1) nodes1) ->
  post !! j2 = Some (SubcircuitInstance (PySubCircuit sc2) nodes2) ->
  name sc1 = name s ->
  name sc2 = name s ->
  j1 < j2 ->
  exists registered lines index1 index2,
    run_ops (pre ++ [AddSubcircuit (PySubCircuit s)]) self = (Ok tt, registered)
    /\ devices final = devices registered ++ lines
    /\ lines !! length (List.filter creates_instance (firstn j1 post))
       = Some ("X_" +:+ suffix sc1 +:+ "_" +:+ index1 +:+ " "
                 +:+ join " " nodes1 +:+ " " +:+ name s +:+ _END_OF_LINE)
    /\ lines !! length (List.filter creates_instance (firstn j2 post))
       = Some ("X_" +:+ suffix sc2 +:+ "_" +:+ index2 +:+ " "
                 +:+ join " " nodes2 +:+ " " +:+ name s +:+ _END_OF_LINE)
    /\ all_digits index1 = true
    /\ all_digits index2 = true
    /\ (0 < int_of_str index1 < int_of_str index2)%N
    /\ "X_" +:+ suffix sc1 +:+ "_" +:+ index1
       <> "X_" +:+ suffix sc2 +:+ "_" +:+ index2.
Proof.
  intros Hrun Hnoreg Hj1 Hj2 Hn1 Hn2 Hlt.
  assert (Hrun' : run_ops ((pre ++ [AddSubcircuit (PySubCircuit s)]) ++ post) self
                  = (Ok tt, final)).
  { now rewrite <- app_assoc. }
  destruct (run_ops_app _ _ _ _ Hrun') as [registered [Hreg Hpost]].
  assert (Hzero : count_device_dict registered !! name s = Some 0).
  { destruct (run_ops_app _ _ _ _ Hreg) as [mid [_ Hadd]].
    cbn [run_ops] in Hadd. apply bind_ok_inv in Hadd.
    destruct Hadd as [[] [self1 [Hop Hnil]]].
    cbn in Hnil. inversion Hnil; subst self1.
    cbn [run_op] in Hop. rewrite add_subcircuit_eq in Hop.
    inversion Hop; subst registered. cbn. apply lookup_insert_eq. }
  destruct (run_ops_instance_lines post _ _ (name s) 0 Hpost Hnoreg Hzero)
    as [lines [Hdev [_ Hlines]]].
  set (k1 := S (length (List.filter (increments (name s)) (firstn j1 post)))).
  set (k2 := S (length (List.filter (increments (name s)) (firstn j2 post)))).
  assert (Hk : k1 < k2).
  { subst k1 k2. apply -> Nat.succ_lt_mono.
    apply (increments_before _ _ _ _ _ Hj1); [| exact Hlt].
    cbn. rewrite Hn1. apply String.eqb_refl. }
  destruct (zfill_index_pinned k1) as [Hd1 [Hv1 _]].
  destruct (zfill_index_pinned k2) as [Hd2 [Hv2 _]].
  exists registered, lines, (zfill 5 (str_of_nat k1)), (zfill 5 (str_of_nat k2)).
  split; [exact Hreg |]. split; [exact Hdev |].
  split; [exact (Hlines j1 sc1 nodes1 Hj1 Hn1) |].
  split; [exact (Hlines j2 sc2 nodes2 Hj2 Hn2) |].
  split; [exact Hd1 |]. split; [exact Hd2 |].
  split; [rewrite Hv1, Hv2; subst k1 k2; lia |].
  intros Heq.
  assert (Hsame : zfill 5 (str_of_nat k1) = zfill 5 (str_of_nat k2)).
  { apply (digits_after_underscore ("X_" +:+ suffix sc1) ("X_" +:+ suffix sc2));
      [exact Hd1 | exact Hd2 |].
    rewrite !string_app_assoc. exact Heq. }
  assert (N.of_nat k1 = N.of_nat k2) by (rewrite <- Hv1, <- Hv2; now rewrite Hsame).
  lia.
Qed.

Lemma instance_identifiers_differ_witness :
  run_ops (ops_before_OPAMP ++ AddSubcircuit (PySubCircuit OPAMP) :: ops_after_OPAMP)
    (NetList_init "top.cir") = (Ok tt, mixed_scope)
  /\ forallb (fun o => negb (registers (name OPAMP) o)) ops_after_OPAMP = true
  /\ ops_after_OPAMP !! 0 = Some (SubcircuitInstance (PySubCircuit OPAMP) ["n2"; "n3"])
  /\ ops_after_OPAMP !! 2 = Some (SubcircuitInstance (PySubCircuit OPAMP) ["n3"; "out"])
  /\ 0 < 2
  /\ exists registered lines index1 index2,
       run_ops (ops_before_OPAMP ++ [AddSubcircuit (PySubCircuit OPAMP)])
         (NetList_init "top.cir") = (Ok tt, registered)
       /\ devices mixed_scope = devices registered ++ lines
       /\ lines !! length (List.filter creates_instance (firstn 0 ops_after_OPAMP))
          = Some ("X_" +:+ suffix OPAMP +:+ "_" +:+ index1 +:+ " "
                    +:+ join " " ["n2"; "n3"] +:+ " " +:+ name OPAMP
                    +:+ _END_OF_LINE)
       /\ lines !! length (List.filter creates_instance (firstn 2 ops_after_OPAMP))
          = Some ("X_" +:+ suffix OPAMP +:+ "_" +:+ index2 +:+ " "
                    +:+ join " " ["n3"; "out"] +:+ " " +:+ name OPAMP
                    +:+ _END_OF_LINE)
       /\ all_digits index1 = true
       /\ all_digits index2 = true
       /\ (0 < int_of_str index1 < int_of_str index2)%N
       /\ "X_" +:+ suffix OPAMP +:+ "_" +:+ index1
          <> "X_" +:+ suffix OPAMP +:+ "_" +:+ index2.
Proof.
  assert (H1 : run_ops (ops_before_OPAMP
                          ++ AddSubcircuit (PySubCircuit OPAMP) :: ops_after_OPAMP)
                 (NetList_init "top.cir") = (Ok tt, mixed_scope))
    by (vm_compute; reflexivity).
  assert (H2 : forallb (fun o => negb (registers (name OPAMP) o)) ops_after_OPAMP
               = true) by reflexivity.
  assert (H3 : ops_after_OPAMP !! 0
               = Some (SubcircuitInstance (PySubCircuit OPAMP) ["n2"; "n3"]))
    by reflexivity.
  assert (H4 : ops_after_OPAMP !! 2
               = Some (SubcircuitInstance (PySubCircuit OPAMP) ["n3"; "out"]))
    by reflexivity.
  assert (H5 : 0 < 2) by lia.
  split; [exact H1 |]. split; [exact H2 |]. split; [exact H3 |].
  split; [exact H4 |]. split; [exact H5 |].
  exact (instance_identifiers_differ (NetList_init "top.cir") mixed_scope
           OPAMP OPAMP OPAMP ops_before_OPAMP ops_after_OPAMP 0 2
           ["n2"; "n3"] ["n3"; "out"] H1 H2 H3 H4 eq_refl eq_refl H5).
Defined.

(** * Further properties of the writer *)

Lemma with_content_id p c w : files w !! p = Some c -> with_content p c w = w.
Proof.
  intros H. unfold with_content. rewrite (insert_id _ _ _ H). now destruct w.
Qed.

(** X7: [_write_subcircuit] checks its stream before it writes. Given a
    closed text stream it raises ValueError, given anything that is not a
    text stream it raises TypeError, and in both cases no file is touched.
    Called as [_write_subcircuits] calls it, with the stream that
    [open(path, 'a+')] has just returned, it returns, the file holds what it
    held before the [open] (nothing, when the [open] created it) followed by
    the whole definition (comment, opening line, device lines, nested
    definitions in registration order, closing line), every other file is as
    before, and the sub-circuit comes back with its bracketing lines
    recomputed; with the stream that [open(path, 'w')] has just returned the
    file holds the definition alone. *)
Theorem write_subcircuit_outcomes (sc : SubCircuit) (w : World) :
  (forall t,
     closed t = true ->
     _write_subcircuit sc (PyTextIO t) w
     = (Raise (ValueError "Write operation on closed file."), w))
  /\ _write_subcircuit sc PyOtherObject w
     = (Raise (TypeError "f must be an io.TextIOWrapper"), w)
  /\ (forall p t w1,
        open_a p w = (Ok t, w1) ->
        _write_subcircuit sc (PyTextIO t) w1
        = (Ok (refreshed sc),
           mkWorld
             (<[p := default "" (files w !! p) +:+ subcircuit_text sc]> (files w))
             (open_error w) (today w) (now w)))
  /\ (forall p t w1,
        open_w p w = (Ok t, w1) ->
        _write_subcircuit sc (PyTextIO t) w1
        = (Ok (refreshed sc),
           mkWorld (<[p := subcircuit_text sc]> (files w))
             (open_error w) (today w) (now w))).
Proof.
  split; [| split; [| split]].
  - intros t Ht. destruct sc. cbn [_write_subcircuit]. now rewrite Ht.
  - now destruct sc.
  - intros p t w1 Hopen.
    destruct (open_failure w p) as [e |] eqn:Hf.
    + rewrite (open_a_fails _ _ _ Hf) in Hopen. discriminate.
    + rewrite (open_a_content _ _ Hf) in Hopen.
      injection Hopen as <- <-.
      rewrite write_subcircuit_content. reflexivity.
  - intros p t w1 Hopen.
    destruct (open_failure w p) as [e |] eqn:Hf.
    + rewrite (open_w_fails _ _ _ Hf) in Hopen. discriminate.
    + rewrite (open_w_content _ _ Hf) in Hopen.
      injection Hopen as <- <-.
      rewrite write_subcircuit_content. reflexivity.
Qed.

Lemma write_subcircuit_outcomes_witness :
  closed (mkTextIO "out.cir" true) = true
  /\ _write_subcircuit OPAMP (PyTextIO (mkTextIO "out.cir" true)) sample_world
     = (Raise (ValueError "Write operation on closed file."), sample_world)
  /\ open_a "out.cir" sample_world = (Ok (mkTextIO "out.cir" false), sample_world)
  /\ _write_subcircuit OPAMP (PyTextIO (mkTextIO "out.cir" false)) sample_world
     = (Ok (refreshed OPAMP),
        mkWorld
          (<["out.cir" := default "" (files sample_world !! "out.cir")
                            +:+ subcircuit_text OPAMP]> (files sample_world))
          (open_error sample_world) (today sample_world) (now sample_world)).
Proof.
  assert (H1 : closed (mkTextIO "out.cir" true) = true) by reflexivity.
  assert (H2 : open_a "out.cir" sample_world
               = (Ok (mkTextIO "out.cir" false), sample_world))
    by (vm_compute; reflexivity).
  split; [exact H1 |].
  split; [exact (proj1 (write_subcircuit_outcomes OPAMP sample_world) _ H1) |].
  split; [exact H2 |].
  exact (proj1 (proj2 (proj2 (write_subcircuit_outcomes OPAMP sample_world)))
           _ _ _ H2).
Defined.

(** A sub-circuit with no comment, device or nested sub-circuit is written
    as its two bracketing lines. *)
Example OPAMP_text :
  subcircuit_text OPAMP
  = ".SUBCIRCUIT OPAMP in out" +:+ _END_OF_LINE
      +:+ ".ENDS OPAMP" +:+ _END_OF_LINE.
Proof. vm_compute. reflexivity. Qed.







(** * Further properties of the loader *)

Lemma bind_ext {St A B} (m : M St A) (k1 k2 : A -> M St B) (s : St) :
  (forall a s', k1 a s' = k2 a s') -> bind m k1 s = bind m k2 s.
Proof.
  intros H. unfold bind. destruct (m s) as [[a | e] s']; [apply H | reflexivity].
Qed.

(** The body of the loop depends on the rest of the loop only through what
    the rest does. *)
Lemma loop_body_ext (py_float : string -> result spec_float) (line : string)
    (k1 k2 : M SubCircuit unit) :
  (forall s, k1 s = k2 s) ->
  forall self, loop_body py_float line k1 self = loop_body py_float line k2 self.
Proof.
  intros Hk self. unfold loop_body.
  apply bind_ext. intros first_token s1.
  apply bind_ext. intros first_char s2.
  destruct (py_in first_char ["R"; "L"; "C"]).
  { do 3 (apply bind_ext; intros ? ?). apply Hk. }
  destruct (String.eqb first_char "X").
  { do 2 (apply bind_ext; intros ? ?). apply Hk. }
  destruct (py_in first_char ["."]); [| apply Hk].
  destruct (String.eqb first_token ".ENDS"); [reflexivity | apply Hk].
Qed.

Lemma loop_body_ignored (py_float : string -> result spec_float) (line : string)
    (k : M SubCircuit unit) (self : SubCircuit) :
  is_ignored line = true -> loop_body py_float line k self = k self.
Proof.
  unfold is_ignored, loop_body.
  destruct (split line) as [| [| c tail] tokens]; try discriminate.
  intros H. apply andb_prop in H. destruct H as [H Hends].
  apply andb_prop in H. destruct H as [Hrlc HX].
  apply negb_true_iff in Hrlc, HX, Hends.
  rewrite (bind_ok _ _ self (String c tail) self) by reflexivity.
  rewrite (bind_ok _ _ self (String c "") self) by reflexivity.
  rewrite Hrlc, HX, Hends. now destruct (py_in (String c "") ["."]).
Qed.

(** X9: lines that the loop cannot use have no effect. Taking out of the
    lines after the first every line whose first token starts with none of
    R, L, C, X and is not [.ENDS] (comment lines, other directives) gives the
    same outcome and the same sub-circuit. *)
Theorem read_loop_skips_ignored (py_float : string -> result spec_float)
    (stream : list string) (self : SubCircuit) :
  read_loop py_float stream self
  = read_loop py_float (List.filter (fun l => negb (is_ignored l)) stream) self.
Proof.
  revert self. induction stream as [| line rest IH]; intros self; [reflexivity |].
  cbn [read_loop List.filter].
  destruct (is_ignored line) eqn:Hign; cbn [negb].
  - rewrite loop_body_ignored by exact Hign. apply IH.
  - cbn [read_loop]. now apply loop_body_ext.
Qed.

Lemma loop_body_ENDS (py_float : string -> result spec_float) (line : string)
    (k : M SubCircuit unit) (self : SubCircuit) :
  hd_error (split line) = Some ".ENDS" ->
  loop_body py_float line k self = (Ok tt, self).
Proof.
  unfold loop_body. destruct (split line) as [| token tokens]; [discriminate |].
  cbn. intros H. inversion H; subst. reflexivity.
Qed.

(** X10: the loop stops at the first line whose first token is [.ENDS],
    whatever name follows it on the line; no line after it is read, so what
    comes after it does not matter. *)
Theorem read_loop_stops_at_ENDS (py_float : string -> result spec_float)
    (before : list string) (ends : string) (after : list string)
    (self : SubCircuit) :
  hd_error (split ends) = Some ".ENDS" ->
  read_loop py_float (before ++ ends :: after) self
  = read_loop py_float (before ++ [ends]) self.
Proof.
  intros Hends. revert self.
  induction before as [| line rest IH]; intros self.
  - cbn [app read_loop]. now rewrite !loop_body_ENDS.
  - cbn [app read_loop]. now apply loop_body_ext.
Qed.

Lemma read_loop_stops_at_ENDS_witness :
  hd_error (split (".ENDS RC" +:+ _END_OF_LINE)) = Some ".ENDS"
  /\ read_loop sample_py_float
       (["R1 in out 1.000000e+03" +:+ _END_OF_LINE]
          ++ (".ENDS RC" +:+ _END_OF_LINE) :: ["" ; "X y z"])
       new_subcircuit
     = read_loop sample_py_float
         (["R1 in out 1.000000e+03" +:+ _END_OF_LINE]
            ++ [".ENDS RC" +:+ _END_OF_LINE])
         new_subcircuit.
Proof.
  assert (H : hd_error (split (".ENDS RC" +:+ _END_OF_LINE)) = Some ".ENDS")
    by (vm_compute; reflexivity).
  split; [exact H |].
  exact (read_loop_stops_at_ENDS sample_py_float _ _ _ new_subcircuit H).
Defined.

(** The sample stream: the comment, the other directive and the line after
    the end directive leave no trace. *)
Example sample_stream_loaded :
  exists self',
    read_loop sample_py_float sample_stream new_subcircuit = (Ok tt, self')
    /\ devices (as_netlist self')
       = ["R1 in mid 1.000000e+03" +:+ _END_OF_LINE;
          "C1 mid out 1.000000e+03" +:+ _END_OF_LINE].
Proof. eexists. split; vm_compute; reflexivity. Qed.

Lemma loop_keeps_refl (s : SubCircuit) : loop_keeps s s.
Proof.
  unfold loop_keeps. repeat split; try reflexivity.
  exists []. now rewrite app_nil_r.
Qed.

Lemma loop_keeps_trans (a b c : SubCircuit) :
  loop_keeps a b -> loop_keeps b c -> loop_keeps a c.
Proof.
  unfold loop_keeps.
  intros [H1 [H2 [H3 [H4 [H5 [H6 [H7 [[m Hm] H9]]]]]]]]
         [K1 [K2 [K3 [K4 [K5 [K6 [K7 [[m' Hm'] K9]]]]]]]].
  repeat split; try congruence; try lia.
  exists (m ++ m'). rewrite Hm', Hm. now rewrite <- app_assoc.
Qed.

Lemma bind_keeps {A B} (m : M SubCircuit A) (k : A -> M SubCircuit B)
    (s : SubCircuit) :
  loop_keeps s (snd (m s)) ->
  (forall a s1, loop_keeps s1 (snd (k a s1))) ->
  loop_keeps s (snd (bind m k s)).
Proof.
  intros Hm Hk. unfold bind. destruct (m s) as [[a | e] s1]; cbn [snd] in *.
  - apply (loop_keeps_trans s s1); [exact Hm | apply Hk].
  - exact Hm.
Qed.

Lemma index_state {A} (l : list A) (i : nat) (s : SubCircuit) :
  snd (index l i s) = s.
Proof. unfold index. now destruct (nth_error l i). Qed.

Lemma first_char_of_state (t : string) (s : SubCircuit) :
  snd (first_char_of t s) = s.
Proof. now destruct t. Qed.

Lemma last_item_state (l : list string) (s : SubCircuit) :
  snd (last_item l s) = s.
Proof. now destruct l. Qed.

Lemma inherited_rlc_keeps device nodes value (s : SubCircuit) :
  loop_keeps s (snd (inherited (rlc_instance device nodes value) s)).
Proof.
  unfold inherited, rlc_instance.
  destruct s as [nl nm ext sfx cm sl el sfp].
  destruct (py_in device ["R"; "L"; "C"]); [| apply loop_keeps_refl].
  unfold bind, modify, dict_incr. cbn.
  destruct (count_device_dict nl !! device) as [c |]; cbn;
    unfold loop_keeps; cbn; repeat split; eauto;
    try (exists []; now rewrite app_nil_r); lia.
Qed.

Lemma inherited_str_instance_keeps token nodes (s : SubCircuit) :
  loop_keeps s (snd (inherited (subcircuit_instance (PyStr token) nodes) s)).
Proof. destruct s. apply loop_keeps_refl. Qed.

Lemma loop_body_keeps (py_float : string -> result spec_float) (line : string)
    (k : M SubCircuit unit) :
  (forall s, loop_keeps s (snd (k s))) ->
  forall self, loop_keeps self (snd (loop_body py_float line k self)).
Proof.
  intros Hk self. unfold loop_body.
  apply bind_keeps; [rewrite index_state; apply loop_keeps_refl |].
  intros first_token s1.
  apply bind_keeps; [rewrite first_char_of_state; apply loop_keeps_refl |].
  intros first_char s2.
  destruct (py_in first_char ["R"; "L"; "C"]).
  { apply bind_keeps; [rewrite last_item_state; apply loop_keeps_refl |].
    intros token s3.
    apply bind_keeps; [apply loop_keeps_refl |]. intros value s4.
    apply bind_keeps; [apply inherited_rlc_keeps |]. intros ? s5. apply Hk. }
  destruct (String.eqb first_char "X").
  { apply bind_keeps; [rewrite last_item_state; apply loop_keeps_refl |].
    intros token s3.
    apply bind_keeps; [apply inherited_str_instance_keeps |].
    intros ? s4. apply Hk. }
  destruct (py_in first_char ["."]); [| apply Hk].
  destruct (String.eqb first_token ".ENDS"); [apply loop_keeps_refl | apply Hk].
Qed.

Lemma read_loop_keeps (py_float : string -> result spec_float)
    (stream : list string) :
  forall self, loop_keeps self (snd (read_loop py_float stream self)).
Proof.
  induction stream as [| line rest IH]; intros self; cbn [read_loop].
  - apply loop_body_keeps. intros s. apply loop_keeps_refl.
  - now apply loop_body_keeps.
Qed.

(** X11: what [load_from_file] does to the sub-circuit it is called on,
    whether it returns or raises, whatever the file holds and even when the
    file is missing. The path and the suffix of the call are recorded; a name
    or a node list given in the call is kept as given; the comment, the
    registered sub-circuits and [filepath] are untouched (a load never
    registers a sub-circuit); the device lines already there stay, in order,
    before those the load adds; the total never goes down. *)
Theorem load_from_file_keeps (py_float : string -> result spec_float)
    (fs : gmap string string) (path : string) (external_nodes : list string)
    (nm sfx : string) (self : SubCircuit) :
  let after := snd (load_from_file py_float fs path external_nodes nm sfx self) in
  subcircuit_filepath after = Some path
  /\ suffix after = sfx
  /\ (nm = "" \/ name after = nm)
  /\ (external_nodes = [] \/ ext_nodes after = external_nodes)
  /\ comment after = comment self
  /\ subcircuits (as_netlist after) = subcircuits (as_netlist self)
  /\ filepath (as_netlist after) = filepath (as_netlist self)
  /\ (exists more,
        devices (as_netlist after) = devices (as_netlist self) ++ more)
  /\ count_device_total (as_netlist self) <= count_device_total (as_netlist after).
Proof.
  set (Post := fun s : SubCircuit =>
    subcircuit_filepath s = Some path
    /\ suffix s = sfx
    /\ (nm = "" \/ name s = nm)
    /\ (external_nodes = [] \/ ext_nodes s = external_nodes)
    /\ comment s = comment self
    /\ subcircuits (as_netlist s) = subcircuits (as_netlist self)
    /\ filepath (as_netlist s) = filepath (as_netlist self)
    /\ (exists more, devices (as_netlist s) = devices (as_netlist self) ++ more)
    /\ count_device_total (as_netlist self) <= count_device_total (as_netlist s)).
  change (Post (snd (load_from_file py_float fs path external_nodes nm sfx self))).
  assert (Hfinish : forall s6 final, Post s6 -> loop_keeps s6 final -> Post final).
  { intros s6 final [H1 [H2 [H3 [H4 [H5 [H6 [H7 [[m Hm] H9]]]]]]]]
           [K1 [K2 [K3 [K4 [K5 [K6 [K7 [[m' Hm'] K9]]]]]]]].
    unfold Post. repeat split; try congruence; try lia.
    exists (m ++ m'). rewrite Hm', Hm. now rewrite <- app_assoc. }
  assert (Hbase : forall (n : string) (e : list string) (sl el : string),
    (nm = "" \/ n = nm) -> (external_nodes = [] \/ e = external_nodes) ->
    Post (mkSubCircuit (as_netlist self) n e sfx (comment self) sl el (Some path))).
  { intros n e sl el Hn He. unfold Post. cbn.
    repeat split; try assumption; try lia.
    exists []. now rewrite app_nil_r. }
  set (s4 := set_suffix sfx (set_name nm (set_ext_nodes external_nodes
               (set_subcircuit_filepath path self)))).
  assert (Hs4 : Post s4) by (apply Hbase; now right).
  unfold load_from_file.
  unfold bind at 1 2 3 4. unfold modify at 1 2 3 4. fold s4.
  destruct (fs !! path) as [text |]; [| exact Hs4].
  destruct (readline (readlines text)) as [line stream].
  assert (Htail : forall s6, Post s6 ->
    Post (snd ((if is_empty line then ret tt else read_loop py_float stream) s6))).
  { intros s6 Hs6. destruct (is_empty line); [exact Hs6 |].
    apply (Hfinish s6); [exact Hs6 | apply read_loop_keeps]. }
  assert (Hext : forall s5, Post s5 ->
    (ext_nodes s5 = [] -> external_nodes = []) ->
    Post (snd (bind get (fun self0 : SubCircuit =>
                 bind match ext_nodes self0 with
                      | [] => modify (set_ext_nodes (skipn 2 (split line)))
                      | _ :: _ => ret tt
                      end
                   (fun _ => if is_empty line then ret tt
                             else read_loop py_float stream)) s5))).
  { intros s5 Hs5 Hnil. unfold bind at 1. unfold get.
    destruct (ext_nodes s5) as [| e es] eqn:He.
    - unfold bind, modify. apply Htail.
      destruct Hs5 as [H1 [H2 [H3 [H4 [H5 [H6 [H7 [H8 H9]]]]]]]].
      unfold Post. destruct s5; cbn in *.
      repeat split; try assumption. left. now apply Hnil.
    - unfold bind, ret. now apply Htail. }
  destruct (is_empty nm) eqn:Hnm.
  - assert (nm = "") as Hnm0 by (destruct nm; [reflexivity | discriminate]).
    unfold bind at 1. unfold index.
    destruct (nth_error (split line) 1) as [first_name |]; [| exact Hs4].
    unfold bind at 1 2 3. unfold ret at 1. unfold modify at 1 2 3.
    apply Hext.
    + subst s4. cbn. apply Hbase; [now left | now right].
    + subst s4. cbn. tauto.
  - unfold bind at 1. unfold ret at 1.
    apply Hext; [exact Hs4 |]. subst s4. cbn. tauto.
Qed.

(** ** Writing a sub-circuit, then loading the file *)

Lemma all_chars_app (p : ascii -> bool) (s t : string) :
  all_chars p (s +:+ t) = all_chars p s && all_chars p t.
Proof.
  induction s as [| a s IH]; [reflexivity |].
  rewrite string_app_cons. cbn. rewrite IH. now rewrite andb_assoc.
Qed.

Lemma all_chars_impl (p q : ascii -> bool) (s : string) :
  (forall c, p c = true -> q c = true) ->
  all_chars p s = true -> all_chars q s = true.
Proof.
  intros Hpq. induction s as [| a s IH]; [reflexivity |].
  cbn. intros H. apply andb_prop in H. destruct H as [Ha Hs].
  now rewrite (Hpq a Ha), IH.
Qed.

Lemma no_space_no_newline (s : string) : no_space s = true -> no_newline s = true.
Proof.
  apply all_chars_impl. intros c Hc.
  destruct (Ascii.eqb_spec c "010") as [-> | _]; [discriminate | reflexivity].
Qed.

Lemma is_digit_not_space (c : ascii) : is_digit c = true -> is_space c = false.
Proof.
  unfold is_digit, is_space. intros H.
  apply andb_prop in H. destruct H as [H1 H2].
  apply Nat.leb_le in H1, H2.
  destruct (Nat.leb_spec 9 (nat_of_ascii c)), (Nat.leb_spec (nat_of_ascii c) 13),
    (Nat.leb_spec 28 (nat_of_ascii c)), (Nat.leb_spec (nat_of_ascii c) 32);
    cbn; try reflexivity; lia.
Qed.

Lemma all_digits_no_space (s : string) : all_digits s = true -> no_space s = true.
Proof.
  induction s as [| a s IH]; [reflexivity |].
  cbn. intros H. apply andb_prop in H. destruct H as [Ha Hs].
  unfold no_space in *. cbn. now rewrite (is_digit_not_space a Ha), IH.
Qed.

Lemma str_of_nat_no_space (i : nat) : no_space (str_of_nat i) = true.
Proof.
  apply all_digits_no_space. unfold str_of_nat, str_of_N.
  now apply render_digits_all_digits.
Qed.

Lemma is_sci6_unsigned_no_space (s : string) :
  is_sci6_unsigned s = true -> no_space s = true.
Proof.
  destruct s as [| d0 [| p [| d1 [| d2 [| d3 [| d4 [| d5 [| d6 [| e [| sg ex]]]]]]]]]];
    try discriminate.
  cbn [is_sci6_unsigned]. intros H.
  apply andb_prop in H. destruct H as [H Hex].
  apply andb_prop in H. destruct H as [H _].
  apply andb_prop in H. destruct H as [H Hsg].
  apply andb_prop in H. destruct H as [H He].
  apply andb_prop in H. destruct H as [H H6].
  apply andb_prop in H. destruct H as [H H5].
  apply andb_prop in H. destruct H as [H H4].
  apply andb_prop in H. destruct H as [H H3].
  apply andb_prop in H. destruct H as [H H2].
  apply andb_prop in H. destruct H as [H H1].
  apply andb_prop in H. destruct H as [H0 Hp].
  apply is_digit_not_space in H0, H1, H2, H3, H4, H5, H6.
  apply Ascii.eqb_eq in Hp, He. subst p e.
  assert (Hsg' : is_space sg = false).
  { apply orb_prop in Hsg. destruct Hsg as [Hsg | Hsg];
      apply Ascii.eqb_eq in Hsg; subst; reflexivity. }
  apply all_digits_no_space in Hex.
  unfold no_space in *. cbn [all_chars].
  rewrite H0, H1, H2, H3, H4, H5, H6, Hsg'. cbn. exact Hex.
Qed.

(** A printed value is one token. *)
Lemma format_e6_is_token (value : spec_float) : is_token (format_e6 value) = true.
Proof.
  destruct value as [s | s | | s m e]; try (destruct s; reflexivity);
    try reflexivity.
  pose proof (format_e6_shape (S754_finite s m e) eq_refl) as Hshape.
  destruct (format_e6 (S754_finite s m e)) as [| c rest]; [discriminate |].
  unfold is_token. cbn [is_empty negb andb].
  unfold is_sci6 in Hshape.
  destruct (Ascii.eqb_spec c "-") as [-> | _].
  - apply is_sci6_unsigned_no_space in Hshape.
    unfold no_space in *. cbn. exact Hshape.
  - now apply is_sci6_unsigned_no_space.
Qed.

Lemma split_from_no_space (t rest acc : string) :
  no_space t = true ->
  split_from (t +:+ rest) acc = split_from rest (acc +:+ t).
Proof.
  revert acc. induction t as [| a t IH]; intros acc Ht.
  - now rewrite string_app_nil_r.
  - unfold no_space in Ht. cbn in Ht. apply andb_prop in Ht.
    destruct Ht as [Ha Ht]. apply negb_true_iff in Ha.
    rewrite string_app_cons. cbn [split_from]. rewrite Ha.
    rewrite (IH _ Ht). now rewrite string_app_assoc.
Qed.

(** A token followed by a white space character is split off. *)
Lemma split_token (t : string) (c : ascii) (rest : string) :
  is_token t = true -> is_space c = true ->
  split (t +:+ String c rest) = t :: split rest.
Proof.
  unfold is_token, split. intros Ht Hc.
  apply andb_prop in Ht. destruct Ht as [Hne Hns].
  rewrite (split_from_no_space t _ "" Hns).
  change ("" +:+ t) with t. cbn [split_from]. rewrite Hc.
  destruct t; [discriminate | reflexivity].
Qed.

Lemma split_space (c : ascii) (rest : string) :
  is_space c = true -> split (String c rest) = split rest.
Proof. intros Hc. unfold split. cbn. now rewrite Hc. Qed.

Lemma join_space_cons2 (t t2 : string) (r : list string) :
  join " " (t :: t2 :: r) = t +:+ " " +:+ join " " (t2 :: r).
Proof. reflexivity. Qed.

(** Tokens joined by spaces, then a white space character: the tokens come
    back. *)
Lemma split_join (toks : list string) (c : ascii) (rest : string) :
  Forall (fun t => is_token t = true) toks -> is_space c = true ->
  split (join " " toks +:+ String c rest) = toks ++ split rest.
Proof.
  intros Htoks Hc. induction Htoks as [| t r Ht Hr IH].
  - cbn. now apply split_space.
  - destruct r as [| t2 r].
    + cbn [join String.concat app]. now apply split_token.
    + rewrite join_space_cons2, !string_app_assoc.
      change (" " +:+ ?x) with (String " " x).
      rewrite (split_token t " " _ Ht eq_refl). cbn [app]. f_equal. exact IH.
Qed.

Lemma lines_from_line (body rest acc : string) :
  no_newline body = true ->
  lines_from (body +:+ _END_OF_LINE +:+ rest) acc
  = (acc +:+ body +:+ _END_OF_LINE) :: lines_from rest "".
Proof.
  revert acc. induction body as [| a body IH]; intros acc Hbody.
  - reflexivity.
  - unfold no_newline in Hbody. cbn in Hbody. apply andb_prop in Hbody.
    destruct Hbody as [Ha Hbody]. apply negb_true_iff in Ha.
    rewrite string_app_cons. cbn [lines_from]. rewrite Ha.
    rewrite (IH _ Hbody). now rewrite !string_app_assoc.
Qed.

Lemma join_empty_app (a b : list string) :
  join "" (a ++ b) = join "" a +:+ join "" b.
Proof.
  induction a as [| x a IH]; [reflexivity |].
  cbn [app]. rewrite !join_empty_cons, IH. now rewrite string_app_assoc.
Qed.

(** The lines of a text made of lines are those lines. *)
Lemma readlines_join (ls : list string) :
  Forall is_line ls -> readlines (join "" ls) = ls.
Proof.
  induction 1 as [| l r [body [-> Hbody]] _ IH]; [reflexivity |].
  rewrite join_empty_cons, string_app_assoc. unfold readlines.
  rewrite (lines_from_line body _ "" Hbody). f_equal. exact IH.
Qed.

Lemma device_no_space (d : string) :
  In d ["R"; "L"; "C"] -> no_space d = true.
Proof. cbn. intros [<- | [<- | [<- | []]]]; reflexivity. Qed.

Lemma join_no_newline (toks : list string) :
  Forall (fun t => is_token t = true) toks -> no_newline (join " " toks) = true.
Proof.
  induction 1 as [| t r Ht _ IH]; [reflexivity |].
  apply andb_prop in Ht. destruct Ht as [_ Ht].
  apply no_space_no_newline in Ht.
  destruct r as [| t2 r]; [exact Ht |].
  rewrite join_space_cons2. unfold no_newline in *.
  rewrite !all_chars_app, Ht, IH. reflexivity.
Qed.

Lemma rlc_line_split d idx nodes value :
  In d ["R"; "L"; "C"] ->
  Forall (fun t => is_token t = true) nodes ->
  split (rlc_line d idx nodes value)
  = (d +:+ str_of_nat idx) :: nodes ++ [format_e6 value].
Proof.
  intros Hd Hnodes. unfold rlc_line.
  rewrite <- (string_app_assoc d (str_of_nat idx)).
  rewrite !(string_app_cons " " "").
  change ("" +:+ ?x) with x.
  rewrite split_token; [| | reflexivity].
  - f_equal. rewrite (split_join nodes " " _ Hnodes eq_refl). f_equal.
    change ("" +:+ format_e6 value +:+ _END_OF_LINE)
      with (format_e6 value +:+ String "010" "").
    now rewrite (split_token (format_e6 value) "010" "" (format_e6_is_token value) eq_refl).
  - unfold is_token. apply andb_true_intro. split.
    + cbn in Hd. destruct Hd as [<- | [<- | [<- | []]]]; reflexivity.
    + unfold no_space. rewrite all_chars_app.
      apply andb_true_intro. split;
        [apply (device_no_space d Hd) | apply str_of_nat_no_space].
Qed.

Lemma rlc_line_is_line d idx nodes value :
  In d ["R"; "L"; "C"] ->
  Forall (fun t => is_token t = true) nodes ->
  is_line (rlc_line d idx nodes value).
Proof.
  intros Hd Hnodes.
  exists (d +:+ str_of_nat idx +:+ " " +:+ join " " nodes +:+ " "
            +:+ format_e6 value).
  split; [unfold rlc_line; now rewrite !string_app_assoc |].
  pose proof (format_e6_is_token value) as Hv.
  apply andb_prop in Hv. destruct Hv as [_ Hv].
  unfold no_newline. rewrite !all_chars_app.
  fold (no_newline d) (no_newline (str_of_nat idx)) (no_newline (join " " nodes))
       (no_newline (format_e6 value)).
  rewrite (no_space_no_newline d (device_no_space d Hd)).
  rewrite (no_space_no_newline _ (str_of_nat_no_space idx)).
  rewrite (join_no_newline nodes Hnodes).
  rewrite (no_space_no_newline _ Hv). reflexivity.
Qed.

(** A device line in the loop is a call of [rlc_instance] with the nodes of
    the line and the value [float] reads; the index written on the line plays
    no part. *)
Lemma loop_body_rlc_line (py_float : string -> result spec_float)
    d idx nodes value value' (k : M SubCircuit unit) (self : SubCircuit) :
  In d ["R"; "L"; "C"] ->
  Forall (fun t => is_token t = true) nodes ->
  py_float (format_e6 value) = Ok value' ->
  loop_body py_float (rlc_line d idx nodes value) k self
  = bind (inherited (rlc_instance d nodes value')) (fun _ => k) self.
Proof.
  intros Hd Hnodes Hfloat. unfold loop_body.
  rewrite (rlc_line_split d idx nodes value Hd Hnodes).
  rewrite (bind_ok _ _ self (d +:+ str_of_nat idx) self) by reflexivity.
  rewrite (bind_ok _ _ self d self)
    by (cbn in Hd; destruct Hd as [<- | [<- | [<- | []]]]; reflexivity).
  rewrite (proj2 (py_in_In d ["R"; "L"; "C"]) Hd).
  rewrite (bind_ok _ _ self (format_e6 value) self).
  2:{ unfold last_item, ret.
      change ((d +:+ str_of_nat idx) :: nodes ++ [format_e6 value])
        with (((d +:+ str_of_nat idx) :: nodes) ++ [format_e6 value]).
      rewrite List.last_last.
      destruct nodes; reflexivity. }
  rewrite (bind_ok _ _ self value' self)
    by (unfold float_of_token; now rewrite Hfloat).
  unfold inner_items. cbn [List.tl]. now rewrite List.removelast_last.
Qed.

(** Reading back the lines that a sequence of calls produced replays the
    calls: the same lines are appended, in the same order. *)
Lemma read_loop_replays (py_float : string -> result spec_float)
    (calls : list rlc_call) :
  forall (nl : NetList) (self : SubCircuit),
    has_device_counters nl ->
    same_device_counters nl (as_netlist self) ->
    Forall (loadable_call py_float) calls ->
    exists nlF lines,
      run_rlc calls nl = (Ok tt, nlF)
      /\ devices nlF = devices nl ++ lines
      /\ subcircuits nlF = subcircuits nl
      /\ Forall is_line lines
      /\ length lines = length calls
      /\ forall ends after,
           hd_error (split ends) = Some ".ENDS" ->
           exists selfF,
             read_loop py_float (lines ++ ends :: after) self = (Ok tt, selfF)
             /\ loop_keeps self selfF
             /\ devices (as_netlist selfF) = devices (as_netlist self) ++ lines
             /\ count_device_total (as_netlist selfF)
                = count_device_total (as_netlist self) + length calls.
Proof.
  induction calls as [| [[d nodes] value] rest IH]; intros nl self Hkeys Hsame Hall.
  - exists nl, []. rewrite app_nil_r.
    split; [reflexivity |]. split; [reflexivity |]. split; [reflexivity |].
    split; [constructor |]. split; [reflexivity |].
    intros ends after Hends. exists self.
    cbn [app read_loop]. rewrite (loop_body_ENDS _ _ _ _ Hends).
    rewrite app_nil_r.
    split; [reflexivity |]. split; [apply loop_keeps_refl |].
    split; [reflexivity | cbn; lia].
  - inversion Hall as [| ? ? Hcall Hrest]; subst.
    destruct Hcall as [Hd [Hnodes [value' [Hfloat Hfmt]]]]. cbn [fst snd] in *.
    destruct (Hkeys d Hd) as [c Hc].
    assert (Hc' : count_device_dict (as_netlist self) !! d = Some c)
      by (rewrite <- (Hsame d Hd); exact Hc).
    pose proof (rlc_instance_ok nl d nodes value c Hd Hc) as Hstep.
    pose proof (rlc_instance_ok (as_netlist self) d nodes value' c Hd Hc') as Hstep'.
    assert (Hline : rlc_line d (S c) nodes value' = rlc_line d (S c) nodes value)
      by (unfold rlc_line; now rewrite Hfmt).
    rewrite Hline in Hstep'.
    set (line0 := rlc_line d (S c) nodes value) in *.
    set (nl1 := mkNetList (filepath nl) (subcircuits nl) (devices nl ++ [line0])
                  (<[d := S c]> (count_device_dict nl))
                  (S (count_device_total nl))) in *.
    set (nl1' := mkNetList (filepath (as_netlist self)) (subcircuits (as_netlist self))
                   (devices (as_netlist self) ++ [line0])
                   (<[d := S c]> (count_device_dict (as_netlist self)))
                   (S (count_device_total (as_netlist self)))) in *.
    destruct (IH nl1 (set_netlist nl1' self))
      as [nlF [lines [Hrun [Hdevs [Hsubs [Hlines [Hlen Hread]]]]]]].
    { intros ty Hty. cbn. destruct (decide (d = ty)) as [-> | Hne].
      - rewrite lookup_insert_eq. eauto.
      - rewrite lookup_insert_ne by assumption. now apply Hkeys. }
    { intros ty Hty. cbn. destruct (decide (d = ty)) as [-> | Hne].
      - now rewrite !lookup_insert_eq.
      - rewrite !lookup_insert_ne by assumption. now apply Hsame. }
    { exact Hrest. }
    exists nlF, (line0 :: lines).
    split; [cbn [run_rlc]; rewrite (bind_ok _ _ _ _ _ Hstep); exact Hrun |].
    split; [rewrite Hdevs; cbn; now rewrite <- app_assoc |].
    split; [exact Hsubs |].
    split; [constructor; [now apply rlc_line_is_line | exact Hlines] |].
    split; [cbn; now rewrite Hlen |].
    intros ends after Hends.
    destruct (Hread ends after Hends) as [selfF [HreadF [Hkeep [HdevF HtotF]]]].
    exists selfF. split; [| split; [| split]].
    + cbn [app read_loop]. subst line0.
      rewrite (loop_body_rlc_line py_float d (S c) nodes value value' _ self
                 Hd Hnodes Hfloat).
      assert (Hinh : inherited (rlc_instance d nodes value') self
                     = (Ok tt, set_netlist nl1' self))
        by (unfold inherited; now rewrite Hstep').
      rewrite (bind_ok _ _ _ _ _ Hinh). exact HreadF.
    + apply (loop_keeps_trans self (set_netlist nl1' self)); [| exact Hkeep].
      unfold loop_keeps. destruct self. cbn. repeat split; eauto; lia.
    + rewrite HdevF. cbn. now rewrite <- app_assoc.
    + rewrite HtotF. cbn. lia.
Qed.

Lemma header_split (nm : string) (ext : list string) :
  is_token nm = true ->
  Forall (fun t => is_token t = true) ext ->
  split (".SUBCIRCUIT " +:+ nm +:+ " " +:+ join " " ext +:+ _END_OF_LINE)
  = ".SUBCIRCUIT" :: nm :: ext.
Proof.
  intros Hnm Hext.
  change (".SUBCIRCUIT " +:+ ?x) with (".SUBCIRCUIT" +:+ String " " x).
  rewrite (split_token ".SUBCIRCUIT" " " _ eq_refl eq_refl). f_equal.
  rewrite (string_app_cons " " ""). change ("" +:+ ?x) with x.
  rewrite (split_token nm " " _ Hnm eq_refl). f_equal.
  unfold _END_OF_LINE.
  rewrite (split_join ext "010" "" Hext eq_refl). apply app_nil_r.
Qed.

Lemma header_is_line (nm : string) (ext : list string) :
  is_token nm = true ->
  Forall (fun t => is_token t = true) ext ->
  is_line (".SUBCIRCUIT " +:+ nm +:+ " " +:+ join " " ext +:+ _END_OF_LINE).
Proof.
  intros Hnm Hext.
  exists (".SUBCIRCUIT " +:+ nm +:+ " " +:+ join " " ext).
  split; [now rewrite !string_app_assoc |].
  apply andb_prop in Hnm. destruct Hnm as [_ Hnm].
  unfold no_newline. rewrite !all_chars_app.
  fold (no_newline nm) (no_newline (join " " ext)).
  now rewrite (no_space_no_newline nm Hnm), (join_no_newline ext Hext).
Qed.

Lemma footer_split (nm : string) :
  is_token nm = true ->
  split (".ENDS " +:+ nm +:+ _END_OF_LINE) = [".ENDS"; nm].
Proof.
  intros Hnm.
  change (".ENDS " +:+ ?x) with (".ENDS" +:+ String " " x).
  rewrite (split_token ".ENDS" " " _ eq_refl eq_refl). f_equal.
  unfold _END_OF_LINE. now rewrite (split_token nm "010" "" Hnm eq_refl).
Qed.

Lemma footer_is_line (nm : string) :
  is_token nm = true -> is_line (".ENDS " +:+ nm +:+ _END_OF_LINE).
Proof.
  intros Hnm. exists (".ENDS " +:+ nm).
  split; [now rewrite !string_app_assoc |].
  apply andb_prop in Hnm. destruct Hnm as [_ Hnm].
  unfold no_newline. rewrite !all_chars_app. fold (no_newline nm).
  now rewrite (no_space_no_newline nm Hnm).
Qed.

(** X12: writing then loading. A sub-circuit made by the constructor with a
    name and external nodes that are tokens and no comment, filled by
    [rlc_instance] calls whose nodes are tokens, is written by
    [_write_subcircuit] to a file just created; [load_from_file], called
    with no name and no nodes on a sub-circuit in which nothing was created,
    then returns normally and recovers the name, the external nodes and the
    device lines, character for character and in order. [float] is assumed
    to read a printed value as a value that prints the same. *)
Theorem write_then_load (py_float : string -> result spec_float) (w : World)
    (path nm sfx sfx2 : string) (ext : list string) (calls : list rlc_call)
    (self0 : SubCircuit) :
  files w !! path = Some "" ->
  is_token nm = true ->
  Forall (fun t => is_token t = true) ext ->
  Forall (loadable_call py_float) calls ->
  as_netlist self0 = NetList_init "" ->
  exists written w' loaded,
    _write_subcircuit (flat_subcircuit nm ext sfx calls)
      (PyTextIO (mkTextIO path false)) w = (Ok written, w')
    /\ load_from_file py_float (files w') path [] "" sfx2 self0 = (Ok tt, loaded)
    /\ name loaded = nm
    /\ ext_nodes loaded = ext
    /\ suffix loaded = sfx2
    /\ devices (as_netlist loaded)
       = devices (as_netlist (flat_subcircuit nm ext sfx calls))
    /\ length (devices (as_netlist loaded)) = length calls
    /\ count_device_total (as_netlist loaded) = length calls.
Proof.
  intros Hfile Hnm Hext Hcalls Hfresh.
  set (header := ".SUBCIRCUIT " +:+ nm +:+ " " +:+ join " " ext +:+ _END_OF_LINE).
  set (footer := ".ENDS " +:+ nm +:+ _END_OF_LINE).
  set (s6 := set_ext_nodes ext
               (_update_end_line
                  (_update_start_line
                     (set_name nm
                        (set_suffix sfx2
                           (set_name ""
                              (set_ext_nodes []
                                 (set_subcircuit_filepath path self0)))))))).
  assert (Hs6 : as_netlist s6 = NetList_init "") by exact Hfresh.
  destruct (read_loop_replays py_float calls (NetList_init "") s6)
    as [nlF [lines [Hrun [Hdevs [Hsubs [Hlines [Hlen Hread]]]]]]].
  { apply NetList_init_has_device_counters. }
  { intros ty _. now rewrite Hs6. }
  { exact Hcalls. }
  cbn [devices subcircuits NetList_init app] in Hdevs, Hsubs.
  assert (Hflat : flat_subcircuit nm ext sfx calls
                  = set_netlist nlF (SubCircuit_init nm ext sfx "")).
  { unfold flat_subcircuit, inherited.
    change (as_netlist (SubCircuit_init nm ext sfx "")) with (NetList_init "").
    now rewrite Hrun. }
  assert (Htext : subcircuit_text (flat_subcircuit nm ext sfx calls)
                  = join "" (header :: lines ++ [footer])).
  { rewrite Hflat. destruct nlF as [fpF subsF devsF dF totF].
    cbn in Hdevs, Hsubs. subst subsF devsF.
    rewrite join_empty_cons, join_empty_app, join_empty_cons.
    cbn. now rewrite string_app_nil_r. }
  assert (Hreadlines : readlines (subcircuit_text (flat_subcircuit nm ext sfx calls))
                       = header :: lines ++ [footer]).
  { rewrite Htext. apply readlines_join.
    constructor; [now apply header_is_line |].
    apply Forall_app. split; [exact Hlines |].
    constructor; [now apply footer_is_line | constructor]. }
  destruct (Hread footer [])
    as [loaded [Hloaded [Hkeep [HdevL HtotL]]]].
  { subst footer. now rewrite footer_split. }
  exists (refreshed (flat_subcircuit nm ext sfx calls)),
         (with_content path ("" +:+ subcircuit_text (flat_subcircuit nm ext sfx calls)) w),
         loaded.
  split.
  { rewrite <- (with_content_id path "" w Hfile) at 1.
    apply write_subcircuit_content. }
  split.
  { unfold load_from_file.
    unfold bind at 1 2 3 4. unfold modify at 1 2 3 4.
    rewrite with_content_lookup.
    change ("" +:+ ?x) with x. rewrite Hreadlines.
    cbn [readline is_empty].
    unfold header. rewrite !(header_split nm ext Hnm Hext).
    change (is_empty (".SUBCIRCUIT " +:+ ?x)) with false.
    unfold index, bind, modify, ret, get. cbn [nth_error skipn].
    exact Hloaded. }
  destruct Hkeep as [K1 [K2 [K3 _]]].
  rewrite K1, K2, K3, HdevL, HtotL, Hs6, Hflat.
  cbn [as_netlist set_netlist devices count_device_total NetList_init app
       name ext_nodes suffix].
  repeat split; try reflexivity.
  - now rewrite Hdevs.
  - exact Hlen.
Qed.

Lemma write_then_load_witness :
  files empty_file_world !! "rc.cir" = Some ""
  /\ is_token "RC" = true
  /\ Forall (fun t => is_token t = true) ["in"; "out"]
  /\ Forall (loadable_call sample_py_float) sample_calls
  /\ as_netlist new_subcircuit = NetList_init ""
  /\ exists written w' loaded,
       _write_subcircuit (flat_subcircuit "RC" ["in"; "out"] "F" sample_calls)
         (PyTextIO (mkTextIO "rc.cir" false)) empty_file_world = (Ok written, w')
       /\ load_from_file sample_py_float (files w') "rc.cir" [] "" "G" new_subcircuit
          = (Ok tt, loaded)
       /\ name loaded = "RC"
       /\ ext_nodes loaded = ["in"; "out"].
Proof.
  assert (H1 : files empty_file_world !! "rc.cir" = Some "") by reflexivity.
  assert (H2 : is_token "RC" = true) by reflexivity.
  assert (H3 : Forall (fun t => is_token t = true) ["in"; "out"])
    by (repeat constructor).
  assert (H4 : Forall (loadable_call sample_py_float) sample_calls).
  { repeat constructor; cbn; try tauto; try (repeat constructor);
      exists float_1000; split; vm_compute; reflexivity. }
  assert (H5 : as_netlist new_subcircuit = NetList_init "") by reflexivity.
  split; [exact H1 |]. split; [exact H2 |]. split; [exact H3 |].
  split; [exact H4 |]. split; [exact H5 |].
  destruct (write_then_load sample_py_float empty_file_world "rc.cir" "RC" "F" "G"
              ["in"; "out"] sample_calls new_subcircuit H1 H2 H3 H4 H5)
    as [written [w' [loaded [Hw [Hl [Hn [He _]]]]]]].
  exists written, w', loaded. repeat split; assumption.
Defined.

(** The sample written and loaded back. *)
Example sample_write_then_load :
  exists loaded,
    load_from_file sample_py_float
      (files (snd (_write_subcircuit
                     (flat_subcircuit "RC" ["in"; "out"] "F" sample_calls)
                     (PyTextIO (mkTextIO "rc.cir" false)) empty_file_world)))
      "rc.cir" [] "" "G" new_subcircuit = (Ok tt, loaded)
    /\ name loaded = "RC"
    /\ ext_nodes loaded = ["in"; "out"]
    /\ devices (as_netlist loaded)
       = ["R1 n1 n2 1.000000e+03" +:+ _END_OF_LINE;
          "C1 n2 0 1.000000e+03" +:+ _END_OF_LINE;
          "R2 n2 n3 1.000000e+03" +:+ _END_OF_LINE].
Proof. eexists. repeat split; vm_compute; reflexivity. Qed.

(** X13: with no name and no nodes given, [load_from_file] takes the name
    from the second token of the first line and the external nodes from the
    tokens after it, without looking at the first token, and keeps them
    whatever happens on the following lines; when the first line has fewer
    than two tokens it raises IndexError before any line is used, leaving the
    sub-circuit with an empty name and nothing added. *)
Theorem load_reads_name_from_first_line
    (py_float : string -> result spec_float) (fs : gmap string string)
    (path sfx text first : string) (stream : list string) (self : SubCircuit) :
  fs !! path = Some text ->
  readlines text = first :: stream ->
  (forall t0 t1 rest,
     split first = t0 :: t1 :: rest ->
     name (snd (load_from_file py_float fs path [] "" sfx self)) = t1
     /\ ext_nodes (snd (load_from_file py_float fs path [] "" sfx self)) = rest)
  /\ (nth_error (split first) 1 = None ->
        load_from_file py_float fs path [] "" sfx self
        = (Raise IndexError,
           mkSubCircuit (as_netlist self) "" [] sfx (comment self)
             (start_line self) (end_line self) (Some path))).
Proof.
  intros Hfs Hlines. split.
  - intros t0 t1 rest Hsplit.
    unfold load_from_file.
    unfold bind at 1 2 3 4. unfold modify at 1 2 3 4.
    rewrite Hfs, Hlines. cbn [readline is_empty]. rewrite Hsplit.
    unfold index, bind, modify, ret, get. cbn [nth_error skipn].
    cbn [ext_nodes _update_end_line _update_start_line set_name
      set_suffix set_ext_nodes set_subcircuit_filepath set_start_line
      set_end_line].
    destruct (is_empty first); [now split |].
    match goal with
    | |- context [read_loop py_float stream ?s] =>
        pose proof (read_loop_keeps py_float stream s) as [K1 [K2 _]]
    end.
    rewrite K1, K2. now split.
  - intros Hnone. unfold load_from_file.
    unfold bind at 1 2 3 4. unfold modify at 1 2 3 4.
    rewrite Hfs, Hlines. cbn [readline is_empty].
    unfold index. rewrite Hnone. reflexivity.
Qed.

Lemma load_reads_name_from_first_line_witness :
  sample_files !! "rc.cir"
    = Some (text_of_lines [".SUBCIRCUIT RC in out"; "R1 in out 1.000000e+03";
                           "C1 out 0 1.000000e+03"; ".ENDS RC"])
  /\ readlines (text_of_lines [".SUBCIRCUIT RC in out"; "R1 in out 1.000000e+03";
                               "C1 out 0 1.000000e+03"; ".ENDS RC"])
     = (".SUBCIRCUIT RC in out" +:+ _END_OF_LINE)
         :: map (fun l => l +:+ _END_OF_LINE)
              ["R1 in out 1.000000e+03"; "C1 out 0 1.000000e+03"; ".ENDS RC"]
  /\ split (".SUBCIRCUIT RC in out" +:+ _END_OF_LINE) = [".SUBCIRCUIT"; "RC"; "in"; "out"]
  /\ name (snd (load_from_file sample_py_float sample_files "rc.cir" [] "" "F"
                  new_subcircuit)) = "RC"
  /\ ext_nodes (snd (load_from_file sample_py_float sample_files "rc.cir" [] "" "F"
                       new_subcircuit)) = ["in"; "out"].
Proof.
  assert (H1 : sample_files !! "rc.cir"
    = Some (text_of_lines [".SUBCIRCUIT RC in out"; "R1 in out 1.000000e+03";
                           "C1 out 0 1.000000e+03"; ".ENDS RC"]))
    by (vm_compute; reflexivity).
  assert (H2 : readlines (text_of_lines [".SUBCIRCUIT RC in out"; "R1 in out 1.000000e+03";
                               "C1 out 0 1.000000e+03"; ".ENDS RC"])
     = (".SUBCIRCUIT RC in out" +:+ _END_OF_LINE)
         :: map (fun l => l +:+ _END_OF_LINE)
              ["R1 in out 1.000000e+03"; "C1 out 0 1.000000e+03"; ".ENDS RC"])
    by (vm_compute; reflexivity).
  assert (H3 : split (".SUBCIRCUIT RC in out" +:+ _END_OF_LINE)
               = [".SUBCIRCUIT"; "RC"; "in"; "out"])
    by (vm_compute; reflexivity).
  split; [exact H1 |]. split; [exact H2 |]. split; [exact H3 |].
  exact (proj1 (load_reads_name_from_first_line sample_py_float sample_files
                  "rc.cir" "F" _ _ _ new_subcircuit H1 H2) _ _ _ H3).
Defined.
